(** * NodeSecureScanner: pattern matcher, domain aggregators, composite score

    A shallow embedding of the scanning core of NodeSecureScanner
    (utils/fileUtils.js, scanner/*.js, the score of
    scanner/reportGenerator.js and the totals of index.js), with the
    properties of its specification stated and proved over it.

    Conventions.
    - A JavaScript string is the list of its UTF-16 code units ([list N]).
    - A JavaScript number that is an integer in the code (a length, a
      count, a score built from integers) is a [Z]; the composite score,
      which multiplies by 1.5, is computed in [Q].  Both agree with IEEE
      doubles as long as every intermediate value is below 2^53 in
      magnitude, which holds for counts of files and findings.
    - [null] and [undefined] are [None]. *)

From stdpp Require Import gmap strings list fin_maps.
From Stdlib Require Import ZArith QArith Qround Qminmax Lia Lqa.

Local Open Scope Z_scope.

(** ** JavaScript strings *)

Module JS.

(** Code units of a literal written in ASCII. *)
Definition str (s : string) : list N :=
  List.map Ascii.N_of_ascii (String.list_ascii_of_string s).

(** A number that may be [NaN]. *)
Inductive Num := NaN | Int (z : Z).

(** [a <= b] and [a >= b]; a comparison with [NaN] is false. *)
Definition le (a : Num) (b : Z) : bool :=
  match a with Int z => z <=? b | NaN => false end.
Definition ge (a : Num) (b : Z) : bool :=
  match a with Int z => b <=? z | NaN => false end.

(** WhiteSpace and LineTerminator code points of ECMAScript: the
    characters removed by [String.prototype.trim] and matched by [\s]. *)
Definition isWhiteSpace (c : N) : bool :=
  ((9 <=? c) && (c <=? 13) || (c =? 32) || (c =? 160) || (c =? 5760)
   || (8192 <=? c) && (c <=? 8202) || (c =? 8232) || (c =? 8233)
   || (c =? 8239) || (c =? 8287) || (c =? 12288) || (c =? 65279))%N.

(** LineTerminator: the characters [.] does not match. *)
Definition isLineTerminator (c : N) : bool :=
  ((c =? 10) || (c =? 13) || (c =? 8232) || (c =? 8233))%N.

Definition isDigit (c : N) : bool := ((48 <=? c) && (c <=? 57))%N.

Definition isUpper (c : N) : bool := ((65 <=? c) && (c <=? 90))%N.
Definition isLower (c : N) : bool := ((97 <=? c) && (c <=? 122))%N.

(** [\w] without the unicode flag: [A-Za-z0-9_]. *)
Definition isWordChar (c : N) : bool :=
  isUpper c || isLower c || isDigit c || (c =? 95)%N.

Definition toUpper (c : N) : N := if isLower c then (c - 32)%N else c.
Definition toLower (c : N) : N := if isUpper c then (c + 32)%N else c.

(** [s.startsWith(p)] *)
Fixpoint startsWith (s p : list N) {struct p} : bool :=
  match p, s with
  | [], _ => true
  | _ :: _, [] => false
  | a :: p', b :: s' => (a =? b)%N && startsWith s' p'
  end.

(** [s.includes(sub)] *)
Fixpoint includes (s sub : list N) : bool :=
  startsWith s sub ||
  match s with
  | [] => false
  | _ :: s' => includes s' sub
  end.

(** [s.split('\n')]: never empty, [''.split('\n')] is [['']]. *)
Fixpoint split_lines (s : list N) : list (list N) :=
  match s with
  | [] => [[]]
  | c :: s' =>
      if (c =? 10)%N then [] :: split_lines s'
      else match split_lines s' with
           | l :: ls => (c :: l) :: ls
           | [] => [[c]]
           end
  end.

Fixpoint trimStart (s : list N) : list N :=
  match s with
  | c :: s' => if isWhiteSpace c then trimStart s' else s
  | [] => []
  end.

Definition trimEnd (s : list N) : list N := rev (trimStart (rev s)).

(** [s.trim()] *)
Definition trim (s : list N) : list N := trimEnd (trimStart s).

(** [s.substring(i, j)] for [i <= j]. *)
Definition substring (s : list N) (i j : nat) : list N :=
  take (j - i) (drop i s).

(** [l.findIndex(p)]: the index of the first element satisfying [p],
    or -1. *)
Fixpoint findIndex {A} (p : A -> bool) (l : list A) : Z :=
  match l with
  | [] => -1
  | x :: l' =>
      if p x then 0
      else let i := findIndex p l' in if i <? 0 then -1 else i + 1
  end.

(** Value of a run of decimal digits, most significant first, with the
    rest of the string. *)
Fixpoint digits (acc : Z) (seen : bool) (s : list N) : option Z :=
  match s with
  | c :: s' =>
      if isDigit c then digits (10 * acc + (Z.of_N c - 48)) true s'
      else if seen then Some acc else None
  | [] => if seen then Some acc else None
  end.

(** [parseInt(s, 10)]: leading white space is skipped, a sign is read,
    then the longest run of digits; without a digit the result is [NaN].
    The value is exact here; a double rounds it above 2^53, which keeps
    its order with respect to the thresholds it is compared with. *)
Definition parseInt (s : list N) : Num :=
  let num (o : option Z) := match o with Some z => Int z | None => NaN end in
  match trimStart s with
  | c :: s' =>
      if (c =? 45)%N then num (Z.opp <$> digits 0 false s')
      else if (c =? 43)%N then num (digits 0 false s')
      else num (digits 0 false (c :: s'))
  | [] => NaN
  end.

(** [s.toUpperCase()] and [s.toLowerCase()] on a string of ASCII
    characters. *)
Definition toUpperCase (s : list N) : list N := List.map toUpper s.
Definition toLowerCase (s : list N) : list N := List.map toLower s.

End JS.

(** ** Regular expressions

    The patterns of the rule registries are regular-expression literals.
    They are embedded as abstract syntax, and matched by the backtracking
    matcher of ECMA-262 (22.2.2, "Pattern Semantics"): a matcher takes a
    state (end index and captures) and a continuation, alternatives are
    tried left to right, quantifiers are greedy unless marked lazy, and
    an iteration of a quantifier that consumes nothing is rejected.

    Only the constructs the registries use are present.  No pattern
    handed to [findFilesWithPattern], or matched against a context by
    the scanners embedded below, carries the [g], [m], [s], [u] or [y]
    flag, so the only flag is [i].  A quantifier runs on fuel, one unit
    per iteration; an iteration lowers [min] or consumes a character, so
    the fuel it is given, [min] plus the characters left plus one, is
    never used up.  Case folding is the one of the non-unicode mode
    restricted to ASCII letters, which is exact for patterns written in
    ASCII (a character above 127 never folds to one below 128). *)

Module RegExp.

Inductive ClassAtom :=
| CChar (c : N)            (* a single character *)
| CRange (lo hi : N)       (* lo-hi *)
| CDigit                   (* \d *)
| CSpace                   (* \s *)
| CWord.                   (* \w *)

Inductive Regex :=
| REmpty
| RChar (c : N)
| RDot
| RClass (invert : bool) (atoms : list ClassAtom)
| RSeq (r1 r2 : Regex)
| RAlt (r1 r2 : Regex)
| RQuant (r : Regex) (min : nat) (max : option nat) (greedy : bool)
| RGroup (idx : nat) (r : Regex)          (* capturing group number idx >= 1 *)
| RLookahead (negative : bool) (r : Regex)
| RWordBoundary.                          (* \b *)

Record t := { source : Regex; ignoreCase : bool }.

(** Capturing groups of a pattern. *)
Fixpoint groupsOf (r : Regex) : list nat :=
  match r with
  | RSeq r1 r2 | RAlt r1 r2 => groupsOf r1 ++ groupsOf r2
  | RQuant r _ _ _ | RLookahead _ r => groupsOf r
  | RGroup i r => i :: groupsOf r
  | _ => []
  end.

Definition nGroups (r : Regex) : nat := foldr Nat.max 0%nat (groupsOf r).

Definition atomHas (a : ClassAtom) (c : N) : bool :=
  match a with
  | CChar x => (c =? x)%N
  | CRange lo hi => ((lo <=? c) && (c <=? hi))%N
  | CDigit => JS.isDigit c
  | CSpace => JS.isWhiteSpace c
  | CWord => JS.isWordChar c
  end.

(** State of a match: end index and captures (group [i] at index [i-1]). *)
Definition State : Type := nat * list (option (nat * nat)).
Definition Continuation : Type := State -> option State.
Definition Matcher : Type := State -> Continuation -> option State.

Section Matcher.
Variable ic : bool.        (* the i flag *)
Variable input : list N.

(** CharacterSetMatcher: some member of the set canonicalizes to the
    canonical form of the input character, that is, the set holds the
    character in upper or in lower case. *)
Definition setHas (p : N -> bool) (c : N) : bool :=
  if ic then p (JS.toUpper c) || p (JS.toLower c) else p c.

Definition charMatcher (p : N -> bool) (invert : bool) : Matcher :=
  fun x k =>
    match input !! x.1 with
    | Some c => if xorb (setHas p c) invert then k (S x.1, x.2) else None
    | None => None
    end.

Definition clearCaptures (gs : list nat) (caps : list (option (nat * nat)))
  : list (option (nat * nat)) :=
  foldr (fun i cs => <[Nat.pred i := None]> cs) caps gs.

(** RepeatMatcher; [fuel] bounds the number of iterations. *)
Fixpoint repeatMatcher (m : Matcher) (gs : list nat) (fuel : nat)
    (min : nat) (max : option nat) (greedy : bool) : Matcher :=
  fun x k =>
    match fuel with
    | O => None
    | S fuel' =>
        match max with
        | Some O => k x
        | _ =>
            let d : Continuation := fun y =>
              if Nat.eqb min 0 && Nat.eqb y.1 x.1 then None
              else repeatMatcher m gs fuel' (Nat.pred min)
                     (Nat.pred <$> max) greedy y k in
            let xr : State := (x.1, clearCaptures gs x.2) in
            if negb (Nat.eqb min 0) then m xr d
            else if negb greedy then
              match k x with
              | Some z => Some z
              | None => m xr d
              end
            else
              match m xr d with
              | Some z => Some z
              | None => k x
              end
        end
    end.

Definition isWordAt (i : nat) : bool :=
  match input !! i with
  | Some c => JS.isWordChar c
  | None => false
  end.

Fixpoint compile (r : Regex) : Matcher :=
  match r with
  | REmpty => fun x k => k x
  | RChar c => charMatcher (fun a => (a =? c)%N) false
  | RDot => charMatcher (fun a => negb (JS.isLineTerminator a)) false
  | RClass invert atoms =>
      charMatcher (fun a => existsb (fun at_ => atomHas at_ a) atoms) invert
  | RSeq r1 r2 => fun x k => compile r1 x (fun y => compile r2 y k)
  | RAlt r1 r2 => fun x k =>
      match compile r1 x k with
      | Some z => Some z
      | None => compile r2 x k
      end
  | RQuant r min max greedy => fun x k =>
      repeatMatcher (compile r) (groupsOf r)
        (S (min + (length input - x.1))) min max greedy x k
  | RGroup i r => fun x k =>
      compile r x (fun y => k (y.1, <[Nat.pred i := Some (x.1, y.1)]> y.2))
  | RLookahead negative r => fun x k =>
      match compile r x Some with
      | Some y => if negative then None else k (x.1, y.2)
      | None => if negative then k x else None
      end
  | RWordBoundary => fun x k =>
      let a := match x.1 with O => false | S j => isWordAt j end in
      let b := isWordAt x.1 in
      if xorb a b then k x else None
  end.
End Matcher.

(** The array returned by a successful match: the start index, the
    matched text [m[0]] and the captures [m[1]], [m[2]], ... *)
Record MatchArray := {
  index : nat;
  matched : list N;
  captures : list (option (list N))
}.

Definition matchAt (re : t) (input : list N) (i : nat) : option State :=
  compile (ignoreCase re) input (source re)
    (i, replicate (nGroups (source re)) None) Some.

(** RegExpBuiltinExec without [g] or [y]: the first start index, from 0
    up to the length of the input, at which the pattern matches. *)
Fixpoint search (re : t) (input : list N) (fuel i : nat) : option MatchArray :=
  match fuel with
  | O => None
  | S fuel' =>
      match matchAt re input i with
      | Some y =>
          Some {| index := i;
                  matched := JS.substring input i y.1;
                  captures :=
                    List.map (option_map (fun se : nat * nat =>
                                JS.substring input se.1 se.2)) y.2 |}
      | None => search re input fuel' (S i)
      end
  end.

(** [re.exec(s)], which is also [s.match(re)] for a pattern without the
    [g] flag. *)
Definition exec (re : t) (s : list N) : option MatchArray :=
  search re s (S (length s)) 0.

(** [re.test(s)] *)
Definition test (re : t) (s : list N) : bool :=
  match exec re s with Some _ => true | None => false end.

(** Notation-free builders used to transcribe the literals. *)
Definition lit (s : string) : Regex :=
  foldr (fun c r => RSeq (RChar c) r) REmpty (JS.str s).
Definition seq (rs : list Regex) : Regex := foldr RSeq REmpty rs.
Definition alt (r : Regex) (rs : list Regex) : Regex :=
  foldl RAlt r rs.
Definition star (r : Regex) : Regex := RQuant r 0 None true.
Definition plus (r : Regex) : Regex := RQuant r 1 None true.
Definition opt (r : Regex) : Regex := RQuant r 0 (Some 1%nat) true.
Definition ch (s : string) : ClassAtom :=
  match JS.str s with c :: _ => CChar c | [] => CChar 0 end.
Definition ws : Regex := RClass false [CSpace].          (* \s *)
Definition digit : Regex := RClass false [CDigit].       (* \d *)
(** One of the three quote characters (39, 34, 96), and its complement. *)
Definition quote : Regex :=
  RClass false [CChar 39; CChar 34; CChar 96].
Definition notQuote : Regex :=
  RClass true [CChar 39; CChar 34; CChar 96].
Definition icase (r : Regex) : t := {| source := r; ignoreCase := true |}.

End RegExp.

(** ** utils/fileUtils.js *)

Module FileUtils.

(** A file of the project as the scanners see it: its path relative to
    the project root ([path.relative(projectPath, file)]) and its text
    ([readFileContent], which is [''] for an unreadable file). *)
Record SourceFile := {
  relativePath : string;
  content : list N
}.

(** A value of a parsed JSON document, as far as the methods called on
    it tell one from another: a string, an array, or any other value (a
    number, a boolean, null or an object), which has neither
    [startsWith] nor [includes]. *)
#[warnings="-register-all"]
Inductive Json :=
| JString (s : list N)
| JArray (items : list Json)
| JOther.

(** The objects [dependencies] and [scripts] of package.json as
    [Object.entries] yields them, in their order, with the values as
    they were parsed; [None] when the key is absent or its value is
    falsy. *)
Record Manifest := {
  m_dependencies : option (list (list N * Json));
  m_scripts : option (list (list N * Json))
}.

(** package.json, as far as the scanners read it.  [dependencies] and
    [devDependencies] are what the scanners that look a package up read:
    a version that is the empty string is falsy in [dependencies[pkg]].
    [entries] is what [checkDependencyBestPractices] iterates over. *)
Record PackageJson := {
  dependencies : option (gmap string string);
  devDependencies : option (gmap string string);
  entries : Manifest
}.

(** The project on disk.  [packageJson] is the result of
    [parsePackageJson]: [None] when package.json is absent or cannot be
    parsed.  [findFiles] is [glob.sync] on a file pattern, each path
    paired with its content. *)
Record Project := {
  packageJson : option PackageJson;
  findFiles : string -> list SourceFile
}.

(** The content pattern of [findFilesWithPattern]: a string or a RegExp. *)
Inductive ContentPattern :=
| PString (s : list N)
| PRegExp (re : RegExp.t).

(** An element of the array returned by [findFilesWithPattern]. *)
Record Match := {
  file : string;
  line : option Z;
  context : option (list N)
}.

(** One iteration of the loop of [findFilesWithPattern]: the array
    [matches] after the body has run on [f]. *)
Definition findFilesWithPattern_step (contentPattern : ContentPattern)
    (matches : list Match) (f : SourceFile) : list Match :=
  let content := content f in
  let relativePath := relativePath f in
  match contentPattern with
  | PString s =>
      if JS.includes content s then
        let lines := JS.split_lines content in
        let lineNumber := JS.findIndex (fun line => JS.includes line s) lines in
        matches ++ [ {| file := relativePath;
                        line := if 0 <=? lineNumber then Some (lineNumber + 1)
                                else None;
                        context := if 0 <=? lineNumber
                                   then lines !! Z.to_nat lineNumber
                                   else None |} ]
      else matches
  | PRegExp re =>
      match RegExp.exec re content with
      | Some m =>
          let lines := JS.split_lines content in
          let matchedText := RegExp.matched m in
          let lineNumber :=
            JS.findIndex (fun line => JS.includes line matchedText) lines in
          matches ++ [ {| file := relativePath;
                          line := if 0 <=? lineNumber then Some (lineNumber + 1)
                                  else None;
                          context := if 0 <=? lineNumber
                                     then JS.trim <$> lines !! Z.to_nat lineNumber
                                     else None |} ]
      | None => matches
      end
  end.

Definition findFilesWithPattern (p : Project) (filePattern : string)
    (contentPattern : ContentPattern) : list Match :=
  let files := findFiles p filePattern in
  foldl (findFilesWithPattern_step contentPattern) [] files.

End FileUtils.

(** ** What the scanners share *)

Import FileUtils.

(** The file pattern every scanner modelled here passes. *)
Definition filePattern : string := "**/*.{js,ts,jsx,tsx}".

(** [{ ...packageJson.dependencies, ...packageJson.devDependencies }]:
    later entries win. *)
Definition spreadDependencies (pj : PackageJson) : gmap string string :=
  default ∅ (devDependencies pj) ∪ default ∅ (dependencies pj).

(** [dependencies && dependencies[pkg]] as a condition. *)
Definition hasDependency (deps : gmap string string) (pkg : string) : bool :=
  match deps !! pkg with
  | Some v => negb (String.eqb v "")
  | None => false
  end.

(** Severity levels of the rule registries. *)
Inductive Severity := CRITICAL | HIGH | MEDIUM | LOW | INFO.

Definition Severity_eqb (a b : Severity) : bool :=
  match a, b with
  | CRITICAL, CRITICAL | HIGH, HIGH | MEDIUM, MEDIUM | LOW, LOW | INFO, INFO => true
  | _, _ => false
  end.

(** [for (const x of xs) for (const y of f x) out.push(g x y)] *)
Definition pushAll {A B C} (xs : list A) (f : A -> list B) (g : A -> B -> C)
  : list C :=
  foldl (fun out x => foldl (fun out y => out ++ [g x y]) out (f x)) [] xs.

(** A rule of a registry ([name] is called [type] in some registries),
    and the issue a scanner builds from a rule and a match. *)
Record Rule := {
  name : string;
  pattern : RegExp.t;
  severity : Severity;
  solution : string;
  threshold : option Z
}.

Record Issue := {
  i_file : string;
  i_line : option Z;
  i_name : string;
  i_severity : Severity;
  i_solution : string;
  i_context : option (list N);
  i_value : option JS.Num     (* set by the rate-limit scanner only *)
}.

Definition mkIssue (r : Rule) (m : Match) : Issue :=
  {| i_file := file m; i_line := line m; i_name := name r;
     i_severity := severity r; i_solution := solution r;
     i_context := context m; i_value := None |}.

(** [for (const pattern of rules)
       for (const result of findFilesWithPattern(.., pattern.pattern))
         issues.push({file, line, name, severity, solution, context})] *)
Definition collectIssues (p : Project) (rules : list Rule) : list Issue :=
  pushAll rules
    (fun r => findFilesWithPattern p filePattern (PRegExp (pattern r)))
    mkIssue.

(** ** scanner/corsScanner.js *)

Module CorsScanner.
Import RegExp.

(** The comments quote the patterns of the source with blanks between
    their tokens; [Q] stands for the class of the three quote characters
    (single, double, backtick) and [q] for the class of the single and
    the double quote. *)

(** cors\( \s* \{ \s* *)
Definition corsOpen : list Regex :=
  [lit "cors("; star ws; lit "{"; star ws].

(** (?: [^}]* \s* , \s* )? *)
Definition earlierOptions : Regex :=
  opt (seq [star (RClass true [ch "}"]); star ws; lit ","; star ws]).

Definition wildcardOrigin : Rule :=
  {| name := "CORS permissif avec wildcard";
     (* / cors\( \s* \{ \s* origin \s* : \s* [Q] \* [Q] /i *)
     pattern := icase (seq (corsOpen ++
       [lit "origin"; star ws; lit ":"; star ws; quote; lit "*"; quote]));
     severity := HIGH;
     solution := "Limitez les origines CORS à des domaines spécifiques en utilisant un tableau ou une fonction";
     threshold := None |}.

Definition withCredentials : Rule :=
  {| name := "CORS avec credentials";
     (* / cors\( \s* \{ \s* (?: [^}]* \s* , \s* )? credentials \s* : \s* true /i *)
     pattern := icase (seq (corsOpen ++
       [earlierOptions; lit "credentials"; star ws; lit ":"; star ws;
        lit "true"]));
     severity := MEDIUM;
     solution := "Vérifiez que credentials: true est utilisé uniquement avec des origines spécifiques, jamais avec *";
     threshold := None |}.

Definition permissiveMethods : Rule :=
  {| name := "CORS avec méthodes permissives";
     (* / cors\( \s* \{ \s* (?: [^}]* \s* , \s* )? methods \s* : \s* [Q]
          ( GET, \s* POST, \s* PUT, \s* DELETE, \s* PATCH | [^q]* \* [^q]* ) [Q] /i *)
     pattern := icase (seq (corsOpen ++
       [earlierOptions; lit "methods"; star ws; lit ":"; star ws; quote;
        RGroup 1 (RAlt
          (seq [lit "GET,"; star ws; lit "POST,"; star ws; lit "PUT,";
                star ws; lit "DELETE,"; star ws; lit "PATCH"])
          (seq [star (RClass true [CChar 39; CChar 34]); lit "*";
                star (RClass true [CChar 39; CChar 34])]));
        quote]));
     severity := MEDIUM;
     solution := "Limitez les méthodes HTTP à celles strictement nécessaires pour votre API";
     threshold := None |}.

Definition permissiveHeaders : Rule :=
  {| name := "CORS avec allowedHeaders permissifs";
     (* / cors\( \s* \{ \s* (?: [^}]* \s* , \s* )? allowedHeaders \s* : \s* [Q] \* [Q] /i *)
     pattern := icase (seq (corsOpen ++
       [earlierOptions; lit "allowedHeaders"; star ws; lit ":"; star ws;
        quote; lit "*"; quote]));
     severity := MEDIUM;
     solution := "Spécifiez explicitement les en-têtes autorisés au lieu d'utiliser *";
     threshold := None |}.

Definition corsPatterns : list Rule :=
  [wildcardOrigin; withCredentials; permissiveMethods; permissiveHeaders].

(** / cors\( /i *)
Definition corsCall : RegExp.t := icase (lit "cors(").


(** / res\.header\( [Q] ( Access-Control-Allow- | Origin ) /i *)
Definition manualHeader : RegExp.t :=
  icase (seq [lit "res.header("; quote;
              RGroup 1 (RAlt (lit "Access-Control-Allow-") (lit "Origin"))]).

(** / helmet\( /i *)
Definition helmetCall : RegExp.t := icase (lit "helmet(").

(** / origin \s* : \s* ( [^,}]+ ) /i and / credentials \s* : \s* ( [^,}]+ ) /i *)
Definition optionValue (key : string) : RegExp.t :=
  icase (seq [lit key; star ws; lit ":"; star ws;
              RGroup 1 (plus (RClass true [ch ","; ch "}"]))]).

Record Configuration := {
  c_file : string;
  c_line : option Z;
  c_origin : list N;
  c_credentials : list N;
  c_context : list N
}.

(** The object returned by [scanCORS]; the constant fields
    [recommendations] and [recommendedConfig] are left out.  [installed]
    is [None] for the falsy values ([false], [undefined]) and the version
    string otherwise. *)
Record Result := {
  installed : option string;
  detected : bool;
  status : string;
  issues : list Issue;
  configurations : list Configuration;
  manualHeaders : bool;
  helmetUsed : bool;
  securityScore : Z
}.

(** 'Non détectée' (233 is e with an acute accent) *)
Definition nonDetectee : list N :=
  JS.str "Non d" ++ [233%N] ++ JS.str "tect" ++ [233%N] ++ JS.str "e".

(** [m[1].trim()] of [context.match(re)], or the default. *)
Definition extractOption (re : RegExp.t) (context : list N) : list N :=
  match exec re context with
  | Some m =>
      match captures m !! 0%nat with
      | Some (Some v) => JS.trim v
      | _ => nonDetectee
      end
  | None => nonDetectee
  end.

Definition isWildcard (i : Issue) : bool :=
  String.eqb (i_name i) "CORS permissif avec wildcard".

Definition scanCORS (p : Project) : Result :=
  let corsInstalled :=
    match packageJson p with
    | Some pj =>
        match spreadDependencies pj !! "cors" with
        | Some v => if String.eqb v "" then None else Some v
        | None => None
        end
    | None => None
    end in
  let corsUsage := findFilesWithPattern p filePattern (PRegExp corsCall) in
  let corsDetected := negb (Nat.eqb (length corsUsage) 0) in
  let manualCorsHeaders :=
    findFilesWithPattern p filePattern (PRegExp manualHeader) in
  let hasManual := negb (Nat.eqb (length manualCorsHeaders) 0) in
  let corsIssues := collectIssues p corsPatterns in
  let corsStatus :=
    if corsDetected then
      if existsb isWildcard corsIssues then "⚠️ CORS permissif (*) détecté"
      else "✅ CORS restreint"
    else if hasManual then "⚠️ Configuration CORS manuelle détectée"
    else "❌ Aucun CORS détecté" in
  let corsConfigurations :=
    List.map (fun result =>
      let context := default [] (context result) in
      {| c_file := file result; c_line := line result;
         c_origin := extractOption (optionValue "origin") context;
         c_credentials := extractOption (optionValue "credentials") context;
         c_context := context |}) corsUsage in
  let helmetUsage := findFilesWithPattern p filePattern (PRegExp helmetCall) in
  let helmetDetected := negb (Nat.eqb (length helmetUsage) 0) in
  let corsSecurityScore :=
    if corsDetected || hasManual then
      let s := 50 in
      let s := if negb (existsb isWildcard corsIssues) then s + 25 else s in
      let s := if negb (existsb (fun i => Severity_eqb (i_severity i) HIGH)
                          corsIssues) then s + 15 else s in
      let mediumIssues :=
        Z.of_nat (length (List.filter
                            (fun i => Severity_eqb (i_severity i) MEDIUM)
                            corsIssues)) in
      if mediumIssues =? 0 then s + 10
      else if mediumIssues <=? 1 then s + 5
      else s
    else 0 in
  {| installed := corsInstalled;
     detected := corsDetected || hasManual;
     status := corsStatus;
     issues := corsIssues;
     configurations := corsConfigurations;
     manualHeaders := hasManual;
     helmetUsed := helmetDetected;
     securityScore := corsSecurityScore |}.

End CorsScanner.

(** ** scanner/rateLimitScanner.js *)

Module RateLimitScanner.
Import RegExp.

(** / require\( [q] pkg [q] | import \s+ .* \s+ from \s+ [q] pkg [q] /i *)
Definition importOf (pkg : string) : RegExp.t :=
  let q := RClass false [CChar 39; CChar 34] in
  icase (RAlt
    (seq [lit "require("; q; lit pkg; q])
    (seq [lit "import"; plus ws; star RDot; plus ws; lit "from"; plus ws;
          q; lit pkg; q])).

Record Detector := { d_name : string; d_pattern : RegExp.t }.

Definition rateLimitPatterns : list Detector :=
  [ {| d_name := "express-rate-limit"; d_pattern := importOf "express-rate-limit" |};
    {| d_name := "rate-limiter-flexible"; d_pattern := importOf "rate-limiter-flexible" |};
    {| d_name := "express-brute"; d_pattern := importOf "express-brute" |};
    {| d_name := "node-rate-limiter"; d_pattern := importOf "node-rate-limiter" |};
    {| d_name := "rate-limit-redis"; d_pattern := importOf "rate-limit-redis" |};
    {| d_name := "custom-rate-limiter";
       (* / function \s+ ( rateLimit | rateLimiter | limiter ) /i *)
       d_pattern := icase (seq [lit "function"; plus ws;
         RGroup 1 (alt (lit "rateLimit") [lit "rateLimiter"; lit "limiter"])]) |} ].

(** rateLimit\( \s* \{ \s* *)
Definition rateLimitOpen : list Regex :=
  [lit "rateLimit("; star ws; lit "{"; star ws].

(** (?: [^}]* \s* , \s* )? *)
Definition earlierOptions : Regex :=
  opt (seq [star (RClass true [ch "}"]); star ws; lit ","; star ws]).

Definition lowMax : Rule :=
  {| name := "Limite de taux faible";
     (* / rateLimit\( \s* \{ \s* (?: [^}]* \s* , \s* )? max \s* : \s* ( \d+ ) /i *)
     pattern := icase (seq (rateLimitOpen ++
       [earlierOptions; lit "max"; star ws; lit ":"; star ws;
        RGroup 1 (plus digit)]));
     severity := MEDIUM;
     solution := "Réduisez la valeur max pour les endpoints sensibles à moins de 100 requêtes";
     threshold := Some 100 |}.

Definition shortWindow : Rule :=
  {| name := "Fenêtre de temps de limite courte";
     (* / rateLimit\( \s* \{ \s* (?: [^}]* \s* , \s* )? windowMs \s* : \s* ( \d+ ) /i *)
     pattern := icase (seq (rateLimitOpen ++
       [earlierOptions; lit "windowMs"; star ws; lit ":"; star ws;
        RGroup 1 (plus digit)]));
     severity := LOW;
     solution := "Augmentez la durée de la fenêtre de temps (windowMs) pour une meilleure protection";
     threshold := Some 60000 |}.

Definition noMessage : Rule :=
  {| name := "Absence de message d'erreur";
     (* / rateLimit\( \s* \{ \s* (?! [^}]* message: ) /i *)
     pattern := icase (seq (rateLimitOpen ++
       [RLookahead true (seq [star (RClass true [ch "}"]); lit "message:"])]));
     severity := LOW;
     solution := "Ajoutez un message d'erreur personnalisé pour informer les utilisateurs de la limitation";
     threshold := None |}.

Definition rateLimitConfigPatterns : list Rule :=
  [lowMax; shortWindow; noMessage].

Definition sensitivePaths : list (list N) :=
  List.map JS.str
    ["/login"; "/signin"; "/register"; "/signup"; "/auth"; "/reset-password";
     "/forgot-password"; "/api/auth"; "/api/login"; "/api/signup"].

Definition rateLimitingPackages : list string :=
  ["express-rate-limit"; "rate-limiter-flexible"; "express-brute";
   "node-rate-limiter"; "rate-limit-redis"].

(** / app\. ( get | post | put | delete | patch ) \( \s* [Q] ( [^Q]+ ) [Q] /i *)
Definition routeDefinition : RegExp.t :=
  icase (seq [lit "app.";
              RGroup 1 (alt (lit "get") [lit "post"; lit "put"; lit "delete";
                                         lit "patch"]);
              lit "("; star ws; quote; RGroup 2 (plus notQuote); quote]).

(** The source text handed to [new RegExp] for a route: the template
    literal with the method and the path spliced in. *)
Definition protectionSource (method path : list N) : list N :=
  JS.str "app\.(?:use|" ++ JS.toLowerCase method ++ JS.str ")\(\s*['" ++
  [34%N] ++ JS.str "`]" ++ path ++ JS.str "['" ++ [34%N] ++
  JS.str "`]\s*,\s*(?:rateLimit|limiter)".

Record Detection := {
  d_type : string;
  occurrences : list Match
}.

Record Endpoint := {
  e_path : list N;
  e_method : list N;
  e_file : string;
  e_line : option Z
}.

Record Result := {
  status : string;
  installed_packages : list string;
  installed_count : Z;
  detected_implementations : list Detection;
  detected_count : Z;
  issues_configurationProblems : list Issue;
  issues_unprotectedEndpoints : list Endpoint;
  issues_count : Z;
  securityScore : Z
}.

(** The packages of the list declared by the manifest. *)
Definition installedPackagesOf (p : Project) : list string :=
  match packageJson p with
  | Some pj =>
      let dependencies := spreadDependencies pj in
      foldl (fun installedPackages pkg =>
               if hasDependency dependencies pkg
               then installedPackages ++ [pkg] else installedPackages)
            [] rateLimitingPackages
  | None => []
  end.

Definition rateLimitDetectionsOf (p : Project) : list Detection :=
  foldl (fun rateLimitDetections pattern =>
           let results :=
             findFilesWithPattern p filePattern (PRegExp (d_pattern pattern)) in
           if (0 <? Z.of_nat (length results))
           then rateLimitDetections ++
                  [ {| d_type := d_name pattern; occurrences := results |} ]
           else rateLimitDetections)
        [] rateLimitPatterns.

(** The extraction of [value] in the inner loop over the results of a
    configuration rule (the loop variable [pattern] of the source is
    [rule] here): [inl tt] when the iteration is left by [continue],
    [inr v] when it reaches the [push] with [value] equal to [v]. *)
Definition extractValue (rule : Rule) (result : Match)
  : unit + option JS.Num :=
  match threshold rule, context result with
  | Some t, Some ctx =>
      if negb (t =? 0) && negb (Nat.eqb (length ctx) 0) then
        match exec (pattern rule) ctx with
        | Some m =>
            match captures m !! 0%nat with
            | Some (Some m1) =>
                if negb (Nat.eqb (length m1) 0) then
                  let value := JS.parseInt m1 in
                  if String.eqb (name rule) "Limite de taux faible"
                     && JS.le value t then inl tt
                  else if String.eqb (name rule)
                            "Fenêtre de temps de limite courte"
                          && JS.ge value t then inl tt
                  else inr (Some value)
                else inr None
            | _ => inr None
            end
        | None => inr None
        end
      else inr None
  | _, _ => inr None
  end.

(** The body of that inner loop. *)
Definition configurationIssues_step (rule : Rule)
    (configurationIssues : list Issue) (result : Match) : list Issue :=
  match extractValue rule result with
  | inl _ => configurationIssues
  | inr value =>
      configurationIssues ++
        [ {| i_file := file result; i_line := line result;
             i_name := name rule;
             i_severity := severity rule;
             i_solution := solution rule;
             i_context := context result;
             i_value := value |} ]
  end.

Definition configurationIssuesOf (p : Project) (rules : list Rule)
  : list Issue :=
  foldl (fun configurationIssues rule =>
           let results :=
             findFilesWithPattern p filePattern (PRegExp (pattern rule)) in
           foldl (configurationIssues_step rule) configurationIssues results)
        [] rules.

(** The score computed at the end of [scanRateLimit], from the lengths
    of [rateLimitDetections], [installedPackages], [configurationIssues]
    and [unprotectedEndpoints]. *)
Definition rateLimitScore (detections installed configIssues unprotected : Z)
  : Z :=
  let securityScore := 0 in
  let securityScore :=
    if 0 <? detections then
      let securityScore := 50 in
      let securityScore := securityScore + Z.min 20 (installed * 5) in
      let securityScore := securityScore - Z.min 40 (configIssues * 10) in
      securityScore - Z.min 30 (unprotected * 10)
    else securityScore in
  Z.max 0 (Z.min 100 securityScore).

Section Scan.
(** [new RegExp(source, 'i')], the parser of pattern sources, which is
    not modelled: [None] when the constructor throws a SyntaxError. *)
Variable newRegExp : list N -> option RegExp.t.

Definition isSensitive (path : list N) : bool :=
  existsb (fun sensitive =>
             bool_decide (path = sensitive)
             || JS.includes path (sensitive ++ JS.str "/"))
          sensitivePaths.

(** The body of the loop over [routeDefinitions]; [None] when
    [new RegExp] throws. *)
Definition checkRoute (p : Project) (unprotectedEndpoints : list Endpoint)
    (route : Match) : option (list Endpoint) :=
  let context := default [] (context route) in
  match exec routeDefinition context with
  | Some routeMatch =>
      match captures routeMatch !! 1%nat, captures routeMatch !! 0%nat with
      | Some (Some path), Some (Some m1) =>
          if negb (Nat.eqb (length path) 0) then
            let method := JS.toUpperCase m1 in
            if isSensitive path && bool_decide (method = JS.str "POST") then
              match newRegExp (protectionSource method path) with
              | Some re =>
                  let routeIsProtected :=
                    0 <? Z.of_nat (length
                           (findFilesWithPattern p filePattern (PRegExp re))) in
                  if negb routeIsProtected then
                    Some (unprotectedEndpoints ++
                            [ {| e_path := path; e_method := method;
                                 e_file := file route;
                                 e_line := line route |} ])
                  else Some unprotectedEndpoints
              | None => None
              end
            else Some unprotectedEndpoints
          else Some unprotectedEndpoints
      | _, _ => Some unprotectedEndpoints
      end
  | None => Some unprotectedEndpoints
  end.

Definition unprotectedEndpointsOf (p : Project) : option (list Endpoint) :=
  let routeDefinitions :=
    findFilesWithPattern p filePattern (PRegExp routeDefinition) in
  foldl (fun acc route =>
           match acc with
           | Some unprotectedEndpoints =>
               checkRoute p unprotectedEndpoints route
           | None => None
           end)
        (Some []) routeDefinitions.

(** [scanRateLimit]; [None] when it throws.  The constant fields
    [recommendations] and [recommendedImplementation] are left out. *)
Definition scanRateLimit (p : Project) : option Result :=
  let installedPackages := installedPackagesOf p in
  let rateLimitDetections := rateLimitDetectionsOf p in
  let configurationIssues := configurationIssuesOf p rateLimitConfigPatterns in
  match unprotectedEndpointsOf p with
  | Some unprotectedEndpoints =>
      let nDetections := Z.of_nat (length rateLimitDetections) in
      let nIssues := Z.of_nat (length configurationIssues) in
      let nUnprotected := Z.of_nat (length unprotectedEndpoints) in
      let rateLimit :=
        if 0 <? nDetections then
          if (nIssues =? 0) && (nUnprotected =? 0)
          then "✅ Rate-limiting correctement configuré"
          else "⚠️ Rate-limiting détecté mais mal configuré ou incomplet"
        else "❌ Aucun système de rate-limiting détecté" in
      Some {| status := rateLimit;
              installed_packages := installedPackages;
              installed_count := Z.of_nat (length installedPackages);
              detected_implementations := rateLimitDetections;
              detected_count := nDetections;
              issues_configurationProblems := configurationIssues;
              issues_unprotectedEndpoints := unprotectedEndpoints;
              issues_count := nIssues + nUnprotected;
              securityScore :=
                rateLimitScore nDetections
                  (Z.of_nat (length installedPackages)) nIssues nUnprotected |}
  | None => None
  end.
End Scan.

End RateLimitScanner.

(** ** scanner/middlewareScanner.js *)

Module MiddlewareScanner.
Import RegExp.

Record Middleware := {
  m_name : string;
  description : string;
  priority : Severity;
  npm : string
}.

Definition securityMiddlewares : list Middleware :=
  [ {| m_name := "helmet"; priority := HIGH; npm := "helmet";
       description := "Ajoute diverses en-têtes HTTP de sécurité" |};
    {| m_name := "cors"; priority := HIGH; npm := "cors";
       description := "Configure les règles de partage de ressources cross-origin" |};
    {| m_name := "express-rate-limit"; priority := HIGH; npm := "express-rate-limit";
       description := "Limite le nombre de requêtes pour prévenir les attaques par force brute" |};
    {| m_name := "csurf"; priority := HIGH; npm := "csurf";
       description := "Protection contre les attaques CSRF" |};
    {| m_name := "express-validator"; priority := HIGH; npm := "express-validator";
       description := "Validation et sanitization des entrées utilisateur" |};
    {| m_name := "xss-clean"; priority := HIGH; npm := "xss-clean";
       description := "Nettoie les entrées utilisateur des scripts malveillants" |};
    {| m_name := "hpp"; priority := MEDIUM; npm := "hpp";
       description := "Protection contre la pollution des paramètres HTTP" |};
    {| m_name := "sanitize-html"; priority := MEDIUM; npm := "sanitize-html";
       description := "Nettoie le HTML des scripts et attributs malveillants" |};
    {| m_name := "cookie-parser"; priority := MEDIUM; npm := "cookie-parser";
       description := "Analye les cookies et les met à disposition dans req.cookies" |};
    {| m_name := "express-session"; priority := MEDIUM; npm := "express-session";
       description := "Gestion des sessions avec Express" |};
    {| m_name := "express-mongo-sanitize"; priority := MEDIUM;
       npm := "express-mongo-sanitize";
       description := "Prévient les injections NoSQL MongoDB" |};
    {| m_name := "content-security-policy"; priority := MEDIUM;
       npm := "helmet ou csp";
       description := "Définit des politiques CSP pour prévenir diverses attaques" |};
    {| m_name := "compression"; priority := LOW; npm := "compression";
       description := "Compresse les réponses HTTP" |};
    {| m_name := "express-fileupload"; priority := LOW; npm := "express-fileupload";
       description := "Sécurise le téléchargement de fichiers" |};
    {| m_name := "timeout"; priority := LOW; npm := "connect-timeout";
       description := "Définit un délai d'expiration pour les requêtes" |} ].

(** require\( [q] pkg [q] *)
Definition requireOf (pkg : string) : list Regex :=
  let q := RClass false [CChar 39; CChar 34] in
  [lit "require("; q; lit pkg; q].

(** / app\.use\( \s* ( v1 | .. | vn | require\( [q] pkg [q] \) ) \s* \( /i *)
Definition appUse (v : string) (vs : list string) (pkg : string) : RegExp.t :=
  icase (seq [lit "app.use("; star ws;
              RGroup 1 (alt (lit v)
                          ((lit <$> vs) ++ [seq (requireOf pkg ++ [lit ")"])]));
              star ws; lit "("]).

Record Detector := { d_name : string; d_pattern : RegExp.t }.

Definition middlewarePatterns : list Detector :=
  [ {| d_name := "helmet"; d_pattern := appUse "helmet" [] "helmet" |};
    {| d_name := "cors"; d_pattern := appUse "cors" [] "cors" |};
    {| d_name := "express-rate-limit";
       (* / ( rateLimit | rateLimiter | limiter ) \s* = \s*
            require\( [q] express-rate-limit [q] | app\.use\( \s* rateLimit /i *)
       d_pattern := icase (RAlt
         (seq ([RGroup 1 (alt (lit "rateLimit") [lit "rateLimiter"; lit "limiter"]);
                star ws; lit "="; star ws] ++ requireOf "express-rate-limit"))
         (seq [lit "app.use("; star ws; lit "rateLimit"])) |};
    {| d_name := "csurf"; d_pattern := appUse "csrf" ["csurf"] "csurf" |};
    {| d_name := "express-validator";
       (* / require\( [q] express-validator [q] | check | body | validationResult /i *)
       d_pattern := icase (alt (seq (requireOf "express-validator"))
                             [lit "check"; lit "body"; lit "validationResult"]) |};
    {| d_name := "xss-clean"; d_pattern := appUse "xss" [] "xss-clean" |};
    {| d_name := "hpp"; d_pattern := appUse "hpp" [] "hpp" |};
    {| d_name := "sanitize-html";
       (* / require\( [q] sanitize-html [q] | sanitizeHtml /i *)
       d_pattern := icase (RAlt (seq (requireOf "sanitize-html"))
                                (lit "sanitizeHtml")) |};
    {| d_name := "express-mongo-sanitize";
       d_pattern := appUse "mongoSanitize" [] "express-mongo-sanitize" |};
    {| d_name := "content-security-policy";
       (* / helmet\( [^)]* \{ \s* contentSecurityPolicy /i *)
       d_pattern := icase (seq [lit "helmet("; star (RClass true [ch ")"]);
                                lit "{"; star ws; lit "contentSecurityPolicy"]) |};
    {| d_name := "compression";
       d_pattern := appUse "compression" [] "compression" |} ].

Definition middlewareConfigPatterns : list Rule :=
  [ {| name := "CORS Permissif";
       (* / cors\( \s* \{ \s* origin \s* : \s* [Q] \* [Q] /i *)
       pattern := icase (seq [lit "cors("; star ws; lit "{"; star ws;
                              lit "origin"; star ws; lit ":"; star ws;
                              quote; lit "*"; quote]);
       severity := HIGH;
       solution := "Limitez les origines CORS à des domaines spécifiques plutôt que d'utiliser *";
       threshold := None |};
    {| name := "Rate Limit Faible";
       (* / rateLimit\( \s* \{ \s* (?: [^}]* \s* , \s* )? max \s* : \s* ( \d+ ) /i *)
       pattern := icase (seq [lit "rateLimit("; star ws; lit "{"; star ws;
                              opt (seq [star (RClass true [ch "}"]); star ws;
                                        lit ","; star ws]);
                              lit "max"; star ws; lit ":"; star ws;
                              RGroup 1 (plus digit)]);
       severity := MEDIUM;
       solution := "Définissez une limite de requêtes plus restrictive (max < 100)";
       threshold := None |};
    {| name := "Helmet sans CSP";
       (* / helmet\( \s* \{ \s* contentSecurityPolicy \s* : \s* false /i *)
       pattern := icase (seq [lit "helmet("; star ws; lit "{"; star ws;
                              lit "contentSecurityPolicy"; star ws; lit ":";
                              star ws; lit "false"]);
       severity := MEDIUM;
       solution := "Activez la politique de sécurité du contenu (CSP) dans helmet";
       threshold := None |} ].

(** / session\( \s* \{ /i *)
Definition sessionCall : RegExp.t :=
  icase (seq [lit "session("; star ws; lit "{"]).

Record Used := { u_name : string; u_files : list (string * option Z) }.

Record SessionAnalysis := {
  s_file : string;
  s_line : option Z;
  s_issues : list string
}.

(** The object returned by [scanMiddlewares].  [installed], [missing]
    and [recommended] hold the middlewares themselves; the source maps
    them to their [name], [description] (and [npm]) fields. *)
Record Result := {
  installed_packages : list Middleware;
  installed_count : Z;
  missing_packages : list Middleware;
  missing_count : Z;
  recommended_packages : list Middleware;
  recommended_count : Z;
  used_middlewares : list Used;
  used_count : Z;
  configurationIssues : list Issue;
  sessionAnalysis : option SessionAnalysis;
  securityScore : Z
}.

Definition hasPriority (pr : Severity) (m : Middleware) : bool :=
  Severity_eqb (priority m) pr.

Definition calculateSecurityScore (installed missing : list Middleware)
    (configIssues : Z) : Z :=
  let score := 100 in
  let missingHighPriority :=
    Z.of_nat (length (List.filter (hasPriority HIGH) missing)) in
  let score := score - missingHighPriority * 15 in
  let missingMediumPriority :=
    Z.of_nat (length (List.filter (hasPriority MEDIUM) missing)) in
  let score := score - missingMediumPriority * 5 in
  let score := score - configIssues * 10 in
  Z.max 0 (Z.min 100 score).

(** The first loop of [scanMiddlewares]: the pair of [installedPackages]
    and [missingPackages]. *)
Definition resolvePackages (p : Project) : list Middleware * list Middleware :=
  match packageJson p with
  | Some pj =>
      let dependencies := spreadDependencies pj in
      foldl (fun '(installedPackages, missingPackages) middleware =>
               if hasDependency dependencies (npm middleware)
               then (installedPackages ++ [middleware], missingPackages)
               else (installedPackages, missingPackages ++ [middleware]))
            ([], []) securityMiddlewares
  | None => ([], [])
  end.

Definition usedMiddlewaresOf (p : Project) : list Used :=
  foldl (fun usedMiddlewares pattern =>
           let results :=
             findFilesWithPattern p filePattern (PRegExp (d_pattern pattern)) in
           if 0 <? Z.of_nat (length results)
           then usedMiddlewares ++
                  [ {| u_name := d_name pattern;
                       u_files := (fun r => (file r, line r)) <$> results |} ]
           else usedMiddlewares)
        [] middlewarePatterns.

(** The analysis of the express-session configuration: [None] when
    [sessionResult.context] is [null], where [.includes] throws a
    TypeError; [Some None] when there is nothing to analyse. *)
Definition analyseSession (p : Project) (installedPackages : list Middleware)
  : option (option SessionAnalysis) :=
  if existsb (fun m => String.eqb (m_name m) "express-session") installedPackages
  then
    match findFilesWithPattern p filePattern (PRegExp sessionCall) with
    | sessionResult :: _ =>
        match context sessionResult with
        | Some ctx =>
            let httpOnlyMissing := negb (JS.includes ctx (JS.str "httpOnly: true")) in
            let secureMissing := negb (JS.includes ctx (JS.str "secure: true")) in
            let sameSiteMissing := negb (JS.includes ctx (JS.str "sameSite")) in
            Some (Some
              {| s_file := file sessionResult;
                 s_line := line sessionResult;
                 s_issues :=
                   (if httpOnlyMissing
                    then ["httpOnly manquant dans la configuration de session"]
                    else []) ++
                   (if secureMissing
                    then ["secure manquant dans la configuration de session"]
                    else []) ++
                   (if sameSiteMissing
                    then ["sameSite manquant dans la configuration de session"]
                    else []) |})
        | None => None
        end
    | [] => Some None
    end
  else Some None.

(** [scanMiddlewares]; [None] when it throws. *)
Definition scanMiddlewares (p : Project) : option Result :=
  let '(installedPackages, missingPackages) := resolvePackages p in
  let usedMiddlewares := usedMiddlewaresOf p in
  let configurationIssues := collectIssues p middlewareConfigPatterns in
  match analyseSession p installedPackages with
  | Some sessionAnalysis =>
      Some {| installed_packages := installedPackages;
              installed_count := Z.of_nat (length installedPackages);
              missing_packages := List.filter (hasPriority HIGH) missingPackages;
              missing_count :=
                Z.of_nat (length (List.filter (hasPriority HIGH) missingPackages));
              recommended_packages :=
                List.filter (hasPriority MEDIUM) missingPackages;
              recommended_count :=
                Z.of_nat (length (List.filter (hasPriority MEDIUM) missingPackages));
              used_middlewares := usedMiddlewares;
              used_count := Z.of_nat (length usedMiddlewares);
              configurationIssues := configurationIssues;
              sessionAnalysis := sessionAnalysis;
              securityScore :=
                calculateSecurityScore installedPackages missingPackages
                  (Z.of_nat (length configurationIssues)) |}
  | None => None
  end.

End MiddlewareScanner.

(** ** scanner/authScanner.js *)

Module AuthScanner.
Import RegExp.

(** ( ' | dq | ` )? as capturing group [i], dq being the double quote *)
Definition optQuote (i : nat) : Regex :=
  opt (RGroup i (alt (RChar 39) [RChar 34; RChar 96])).

(** app\.use\( \s* session\( \s* \{ \s* (?! .* key .* true ) .* \} \s* \) \s* \) *)
Definition sessionWithout (key : string) : RegExp.t :=
  icase (seq [lit "app.use("; star ws; lit "session("; star ws; lit "{";
              star ws;
              RLookahead true (seq [star RDot; lit key; star RDot; lit "true"]);
              star RDot; lit "}"; star ws; lit ")"; star ws; lit ")"]).

Definition httpMethods : Regex :=
  alt (lit "get") [lit "post"; lit "put"; lit "delete"; lit "patch"].

Definition alnum : Regex :=
  RClass false [CRange 97 122; CRange 65 90; CRange 48 57].

Definition authPatterns : list Rule :=
  [ {| name := "Mot de passe en clair";
       (* / \. ( compare | matches? ) \( \s* ( ' | dq | ` )? password
            ( ' | dq | ` )? \s* , /i *)
       pattern := icase (seq [lit ".";
         RGroup 1 (RAlt (lit "compare") (seq [lit "matche"; opt (lit "s")]));
         lit "("; star ws; optQuote 2; lit "password"; optQuote 3; star ws;
         lit ","]);
       severity := HIGH;
       solution := "Utilisez bcrypt, argon2 ou scrypt pour hacher les mots de passe";
       threshold := None |};
    {| name := "Session non sécurisée";
       pattern := sessionWithout "secure:";
       severity := MEDIUM;
       solution := "Définissez l'option secure: true pour les sessions en production";
       threshold := None |};
    {| name := "Session avec cookie httpOnly manquant";
       pattern := sessionWithout "httpOnly:";
       severity := MEDIUM;
       solution := "Définissez l'option httpOnly: true pour les cookies de session";
       threshold := None |};
    {| name := "JWT non vérifié";
       (* / jwt\.sign\( /i *)
       pattern := icase (lit "jwt.sign(");
       severity := LOW;
       solution := "Assurez-vous de vérifier les tokens JWT avec jwt.verify()";
       threshold := None |};
    {| name := "Clé secrète JWT faible";
       (* / jwt\.sign\( [^,]+ , \s* [Q] [a-zA-Z0-9]{1,32} [Q] /i *)
       pattern := icase (seq [lit "jwt.sign("; plus (RClass true [ch ","]);
                              lit ","; star ws; quote;
                              RQuant alnum 1 (Some 32%nat) true; quote]);
       severity := HIGH;
       solution := "Utilisez une clé secrète JWT forte (min. 32 caractères) stockée dans les variables d'environnement";
       threshold := None |};
    {| name := "Expiration manquante";
       (* / jwt\.sign\( [^)]* \) \s* ; /i *)
       pattern := icase (seq [lit "jwt.sign("; star (RClass true [ch ")"]);
                              lit ")"; star ws; lit ";"]);
       severity := MEDIUM;
       solution := "Ajoutez une option expiresIn pour définir une expiration des tokens JWT";
       threshold := None |};
    {| name := "JWT sans validation";
       (* / jwt\.decode\( /i *)
       pattern := icase (lit "jwt.decode(");
       severity := HIGH;
       solution := "Utilisez jwt.verify() au lieu de jwt.decode() pour valider les signatures";
       threshold := None |};
    {| name := "Authentification personnalisée";
       (* / function \s+ ( authenticate | login | signIn
            | check [A-Z] [a-z]* Auth | isAuth ) /i *)
       pattern := icase (seq [lit "function"; plus ws;
         RGroup 1 (alt (lit "authenticate")
           [lit "login"; lit "signIn";
            seq [lit "check"; RClass false [CRange 65 90];
                 star (RClass false [CRange 97 122]); lit "Auth"];
            lit "isAuth"])]);
       severity := LOW;
       solution := "Envisagez d'utiliser une bibliothèque d'authentification éprouvée comme Passport.js";
       threshold := None |};
    {| name := "Authentification sans vérification de rôle";
       (* / req\. ( user | currentUser | auth ) \.role /i *)
       pattern := icase (seq [lit "req.";
         RGroup 1 (alt (lit "user") [lit "currentUser"; lit "auth"]);
         lit ".role"]);
       severity := INFO;
       solution := "Vérifiez que vous validez correctement les rôles d'utilisateur pour l'autorisation";
       threshold := None |} ].

Definition authorizationPatterns : list Rule :=
  [ {| name := "Absence de vérification d'autorisation";
       (* / app\. ( get | post | put | delete | patch ) \( \s* [Q] [^Q]+ [Q]
            \s* , \s* (?! .* auth ) .* function /i *)
       pattern := icase (seq [lit "app."; RGroup 1 httpMethods; lit "(";
         star ws; quote; plus notQuote; quote; star ws; lit ","; star ws;
         RLookahead true (seq [star RDot; lit "auth"]); star RDot;
         lit "function"]);
       severity := MEDIUM;
       solution := "Ajoutez un middleware d'authentification pour les routes sensibles";
       threshold := None |};
    {| name := "API ouverte";
       (* / app\. ( get | post | put | delete | patch ) \( \s* [Q] \/api\/
            [^Q]+ [Q] \s* , \s* (?! .* auth ) .* function /i *)
       pattern := icase (seq [lit "app."; RGroup 1 httpMethods; lit "(";
         star ws; quote; lit "/api/"; plus notQuote; quote; star ws; lit ",";
         star ws; RLookahead true (seq [star RDot; lit "auth"]); star RDot;
         lit "function"]);
       severity := HIGH;
       solution := "Protégez vos endpoints API avec un middleware d'authentification";
       threshold := None |};
    {| name := "Autorisations insuffisantes";
       (* / \b ( isAuth | isAuthenticated | authenticate | requireAuth ) \b
            \s* \( [^)]* \) /i *)
       pattern := icase (seq [RWordBoundary;
         RGroup 1 (alt (lit "isAuth")
           [lit "isAuthenticated"; lit "authenticate"; lit "requireAuth"]);
         RWordBoundary; star ws; lit "("; star (RClass true [ch ")"]);
         lit ")"]);
       severity := INFO;
       solution := "Vérifiez si vous contrôlez également les autorisations (rôles) et pas seulement l'authentification";
       threshold := None |};
    {| name := "Autorisations de base";
       (* / req\. ( user | currentUser ) \.role \s* === \s* [Q]
            ( admin | superuser ) [Q] /i *)
       pattern := icase (seq [lit "req.";
         RGroup 1 (RAlt (lit "user") (lit "currentUser")); lit ".role";
         star ws; lit "==="; star ws; quote;
         RGroup 2 (RAlt (lit "admin") (lit "superuser")); quote]);
       severity := LOW;
       solution := "Envisagez d'utiliser un système d'autorisation basé sur les capacités ou RBAC plus avancé";
       threshold := None |} ].

Definition recommendedPackages : list string :=
  ["bcrypt"; "argon2"; "jsonwebtoken"; "passport"; "express-jwt"; "helmet";
   "express-rate-limit"; "express-validator"; "accesscontrol"; "casl"].

Record Result := {
  auth : list Issue;
  authorization : list Issue;
  packages_installed : list string;
  packages_recommended : list string;
  total : Z
}.

(** The last loop of [scanAuthentication]: the pair of [installedPackages]
    and [missingPackages]. *)
Definition resolvePackages (p : Project) : list string * list string :=
  match packageJson p with
  | Some pj =>
      let dependencies := spreadDependencies pj in
      foldl (fun '(installedPackages, missingPackages) pkg =>
               if hasDependency dependencies pkg
               then (installedPackages ++ [pkg], missingPackages)
               else (installedPackages, missingPackages ++ [pkg]))
            ([], []) recommendedPackages
  | None => ([], [])
  end.

Definition scanAuthentication (p : Project) : Result :=
  let authIssues := collectIssues p authPatterns in
  let authorizationIssues := collectIssues p authorizationPatterns in
  let '(installedPackages, missingPackages) := resolvePackages p in
  {| auth := authIssues;
     authorization := authorizationIssues;
     packages_installed := installedPackages;
     packages_recommended := missingPackages;
     total := Z.of_nat (length authIssues)
              + Z.of_nat (length authorizationIssues) |}.

End AuthScanner.

(** ** scanner/dependencyScanner.js: checkDependencyBestPractices *)

Module BestPractices.

(** An issue of the check: an unpinned version, with [package],
    [version] and [solution], or a complex script, with [script] and
    [command], the value of the script as it was parsed. *)
Inductive BestPracticeIssue :=
| UnpinnedVersion (package version solution : list N)
| ComplexScript (script : list N) (command : Json).

(** The fields [type] and [severity] of an issue. *)
Definition b_type (i : BestPracticeIssue) : list N :=
  match i with
  | UnpinnedVersion _ _ _ =>
      JS.str "Version non " ++ [233%N] ++ JS.str "pingl" ++ [233%N] ++ JS.str "e"
  | ComplexScript _ _ => JS.str "Script npm complexe"
  end.

Definition b_severity (i : BestPracticeIssue) : Severity :=
  match i with
  | UnpinnedVersion _ _ _ => LOW
  | ComplexScript _ _ => INFO
  end.

(** The field [solution]: the template literal for a version, a
    constant for a script. *)
Definition b_solution (i : BestPracticeIssue) : list N :=
  match i with
  | UnpinnedVersion _ _ solution => solution
  | ComplexScript _ _ =>
      JS.str "Envisagez d'utiliser un fichier de script s" ++ [233%N]
      ++ JS.str "par" ++ [233%N] ++ JS.str " pour les commandes complexes"
  end.

(** The template literal of the solution; 201 and 233 are E and e with
    an acute accent, 34 is the double quote. *)
Definition pinSolution (dep version : list N) : list N :=
  [201%N] ++ JS.str "pinglez la version exacte en supprimant les pr"
  ++ [233%N] ++ JS.str "fixes ^ ou ~ (ex: " ++ [34%N] ++ dep ++ [34%N]
  ++ JS.str ": " ++ [34%N] ++ drop 1 version ++ [34%N] ++ JS.str ")".

(** [version.startsWith('^') || version.startsWith('~')]; [None] when
    the call throws a TypeError: only a string has [startsWith]. *)
Definition isUnpinned (version : Json) : option bool :=
  match version with
  | JString version =>
      Some (JS.startsWith version (JS.str "^")
            || JS.startsWith version (JS.str "~"))
  | JArray _ | JOther => None
  end.

(** [scriptCmd.includes(s)]: the substring test of a string, the
    membership test of an array (an element that is the string [s]);
    [None] when the call throws a TypeError, on any other value. *)
Definition includes (scriptCmd : Json) (s : list N) : option bool :=
  match scriptCmd with
  | JString cmd => Some (JS.includes cmd s)
  | JArray items =>
      Some (existsb (fun item => match item with
                                 | JString x => bool_decide (x = s)
                                 | JArray _ | JOther => false
                                 end) items)
  | JOther => None
  end.

(** [scriptCmd.includes('&&') || scriptCmd.includes('||')
     || scriptCmd.includes(';')] *)
Definition isComplex (scriptCmd : Json) : option bool :=
  match includes scriptCmd (JS.str "&&") with
  | Some true => Some true
  | Some false =>
      match includes scriptCmd (JS.str "||") with
      | Some true => Some true
      | Some false => includes scriptCmd (JS.str ";")
      | None => None
      end
  | None => None
  end.

Record Result := { issues : list BestPracticeIssue; count : Z }.

(** The body of the loop over the entries of [dependencies]; [None]
    once an iteration has thrown. *)
Definition checkVersion (issues : option (list BestPracticeIssue))
    (entry : list N * Json) : option (list BestPracticeIssue) :=
  let '(dep, version) := entry in
  match issues with
  | Some issues =>
      match version, isUnpinned version with
      | JString text, Some true =>
          Some (issues ++ [UnpinnedVersion dep text (pinSolution dep text)])
      | _, Some _ => Some issues
      | _, None => None
      end
  | None => None
  end.

(** The body of the loop over the entries of [scripts]. *)
Definition checkScript (issues : option (list BestPracticeIssue))
    (entry : list N * Json) : option (list BestPracticeIssue) :=
  let '(scriptName, scriptCmd) := entry in
  match issues with
  | Some issues =>
      match isComplex scriptCmd with
      | Some true => Some (issues ++ [ComplexScript scriptName scriptCmd])
      | Some false => Some issues
      | None => None
      end
  | None => None
  end.

(** [checkDependencyBestPractices]; [None] when it throws. *)
Definition checkDependencyBestPractices (packageJson : Manifest)
  : option Result :=
  let issues := Some [] in
  let issues :=
    match m_dependencies packageJson with
    | Some dependencies => foldl checkVersion issues dependencies
    | None => issues
    end in
  let issues :=
    match m_scripts packageJson with
    | Some scripts => foldl checkScript issues scripts
    | None => issues
    end in
  match issues with
  | Some issues => Some {| issues := issues; count := Z.of_nat (length issues) |}
  | None => None
  end.

End BestPractices.

(** ** scanner/dependencyScanner.js: scanDependencies *)

Module DependencyScanner.

(** What [npmAuditAnalysis] returns: on success [metadata], which is
    [metadata.vulnerabilities] of the JSON printed by npm audit, and the
    number of advisories; otherwise the error.  [metadata] is [None]
    when that JSON has no such key or has null there, and otherwise the
    numbers found under the keys of the value (none when the value is
    not an object). *)
Inductive AuditAnalysis :=
| AuditSuccess (metadata : option (gmap string Z)) (details : nat)
| AuditFailure (error : string).

Record Outdated := { o_name : string; riskLevel : string }.

(** What [npmOutdatedAnalysis] returns, [riskLevel] already computed. *)
Inductive OutdatedAnalysis :=
| OutdatedSuccess (outdated : list Outdated)
| OutdatedFailure (error : string).

(** The [audit] field of the result: [{vulnerabilities, details}] or
    [{error}]. *)
Inductive Audit :=
| AuditReport (vulnerabilities : gmap string Z) (details : nat)
| AuditError (error : string).

(** The object returned by [scanDependencies]: [{error}] without a
    manifest, the report otherwise.  Of the report the fields [audit],
    [outdated] and [securityScore] are kept; [unused], [licenses], [snyk],
    [bestPractices] and [recommendations] play no part in the score, and
    the analyses behind the first three catch what they throw. *)
Inductive Result :=
| Error (error : string)
| Report (audit : Audit) (outdated : OutdatedAnalysis) (securityScore : JS.Num).

(** [x * k] for a property [x] read from an object: [undefined * k] is
    [NaN]. *)
Definition times (x : option Z) (k : Z) : JS.Num :=
  match x with Some z => JS.Int (z * k) | None => JS.NaN end.

Definition minus (a b : JS.Num) : JS.Num :=
  match a, b with JS.Int x, JS.Int y => JS.Int (x - y) | _, _ => JS.NaN end.

(** [Math.max(0, Math.min(100, s))] *)
Definition clamp (s : JS.Num) : JS.Num :=
  match s with JS.Int z => JS.Int (Z.max 0 (Z.min 100 z)) | JS.NaN => JS.NaN end.

Definition countRisk (level : string) (l : list Outdated) : Z :=
  Z.of_nat (length (List.filter (fun d => String.eqb (riskLevel d) level) l)).

(** The end of [scanDependencies], once the vulnerabilities are
    deducted: the deductions for the outdated packages, the clamp, and
    the returned object with its [audit] field. *)
Definition report (audit : Audit) (npmOutdated : OutdatedAnalysis)
    (securityScore : JS.Num) : Result :=
  let securityScore :=
    match npmOutdated with
    | OutdatedSuccess outdated =>
        let highRiskOutdated := countRisk "HIGH" outdated in
        let mediumRiskOutdated := countRisk "MEDIUM" outdated in
        let s := minus securityScore (JS.Int (highRiskOutdated * 5)) in
        minus s (JS.Int (mediumRiskOutdated * 2))
    | OutdatedFailure _ => securityScore
    end in
  let securityScore := clamp securityScore in
  Report audit npmOutdated securityScore.

(** [scanDependencies], given what npm audit and npm outdated return;
    [None] when the promise is rejected.  That happens when
    [checkDependencyBestPractices], the one analysis that is not guarded
    by a try, throws, and when [npmAudit.metadata.critical] is read on
    the undefined metadata of a successful audit. *)
Definition scanDependencies (p : Project) (npmAudit : AuditAnalysis)
    (npmOutdated : OutdatedAnalysis) : option Result :=
  match packageJson p with
  | None => Some (Error "package.json non trouvé ou invalide")
  | Some packageJson =>
      match BestPractices.checkDependencyBestPractices (entries packageJson) with
      | Some bestPractices =>
          let securityScore := JS.Int 100 in
          match npmAudit with
          | AuditSuccess (Some metadata) details =>
              let s := minus securityScore (times (metadata !! "critical") 20) in
              let s := minus s (times (metadata !! "high") 10) in
              let s := minus s (times (metadata !! "moderate") 5) in
              let s := minus s (times (metadata !! "low") 2) in
              Some (report (AuditReport metadata details) npmOutdated s)
          | AuditSuccess None _ => None
          | AuditFailure error =>
              Some (report (AuditError error) npmOutdated securityScore)
          end
      | None => None
      end
  end.

End DependencyScanner.

(** ** Results of the scanners that are only read

    Of the results of scanSecrets, scanSqlInjections, scanInputValidation,
    scanCSRF and scanCookies, the report generator and index.js read the
    list of secrets and the [total] fields. *)

Module SecretScanner.
Record Secret := {
  s_file : string;
  s_line : option Z;
  s_type : string;
  s_severity : Severity;
  s_context : option (list N)
}.
Record Result := { secrets : list Secret }.
End SecretScanner.

Module SqlInjectionScanner.
Record Result := { sql : list Issue; noSql : list Issue; total : Z }.
End SqlInjectionScanner.

Module InputValidationScanner.
Record Result := {
  validation : list Issue; xss : list Issue; typeErrors : list Issue;
  total : Z
}.
End InputValidationScanner.

Module CsrfScanner.
Record Result := { issues : list Issue; total : Z }.
End CsrfScanner.

Module CookieScanner.
Record Result := { cookies : list Issue; management : list Issue; total : Z }.
End CookieScanner.

(** ** scanner/reportGenerator.js: the composite score *)

Module ReportGenerator.
Local Open Scope Q_scope.

Record Stats := { executionTime : string; totalIssues : Z }.

(** The object handed to [generateReport]; a domain that is [undefined]
    is [None]. *)
Record Results := {
  dependencies : option DependencyScanner.Result;
  secrets : option SecretScanner.Result;
  middlewares : option MiddlewareScanner.Result;
  cors : option CorsScanner.Result;
  rateLimit : option RateLimitScanner.Result;
  sqlInjection : option SqlInjectionScanner.Result;
  auth : option AuthScanner.Result;
  inputValidation : option InputValidationScanner.Result;
  csrf : option CsrfScanner.Result;
  cookies : option CookieScanner.Result;
  stats : Stats
}.

(** [Math.round]: the nearest integer, halves upwards. *)
Definition Math_round (x : Q) : Z := Qfloor (x + (1 # 2)).

(** [vuln.key || 0] *)
Definition orZero (vuln : gmap string Z) (key : string) : Q :=
  inject_Z (default 0%Z (vuln !! key)).

Definition countSeverity {A} (sev : A -> Severity) (s : Severity) (l : list A)
  : Q :=
  inject_Z (Z.of_nat (length (List.filter (fun x => Severity_eqb (sev x) s) l))).

(** [calculateSecurityScore] is a sequence of blocks, one per domain,
    each of which lowers [score]; every block is a definition here, in
    the order of the source, and takes the score so far. *)

(** Dependency vulnerabilities. *)
Definition deductDependencies (results : Results) (score : Q) : Q :=
  match dependencies results with
  | Some (DependencyScanner.Report (DependencyScanner.AuditReport vuln _) _ _) =>
      let score := score - orZero vuln "critical" * 15 in
      let score := score - orZero vuln "high" * 10 in
      let score := score - orZero vuln "moderate" * 5 in
      score - orZero vuln "low" * 2
  | _ => score
  end.

(** Secrets. *)
Definition deductSecrets (results : Results) (score : Q) : Q :=
  match secrets results with
  | Some s =>
      let criticalSecrets :=
        countSeverity SecretScanner.s_severity CRITICAL (SecretScanner.secrets s) in
      let highSecrets :=
        countSeverity SecretScanner.s_severity HIGH (SecretScanner.secrets s) in
      let score := score - criticalSecrets * 10 in
      score - highSecrets * 5
  | None => score
  end.

(** Authentication. *)
Definition deductAuth (results : Results) (score : Q) : Q :=
  match auth results with
  | Some a =>
      if negb (AuthScanner.total a =? 0)%Z
      then score - Qmin 20 (inject_Z (AuthScanner.total a) * 2)
      else score
  | None => score
  end.

(** Input validation. *)
Definition deductInputValidation (results : Results) (score : Q) : Q :=
  match inputValidation results with
  | Some v =>
      if negb (InputValidationScanner.total v =? 0)%Z
      then score - Qmin 15 (inject_Z (InputValidationScanner.total v) * 1.5)
      else score
  | None => score
  end.

(** SQL and NoSQL injections. *)
Definition deductSqlInjection (results : Results) (score : Q) : Q :=
  match sqlInjection results with
  | Some s =>
      if negb (SqlInjectionScanner.total s =? 0)%Z
      then score - Qmin 20 (inject_Z (SqlInjectionScanner.total s) * 3)
      else score
  | None => score
  end.

(** CSRF. *)
Definition deductCsrf (results : Results) (score : Q) : Q :=
  match csrf results with
  | Some c =>
      if negb (CsrfScanner.total c =? 0)%Z
      then score - Qmin 15 (inject_Z (CsrfScanner.total c) * 2)
      else score
  | None => score
  end.

(** CORS. *)
Definition deductCors (results : Results) (score : Q) : Q :=
  match cors results with
  | Some c =>
      let highCorsIssues := countSeverity i_severity HIGH (CorsScanner.issues c) in
      score - highCorsIssues * 5
  | None => score
  end.

(** Rate limiting. *)
Definition deductRateLimit (results : Results) (score : Q) : Q :=
  match rateLimit results with
  | Some r => score - Qmin 10 (inject_Z (RateLimitScanner.issues_count r))
  | None => score
  end.

(** Missing middlewares. *)
Definition deductMiddlewares (results : Results) (score : Q) : Q :=
  match middlewares results with
  | Some m =>
      score - Qmin 20 (inject_Z (MiddlewareScanner.missing_count m) * 4)
  | None => score
  end.

(** The value of [score] when the last statement, which rounds and
    clamps it, is reached. *)
Definition scoreBeforeClamp (results : Results) : Q :=
  let score : Q := 100 in
  let score := deductDependencies results score in
  let score := deductSecrets results score in
  let score := deductAuth results score in
  let score := deductInputValidation results score in
  let score := deductSqlInjection results score in
  let score := deductCsrf results score in
  let score := deductCors results score in
  let score := deductRateLimit results score in
  let score := deductMiddlewares results score in
  score.

Definition calculateSecurityScore (results : Results) : Z :=
  let score := scoreBeforeClamp results in
  Z.max 0 (Z.min 100 (Math_round score)).

End ReportGenerator.

(** ** index.js: the summary of a run *)

Module Index.

(** [Object.values(o).reduce((a, b) => a + b, 0)] *)
Definition sumValues (o : gmap string Z) : Z :=
  map_fold (fun _ b a => a + b) 0 o.

Definition vulnCount
    (dependencies : DependencyScanner.Result)
    (secrets : SecretScanner.Result)
    (middlewares : MiddlewareScanner.Result)
    (sqlInjection : SqlInjectionScanner.Result)
    (auth : AuthScanner.Result)
    (inputValidation : InputValidationScanner.Result)
    (csrf : CsrfScanner.Result)
    (cookies : CookieScanner.Result) : Z :=
  match dependencies with
  | DependencyScanner.Report (DependencyScanner.AuditReport vulnerabilities _) _ _ =>
      sumValues vulnerabilities
  | DependencyScanner.Report (DependencyScanner.AuditError _) _ _ => sumValues ∅
  | DependencyScanner.Error _ => 0
  end
  + Z.of_nat (length (SecretScanner.secrets secrets))
  + MiddlewareScanner.missing_count middlewares
  + SqlInjectionScanner.total sqlInjection
  + AuthScanner.total auth
  + InputValidationScanner.total inputValidation
  + CsrfScanner.total csrf
  + CookieScanner.total cookies.

(** The object [results] built at the end of the run from the ten
    domain results and the measured time. *)
Definition results
    (dependencies : DependencyScanner.Result)
    (secrets : SecretScanner.Result)
    (middlewares : MiddlewareScanner.Result)
    (cors : CorsScanner.Result)
    (rateLimit : RateLimitScanner.Result)
    (sqlInjection : SqlInjectionScanner.Result)
    (auth : AuthScanner.Result)
    (inputValidation : InputValidationScanner.Result)
    (csrf : CsrfScanner.Result)
    (cookies : CookieScanner.Result)
    (executionTimeInSeconds : string) : ReportGenerator.Results :=
  {| ReportGenerator.dependencies := Some dependencies;
     ReportGenerator.secrets := Some secrets;
     ReportGenerator.middlewares := Some middlewares;
     ReportGenerator.cors := Some cors;
     ReportGenerator.rateLimit := Some rateLimit;
     ReportGenerator.sqlInjection := Some sqlInjection;
     ReportGenerator.auth := Some auth;
     ReportGenerator.inputValidation := Some inputValidation;
     ReportGenerator.csrf := Some csrf;
     ReportGenerator.cookies := Some cookies;
     ReportGenerator.stats :=
       {| ReportGenerator.executionTime := executionTimeInSeconds;
          ReportGenerator.totalIssues :=
            vulnCount dependencies secrets middlewares sqlInjection auth
              inputValidation csrf cookies |} |}.

End Index.

(** * Vocabulary of the properties *)

Module Spec.

(** [s] contains [sub] as a substring. *)
Definition contains (s sub : list N) : Prop :=
  exists pre post, s = pre ++ sub ++ post.

(** Lines joined by line feeds. *)
Fixpoint joinLines (ls : list (list N)) : list N :=
  match ls with
  | [] => []
  | [l] => l
  | l :: ls' => l ++ 10%N :: joinLines ls'
  end.

(** The Matches of a list that are for a given file. *)
Definition forFile (path : string) (m : Match) : bool :=
  String.eqb (file m) path.

(** Where a matched text is found among the lines of a file: on the
    first line that contains it, reported with its 1-based number and
    its trimmed text, or on no line at all. *)
Inductive located (lines : list (list N)) (text : list N)
  : option Z -> option (list N) -> Prop :=
| located_first (i : nat) (l : list N) :
    lines !! i = Some l ->
    contains l text ->
    (forall j l', (j < i)%nat -> lines !! j = Some l' -> ~ contains l' text) ->
    located lines text (Some (Z.of_nat i + 1)) (Some (JS.trim l))
| located_nowhere :
    (forall l, l ∈ lines -> ~ contains l text) ->
    located lines text None None.

(** The issue counts the composite score depends on; a domain that is
    absent from the results counts for nothing. *)
Record Counts := {
  vulnCritical : Z;
  vulnHigh : Z;
  vulnModerate : Z;
  vulnLow : Z;
  secretsCritical : Z;
  secretsHigh : Z;
  authIssues : Z;
  inputValidationIssues : Z;
  injectionIssues : Z;
  csrfIssues : Z;
  corsHigh : Z;
  rateLimitIssues : Z;
  missingHighPriority : Z
}.

Definition vulnerabilitiesOf (r : ReportGenerator.Results) (key : string) : Z :=
  match ReportGenerator.dependencies r with
  | Some (DependencyScanner.Report (DependencyScanner.AuditReport vuln _) _ _) =>
      default 0 (vuln !! key)
  | _ => 0
  end.

Definition countOf {A} (sev : A -> Severity) (s : Severity) (l : list A) : Z :=
  Z.of_nat (length (List.filter (fun x => Severity_eqb (sev x) s) l)).

Definition countsOf (r : ReportGenerator.Results) : Counts :=
  {| vulnCritical := vulnerabilitiesOf r "critical";
     vulnHigh := vulnerabilitiesOf r "high";
     vulnModerate := vulnerabilitiesOf r "moderate";
     vulnLow := vulnerabilitiesOf r "low";
     secretsCritical :=
       from_option (fun s => countOf SecretScanner.s_severity CRITICAL
                               (SecretScanner.secrets s)) 0
         (ReportGenerator.secrets r);
     secretsHigh :=
       from_option (fun s => countOf SecretScanner.s_severity HIGH
                               (SecretScanner.secrets s)) 0
         (ReportGenerator.secrets r);
     authIssues := from_option AuthScanner.total 0 (ReportGenerator.auth r);
     inputValidationIssues :=
       from_option InputValidationScanner.total 0
         (ReportGenerator.inputValidation r);
     injectionIssues :=
       from_option SqlInjectionScanner.total 0 (ReportGenerator.sqlInjection r);
     csrfIssues := from_option CsrfScanner.total 0 (ReportGenerator.csrf r);
     corsHigh :=
       from_option (fun c => countOf i_severity HIGH (CorsScanner.issues c)) 0
         (ReportGenerator.cors r);
     rateLimitIssues :=
       from_option RateLimitScanner.issues_count 0 (ReportGenerator.rateLimit r);
     missingHighPriority :=
       from_option MiddlewareScanner.missing_count 0
         (ReportGenerator.middlewares r) |}.

(** The deductions as the specification lists them. *)
Definition deductions (c : Counts) : Q :=
  (15 * inject_Z (vulnCritical c) + 10 * inject_Z (vulnHigh c)
   + 5 * inject_Z (vulnModerate c) + 2 * inject_Z (vulnLow c)
   + 10 * inject_Z (secretsCritical c) + 5 * inject_Z (secretsHigh c)
   + Qmin 20 (2 * inject_Z (authIssues c))
   + Qmin 15 (1.5 * inject_Z (inputValidationIssues c))
   + Qmin 20 (3 * inject_Z (injectionIssues c))
   + Qmin 15 (2 * inject_Z (csrfIssues c))
   + 5 * inject_Z (corsHigh c)
   + Qmin 10 (inject_Z (rateLimitIssues c))
   + Qmin 20 (4 * inject_Z (missingHighPriority c)))%Q.

(** The composite score as the specification words it: 100 minus the
    deductions, clamped to [0,100], rounded to the nearest integer. *)
Definition compositeScore (c : Counts) : Z :=
  ReportGenerator.Math_round (Qmax 0 (Qmin 100 (100 - deductions c))).

(** Twice the deductions, an integer. *)
Definition twiceDeductions (c : Counts) : Z :=
  30 * vulnCritical c + 20 * vulnHigh c + 10 * vulnModerate c + 4 * vulnLow c
  + 20 * secretsCritical c + 10 * secretsHigh c
  + Z.min 40 (4 * authIssues c)
  + Z.min 30 (3 * inputValidationIssues c)
  + Z.min 40 (6 * injectionIssues c)
  + Z.min 30 (4 * csrfIssues c)
  + 10 * corsHigh c
  + Z.min 20 (2 * rateLimitIssues c)
  + Z.min 40 (8 * missingHighPriority c).

(** Every count of [a] is at most the same count of [b]. *)
Definition counts_le (a b : Counts) : Prop :=
  vulnCritical a <= vulnCritical b /\ vulnHigh a <= vulnHigh b /\
  vulnModerate a <= vulnModerate b /\ vulnLow a <= vulnLow b /\
  secretsCritical a <= secretsCritical b /\ secretsHigh a <= secretsHigh b /\
  authIssues a <= authIssues b /\
  inputValidationIssues a <= inputValidationIssues b /\
  injectionIssues a <= injectionIssues b /\
  csrfIssues a <= csrfIssues b /\
  corsHigh a <= corsHigh b /\
  rateLimitIssues a <= rateLimitIssues b /\
  missingHighPriority a <= missingHighPriority b.

(** The domains whose deduction the scorer caps, and the counts of the
    others. *)
Definition cappedCounts (c : Counts) : list Z :=
  [authIssues c; inputValidationIssues c; injectionIssues c; csrfIssues c;
   rateLimitIssues c; missingHighPriority c].

Definition uncappedCounts (c : Counts) : list Z :=
  [vulnCritical c; vulnHigh c; vulnModerate c; vulnLow c;
   secretsCritical c; secretsHigh c; corsHigh c].

Definition nonZero (l : list Z) : nat :=
  length (List.filter (fun x => negb (x =? 0)) l).

(** At most one domain has issues, and it is one of the capped ones. *)
Definition oneCappedDomainAlone (c : Counts) : Prop :=
  nonZero (uncappedCounts c) = 0%nat /\ (nonZero (cappedCounts c) <= 1)%nat.

(** Only the dependency domain, only the secrets domain, only the CORS
    domain has issues. *)
Definition onlyDependencies (c : Counts) : Prop :=
  nonZero (cappedCounts c) = 0%nat /\
  secretsCritical c = 0 /\ secretsHigh c = 0 /\ corsHigh c = 0.

Definition onlySecrets (c : Counts) : Prop :=
  nonZero (cappedCounts c) = 0%nat /\
  vulnCritical c = 0 /\ vulnHigh c = 0 /\ vulnModerate c = 0 /\ vulnLow c = 0 /\
  corsHigh c = 0.

Definition onlyCors (c : Counts) : Prop :=
  nonZero (cappedCounts c) = 0%nat /\
  vulnCritical c = 0 /\ vulnHigh c = 0 /\ vulnModerate c = 0 /\ vulnLow c = 0 /\
  secretsCritical c = 0 /\ secretsHigh c = 0.

(** The vulnerability counts of the dependency audit: the values of
    [audit.vulnerabilities], none when the audit is absent or failed. *)
Definition auditCounts (d : DependencyScanner.Result) : list Z :=
  match d with
  | DependencyScanner.Report (DependencyScanner.AuditReport v _) _ _ =>
      (map_to_list v).*2
  | _ => []
  end.

Definition sumZ (l : list Z) : Z := foldr Z.add 0 l.

(** The audit reports a count for each of the four severities the
    dependency score reads, as npm audit does. *)
Definition auditCounted (a : DependencyScanner.AuditAnalysis) : Prop :=
  match a with
  | DependencyScanner.AuditSuccess (Some metadata) _ =>
      is_Some (metadata !! "critical") /\ is_Some (metadata !! "high") /\
      is_Some (metadata !! "moderate") /\ is_Some (metadata !! "low")
  | DependencyScanner.AuditSuccess None _ => False
  | DependencyScanner.AuditFailure _ => True
  end.

(** The value a rate-limit rule captures on a Match: the number read
    from the first group when the rule is matched against the context
    of the Match. *)
Definition captured (rule : Rule) (m : Match) (v : Z) : Prop :=
  exists ctx arr digits,
    context m = Some ctx /\
    RegExp.exec (pattern rule) ctx = Some arr /\
    RegExp.captures arr !! 0%nat = Some (Some digits) /\
    JS.parseInt digits = JS.Int v.

(** A list of issues reports a Match of a rule. *)
Definition reported (issues : list Issue) (rule : Rule) (m : Match) : Prop :=
  exists i, i ∈ issues /\ i_name i = name rule /\ i_file i = file m /\
            i_line i = line m /\ i_context i = context m.

(** A matcher is local on an input when it calls its continuation only
    on states that lie between its own state and the end of the input. *)
Definition local (input : list N) (m : RegExp.Matcher) : Prop :=
  forall (x : RegExp.State) (k k' : RegExp.Continuation),
    (x.1 <= length input)%nat ->
    (forall y : RegExp.State,
        (x.1 <= y.1 <= length input)%nat -> k y = k' y) ->
    m x k = m x k'.

End Spec.

(** * Example projects *)

Module Examples.

(** A project made of source files, all of them selected by the file
    pattern of the scanners. *)
Definition projectOf (pj : option PackageJson) (files : list SourceFile)
  : Project :=
  {| packageJson := pj;
     findFiles := fun g => if String.eqb g filePattern then files else [] |}.

Definition sourceFile (path src : string) : SourceFile :=
  {| relativePath := path; content := JS.str src |}.

(** Two files; the first calls cors three times. *)
Definition threeCalls : Project :=
  projectOf None
    [ sourceFile "a.js" "cors(x); cors(y); cors(z)";
      sourceFile "b.js" "const express = require('express')" ].

(** A call of cors with a wildcard origin, written on two lines. *)
Definition wildcardOnTwoLines : Project :=
  projectOf None
    [ {| relativePath := "a.js";
         content := JS.str "app.use(cors({" ++ [10%N]
                    ++ JS.str "  origin: '*' }))" |} ].

(** The same call on the second line of three. *)
Definition wildcardOnLineTwo : Project :=
  projectOf None
    [ {| relativePath := "a.js";
         content := JS.str "const app = express()" ++ [10%N]
                    ++ JS.str "  app.use(cors({ origin: '*' }))  " ++ [10%N]
                    ++ JS.str "app.listen(3000)" |} ].

(** No manifest and no file. *)
Definition emptyProject : Project := projectOf None [].

(** [n] files, each with a call of cors that allows every origin. *)
Definition wildcardFiles (n : nat) : Project :=
  projectOf None
    ((fun i => {| relativePath := String (Ascii.ascii_of_nat (97 + i)) ".js";
                  content := JS.str "app.use(cors({origin: '*'}))" |})
       <$> seq 0 n).

(** The entries of an object whose values are strings. *)
Definition entriesOf (l : list (string * string)) : list (list N * Json) :=
  (fun e => (JS.str e.1, JString (JS.str e.2))) <$> l.

(** A manifest with an empty [dependencies] object and nothing else. *)
Definition emptyDependencies : PackageJson :=
  {| dependencies := Some ∅; devDependencies := None;
     entries := {| m_dependencies := Some []; m_scripts := None |} |}.

(** The results of a run on a project without findings, with the given
    results for the dependencies, the secrets and CORS. *)
Definition resultsWith (deps : option DependencyScanner.Result)
    (secrets : list SecretScanner.Secret) (cors : CorsScanner.Result)
  : ReportGenerator.Results :=
  {| ReportGenerator.dependencies := deps;
     ReportGenerator.secrets := Some {| SecretScanner.secrets := secrets |};
     ReportGenerator.middlewares :=
       MiddlewareScanner.scanMiddlewares emptyProject;
     ReportGenerator.cors := Some cors;
     ReportGenerator.rateLimit :=
       RateLimitScanner.scanRateLimit (fun _ => None) emptyProject;
     ReportGenerator.sqlInjection :=
       Some {| SqlInjectionScanner.sql := []; SqlInjectionScanner.noSql := [];
               SqlInjectionScanner.total := 0 |};
     ReportGenerator.auth := Some (AuthScanner.scanAuthentication emptyProject);
     ReportGenerator.inputValidation :=
       Some {| InputValidationScanner.validation := [];
               InputValidationScanner.xss := [];
               InputValidationScanner.typeErrors := [];
               InputValidationScanner.total := 0 |};
     ReportGenerator.csrf :=
       Some {| CsrfScanner.issues := []; CsrfScanner.total := 0 |};
     ReportGenerator.cookies :=
       Some {| CookieScanner.cookies := []; CookieScanner.management := [];
               CookieScanner.total := 0 |};
     ReportGenerator.stats :=
       {| ReportGenerator.executionTime := "0.01";
          ReportGenerator.totalIssues := 0 |} |}.

(** An audit that succeeded with the given counts. *)
Definition auditOf (critical high moderate low : Z)
  : option DependencyScanner.Result :=
  DependencyScanner.scanDependencies
    (projectOf (Some emptyDependencies) [])
    (DependencyScanner.AuditSuccess
       (Some {[ "info" := 0; "low" := low; "moderate" := moderate;
                "high" := high; "critical" := critical ]}) 0)
    (DependencyScanner.OutdatedSuccess []).

Definition aSecret (sev : Severity) : SecretScanner.Secret :=
  {| SecretScanner.s_file := "config.js"; SecretScanner.s_line := Some 1;
     SecretScanner.s_type := "Private Key"; SecretScanner.s_severity := sev;
     SecretScanner.s_context := None |}.

(** Seven critical vulnerabilities and nothing else. *)
Definition sevenCritical : ReportGenerator.Results :=
  resultsWith (auditOf 7 0 0 0) [] (CorsScanner.scanCORS emptyProject).

(** Ten critical secrets and nothing else. *)
Definition tenSecrets : ReportGenerator.Results :=
  resultsWith (auditOf 0 0 0 0) (replicate 10 (aSecret CRITICAL))
    (CorsScanner.scanCORS emptyProject).

(** Twenty files with a wildcard origin and nothing else. *)
Definition twentyWildcards : ReportGenerator.Results :=
  resultsWith (auditOf 0 0 0 0) [] (CorsScanner.scanCORS (wildcardFiles 20)).

(** Nothing at all, and thirty authentication issues and nothing else. *)
Definition noFindings : ReportGenerator.Results :=
  resultsWith (auditOf 0 0 0 0) [] (CorsScanner.scanCORS emptyProject).

Definition thirtyAuthIssues : ReportGenerator.Results :=
  {| ReportGenerator.dependencies := ReportGenerator.dependencies noFindings;
     ReportGenerator.secrets := ReportGenerator.secrets noFindings;
     ReportGenerator.middlewares := ReportGenerator.middlewares noFindings;
     ReportGenerator.cors := ReportGenerator.cors noFindings;
     ReportGenerator.rateLimit := ReportGenerator.rateLimit noFindings;
     ReportGenerator.sqlInjection := ReportGenerator.sqlInjection noFindings;
     ReportGenerator.auth :=
       Some {| AuthScanner.auth := []; AuthScanner.authorization := [];
               AuthScanner.packages_installed := [];
               AuthScanner.packages_recommended := [];
               AuthScanner.total := 30 |};
     ReportGenerator.inputValidation := ReportGenerator.inputValidation noFindings;
     ReportGenerator.csrf := ReportGenerator.csrf noFindings;
     ReportGenerator.cookies := ReportGenerator.cookies noFindings;
     ReportGenerator.stats := ReportGenerator.stats noFindings |}.

(** A thousand missing middlewares. *)
Definition thousandMissing : list MiddlewareScanner.Middleware :=
  replicate 1000
    {| MiddlewareScanner.m_name := "helmet";
       MiddlewareScanner.description := "Ajoute diverses en-têtes HTTP de sécurité";
       MiddlewareScanner.priority := HIGH;
       MiddlewareScanner.npm := "helmet" |}.

(** A manifest without dependencies, and an audit with many findings. *)
Definition bareManifest : Project :=
  projectOf (Some emptyDependencies) [].

Definition heavyAudit : DependencyScanner.AuditAnalysis :=
  DependencyScanner.AuditSuccess
    (Some {[ "info" := 0; "low" := 3; "moderate" := 40; "high" := 12;
             "critical" := 1000; "total" := 1055 ]}) 1055.

(** A limiter with max: 50 and a limiter with max: 500, and the
    Matches of the rate-limit rules on them. *)
Definition max50 : Project :=
  projectOf None [sourceFile "app.js" "app.use(rateLimit({ max: 50 }))"].


(** The rate-limit scanner with a RegExp constructor that rejects every
    source; the examples have no route for it to be called on. *)
Definition scanRateLimit : Project -> option RateLimitScanner.Result :=
  RateLimitScanner.scanRateLimit (fun _ => None).






(** The scenario of the specification: a manifest without security
    packages and one source file that allows every origin. *)
Definition wildcardScenario : Project :=
  projectOf
    (Some {| dependencies := Some {[ "express" := "^4.18.2" ]};
             devDependencies := None;
             entries := {| m_dependencies :=
                             Some (entriesOf [("express", "^4.18.2")]);
                           m_scripts := None |} |})
    [sourceFile "server.js" "app.use(cors({origin: '*'}))"].

End Examples.

(** * More of the code

    The rest of utils/fileUtils.js, the rating and the summary of
    scanner/reportGenerator.js and scanner/secretScanner.js, with the
    vocabulary and the example projects of their properties. *)

(** ** utils/fileUtils.js: fileContainsPattern *)

Module FileUtilsMore.

(** [fileContainsPattern(filePath, pattern)], on the file read at
    [filePath]. *)
Definition fileContainsPattern (f : SourceFile) (pattern : ContentPattern)
  : bool :=
  let content := content f in
  match pattern with
  | PString s => JS.includes content s
  | PRegExp re => RegExp.test re content
  end.

End FileUtilsMore.

(** ** scanner/reportGenerator.js: the rating and the summary *)

Module ReportSummary.
Import ReportGenerator.

(** The colours of the report that [getScoreInfo] uses. *)
Definition colors_critical : string := "#FF0000".
Definition colors_high : string := "#FF3333".
Definition colors_medium : string := "#FF9933".
Definition colors_info : string := "#3366FF".
Definition colors_success : string := "#00CC66".

Record ScoreInfo := { color : string; text : string }.

Definition getScoreInfo (score : Z) : ScoreInfo :=
  if 90 <=? score then {| color := colors_success; text := "Excellent" |}
  else if 70 <=? score then {| color := colors_info; text := "Bon" |}
  else if 50 <=? score then {| color := colors_medium; text := "Moyen" |}
  else if 30 <=? score then {| color := colors_high; text := "Mauvais" |}
  else {| color := colors_critical; text := "Critique" |}.

(** The object [issues] of [generateReport], in the order of its keys. *)
Record IssueSummary := {
  i_dependencies : Z;
  i_secrets : Z;
  i_middlewares : Z;
  i_auth : Z;
  i_sqlInjection : Z;
  i_inputValidation : Z;
  i_csrf : Z;
  i_cookies : Z
}.

Definition issuesOf (results : Results) : IssueSummary :=
  {| i_dependencies :=
       match dependencies results with
       | Some (DependencyScanner.Report
                 (DependencyScanner.AuditReport vulnerabilities _) _ _) =>
           Index.sumValues vulnerabilities
       | _ => 0
       end;
     i_secrets :=
       match secrets results with
       | Some s => Z.of_nat (length (SecretScanner.secrets s))
       | None => 0
       end;
     i_middlewares :=
       match middlewares results with
       | Some m => MiddlewareScanner.missing_count m
       | None => 0
       end;
     i_auth := from_option AuthScanner.total 0 (auth results);
     i_sqlInjection :=
       from_option SqlInjectionScanner.total 0 (sqlInjection results);
     i_inputValidation :=
       from_option InputValidationScanner.total 0 (inputValidation results);
     i_csrf := from_option CsrfScanner.total 0 (csrf results);
     i_cookies := from_option CookieScanner.total 0 (cookies results) |}.

(** [Object.values(issues).reduce((a, b) => a + b, 0)], the total the
    summary announces. *)
Definition announcedTotal (issues : IssueSummary) : Z :=
  foldl Z.add 0
    [i_dependencies issues; i_secrets issues; i_middlewares issues;
     i_auth issues; i_sqlInjection issues; i_inputValidation issues;
     i_csrf issues; i_cookies issues].

(** The counts the sentence of the summary lists after the total. *)
Definition listedCounts (issues : IssueSummary) : list Z :=
  [i_dependencies issues; i_secrets issues; i_middlewares issues;
   i_auth issues; i_sqlInjection issues; i_inputValidation issues;
   i_csrf issues].

(** The rating printed with the score: [getScoreInfo] of
    [calculateSecurityScore]. *)
Definition rating (results : Results) : ScoreInfo :=
  let securityScore := calculateSecurityScore results in
  getScoreInfo securityScore.

End ReportSummary.

(** ** scanner/secretScanner.js *)

Module SecretScan.
Import RegExp.

Record SecretDef := {
  sd_type : string;
  sd_pattern : RegExp.t;
  sd_severity : Severity;
  isEnvVar : bool
}.

(** In the comments [q] stands for the class of the single and the
    double quote. *)

(** ( [q] )? as group 1 *)
Definition optQuote : Regex := opt (RGroup 1 (RClass false [CChar 39; CChar 34])).

Definition q : Regex := RClass false [CChar 39; CChar 34].

(** [_-]? *)
Definition sep : Regex := opt (RClass false [ch "_"; ch "-"]).

(** [q] \s* [=:] \s* [q] *)
Definition assigned : list Regex :=
  [q; star ws; RClass false [ch "="; ch ":"]; star ws; q].

(** [a-zA-Z0-9_\-] *)
Definition keyChars : list ClassAtom :=
  [CRange 97 122; CRange 65 90; CRange 48 57; ch "_"; ch "-"].

Definition apiKey : SecretDef :=
  {| sd_type := "API Key";
     (* / ( [q] )? ( api[_-]?key | auth[_-]?key | access[_-]?key ) [q]
          \s* [=:] \s* [q] ( [a-zA-Z0-9_\-]{10,} ) [q] /i *)
     sd_pattern := icase (seq ([optQuote;
       RGroup 2 (alt (seq [lit "api"; sep; lit "key"])
                   [seq [lit "auth"; sep; lit "key"];
                    seq [lit "access"; sep; lit "key"]])]
       ++ assigned
       ++ [RGroup 3 (RQuant (RClass false keyChars) 10 None true); q]));
     sd_severity := HIGH; isEnvVar := false |}.

Definition environmentVariable : SecretDef :=
  {| sd_type := "Environment Variable";
     (* / process\.env\. ( [A-Za-z0-9_]+ ) /i *)
     sd_pattern := icase (seq [lit "process.env.";
       RGroup 1 (plus (RClass false [CRange 65 90; CRange 97 122;
                                     CRange 48 57; ch "_"]))]);
     sd_severity := INFO; isEnvVar := true |}.

Definition secretPatterns : list SecretDef :=
  [ apiKey;
    {| sd_type := "Secret Key";
       (* / ( [q] )? ( secret[_-]?key | client[_-]?secret ) [q]
            \s* [=:] \s* [q] ( [a-zA-Z0-9_\-]{10,} ) [q] /i *)
       sd_pattern := icase (seq ([optQuote;
         RGroup 2 (RAlt (seq [lit "secret"; sep; lit "key"])
                        (seq [lit "client"; sep; lit "secret"]))]
         ++ assigned
         ++ [RGroup 3 (RQuant (RClass false keyChars) 10 None true); q]));
       sd_severity := HIGH; isEnvVar := false |};
    {| sd_type := "Password";
       (* / ( [q] )? ( password | passwd | pwd ) [q]
            \s* [=:] \s* [q] ( [^q]{4,} ) [q] /i *)
       sd_pattern := icase (seq ([optQuote;
         RGroup 2 (alt (lit "password") [lit "passwd"; lit "pwd"])]
         ++ assigned
         ++ [RGroup 3 (RQuant (RClass true [CChar 39; CChar 34]) 4 None true);
             q]));
       sd_severity := HIGH; isEnvVar := false |};
    {| sd_type := "Token";
       (* / ( [q] )? ( token | jwt | auth[_-]?token ) [q]
            \s* [=:] \s* [q] ( [a-zA-Z0-9_\-.+=]{10,} ) [q] /i *)
       sd_pattern := icase (seq ([optQuote;
         RGroup 2 (alt (lit "token")
                     [lit "jwt"; seq [lit "auth"; sep; lit "token"]])]
         ++ assigned
         ++ [RGroup 3 (RQuant (RClass false
                                 (keyChars ++ [ch "."; ch "+"; ch "="]))
                         10 None true); q]));
       sd_severity := HIGH; isEnvVar := false |};
    {| sd_type := "AWS Access Key";
       (* / ( [q] )? aws[_-]?access[_-]?key[_-]?id [q]
            \s* [=:] \s* [q] ( [A-Z0-9]{20} ) [q] /i *)
       sd_pattern := icase (seq ([optQuote; lit "aws"; sep; lit "access"; sep;
                                  lit "key"; sep; lit "id"]
         ++ assigned
         ++ [RGroup 2 (RQuant (RClass false [CRange 65 90; CRange 48 57])
                         20 (Some 20%nat) true); q]));
       sd_severity := CRITICAL; isEnvVar := false |};
    {| sd_type := "AWS Secret Key";
       (* / ( [q] )? aws[_-]?secret[_-]?access[_-]?key [q]
            \s* [=:] \s* [q] ( [a-zA-Z0-9/+]{40} ) [q] /i *)
       sd_pattern := icase (seq ([optQuote; lit "aws"; sep; lit "secret"; sep;
                                  lit "access"; sep; lit "key"]
         ++ assigned
         ++ [RGroup 2 (RQuant (RClass false [CRange 97 122; CRange 65 90;
                                             CRange 48 57; ch "/"; ch "+"])
                         40 (Some 40%nat) true); q]));
       sd_severity := CRITICAL; isEnvVar := false |};
    {| sd_type := "Google API Key";
       (* / ( [q] )? AIza [0-9A-Za-z\-_]{35} [q] /i *)
       sd_pattern := icase (seq [optQuote; lit "AIza";
         RQuant (RClass false [CRange 48 57; CRange 65 90; CRange 97 122;
                               ch "-"; ch "_"]) 35 (Some 35%nat) true;
         q]);
       sd_severity := CRITICAL; isEnvVar := false |};
    {| sd_type := "Private Key";
       (* / -----BEGIN \s+ PRIVATE \s+ KEY (  BLOCK )? ----- /i *)
       sd_pattern := icase (seq [lit "-----BEGIN"; plus ws; lit "PRIVATE";
                                 plus ws; lit "KEY";
                                 opt (RGroup 1 (lit " BLOCK")); lit "-----"]);
       sd_severity := CRITICAL; isEnvVar := false |};
    {| sd_type := "Firebase Key";
       (* / ( [q] )? firebase[_-]?api[_-]?key [q]
            \s* [=:] \s* [q] ( [a-zA-Z0-9_\-]{10,} ) [q] /i *)
       sd_pattern := icase (seq ([optQuote; lit "firebase"; sep; lit "api"; sep;
                                  lit "key"]
         ++ assigned
         ++ [RGroup 2 (RQuant (RClass false keyChars) 10 None true); q]));
       sd_severity := HIGH; isEnvVar := false |};
    {| sd_type := "GitHub Token";
       (* / ( [q] )? github[_-]?token [q]
            \s* [=:] \s* [q] ( [a-zA-Z0-9_\-]{10,} ) [q] /i *)
       sd_pattern := icase (seq ([optQuote; lit "github"; sep; lit "token"]
         ++ assigned
         ++ [RGroup 2 (RQuant (RClass false keyChars) 10 None true); q]));
       sd_severity := HIGH; isEnvVar := false |};
    {| sd_type := "MongoDB Connection String";
       (* / mongodb ( \+srv )? :\/\/ [^:]+ : [^@]+ @ [^/]+ \/ [a-zA-Z0-9-_]+ /i *)
       sd_pattern := icase (seq [lit "mongodb"; opt (RGroup 1 (lit "+srv"));
         lit "://"; plus (RClass true [ch ":"]); lit ":";
         plus (RClass true [ch "@"]); lit "@"; plus (RClass true [ch "/"]);
         lit "/";
         plus (RClass false [CRange 97 122; CRange 65 90; CRange 48 57;
                             ch "-"; ch "_"])]);
       sd_severity := CRITICAL; isEnvVar := false |};
    environmentVariable ].

Definition excludedDirs : list string :=
  ["node_modules"; ".git"; "dist"; "build"; "public"].

Definition fileExtensions : list string :=
  ["js"; "ts"; "jsx"; "tsx"; "json"; "env"; "config"; "yml"; "yaml"].

(** [excludedDirs.some(dir => file.includes(`/${dir}/`))]; the needles
    are ASCII, so the test is the same on the bytes of the path. *)
Definition isExcluded (file : string) : bool :=
  existsb (fun dir =>
             JS.includes (JS.str file)
               (JS.str (String.append "/" (String.append dir "/"))))
          excludedDirs.

(** [set.add(x)] on a Set kept as the list of its elements in the order
    of insertion, which is the order of [Array.from]. *)
Definition setAdd (set : list (list N)) (x : list N) : list (list N) :=
  if bool_decide (x ∈ set) then set else set ++ [x].

(** The body of the inner loop over the results of a pattern: the pair
    of [matches] and [envVars] after it. *)
Definition scanSecrets_step (secretDef : SecretDef)
    (acc : list SecretScanner.Secret * list (list N)) (result : Match)
  : list SecretScanner.Secret * list (list N) :=
  let '(matches, envVars) := acc in
  if isExcluded (file result) then acc
  else if isEnvVar secretDef then
    match context result with
    | Some ctx =>
        if negb (Nat.eqb (length ctx) 0) then
          match exec (sd_pattern secretDef) ctx with
          | Some m =>
              match captures m !! 0%nat with
              | Some (Some m1) =>
                  if negb (Nat.eqb (length m1) 0)
                  then (matches, setAdd envVars m1)
                  else acc
              | _ => acc
              end
          | None => acc
          end
        else acc
    | None => acc
    end
  else
    (matches ++ [ {| SecretScanner.s_file := file result;
                     SecretScanner.s_line := line result;
                     SecretScanner.s_type := sd_type secretDef;
                     SecretScanner.s_severity := sd_severity secretDef;
                     SecretScanner.s_context := context result |} ],
     envVars).

(** / .+ / *)
Definition anyText : RegExp.t := {| source := plus RDot; ignoreCase := false |}.

(** The pattern / ^ ( [A-Za-z0-9_]+ ) = /gm without its assertion and
    its flags. *)
Definition envName : RegExp.t :=
  {| source := seq [RGroup 1 (plus (RClass false [CRange 65 90; CRange 97 122;
                                                  CRange 48 57; ch "_"]));
                    lit "="];
     ignoreCase := false |}.

(** Where [^] holds under the [m] flag: at the start of the input and
    after a line terminator. *)
Definition isLineStart (s : list N) (i : nat) : bool :=
  match i with
  | O => true
  | S j => match s !! j with
           | Some c => JS.isLineTerminator c
           | None => false
           end
  end.

(** [s.match(re)] for [re] with the flags [g] and [m] and a leading
    [^]: the matched texts, in order, [[]] standing for [null].  A
    match of [body] holds no line terminator here, so the search finds
    the matches at the line starts one after the other. *)
Definition matchAllAtLineStarts (body : RegExp.t) (s : list N)
  : list (list N) :=
  flat_map (fun i =>
              if isLineStart s i then
                match matchAt body s i with
                | Some y => [JS.substring s i y.1]
                | None => []
                end
              else [])
           (List.seq 0 (S (length s))).

(** [s.replace(c, '')] for a string [c] of one code unit. *)
Fixpoint removeFirst (c : N) (s : list N) : list N :=
  match s with
  | [] => []
  | a :: s' => if (a =? c)%N then s' else a :: removeFirst c s'
  end.

Record EnvironmentVariables := {
  used : list (list N);
  defined : list (list N);
  missing : list (list N)
}.

Record Result := {
  secrets : list SecretScanner.Secret;
  environmentVariables : EnvironmentVariables
}.

Definition scanSecrets (p : Project) : Result :=
  let filePattern :=
    String.append "**/*.{"
      (String.append (String.concat "," fileExtensions) "}") in
  let '(matches, envVars) :=
    foldl (fun acc secretDef =>
             let results :=
               findFilesWithPattern p filePattern
                 (PRegExp (sd_pattern secretDef)) in
             foldl (scanSecrets_step secretDef) acc results)
          ([], []) secretPatterns in
  let envResults := findFilesWithPattern p "**/.env*" (PRegExp anyText) in
  let envFileVars :=
    foldl (fun envFileVars result =>
             let content := default [] (context result) in
             let envVarMatches := matchAllAtLineStarts envName content in
             foldl (fun envFileVars m => setAdd envFileVars (removeFirst 61 m))
                   envFileVars envVarMatches)
          [] envResults in
  {| secrets := matches;
     environmentVariables :=
       {| used := envVars;
          defined := envFileVars;
          missing :=
            List.filter (fun v => negb (bool_decide (v ∈ envFileVars)))
              envVars |} |}.

(** The part of the result that the report generator and index.js read. *)
Definition reported (r : Result) : SecretScanner.Result :=
  {| SecretScanner.secrets := secrets r |}.

End SecretScan.

(** ** Vocabulary of the further properties *)

Module Props.

(** The text a content pattern finds in a file: the pattern itself for
    a string, [m[0]] for a RegExp; [None] when the file does not match. *)
Definition foundText (pattern : ContentPattern) (f : SourceFile)
  : option (list N) :=
  match pattern with
  | PString s => if JS.includes (content f) s then Some s else None
  | PRegExp re => RegExp.matched <$> RegExp.exec re (content f)
  end.

(** What becomes of a line in the snippet: kept as it is for a string
    pattern, trimmed for a RegExp. *)
Definition snippetOf (pattern : ContentPattern) (l : list N) : list N :=
  match pattern with
  | PString _ => l
  | PRegExp _ => JS.trim l
  end.

(** [Spec.located] with the snippet left to a function. *)
Inductive locatedWith (snippet : list N -> list N) (lines : list (list N))
    (text : list N) : option Z -> option (list N) -> Prop :=
| locatedWith_first (i : nat) (l : list N) :
    lines !! i = Some l ->
    Spec.contains l text ->
    (forall j l', (j < i)%nat -> lines !! j = Some l' ->
                  ~ Spec.contains l' text) ->
    locatedWith snippet lines text (Some (Z.of_nat i + 1)) (Some (snippet l))
| locatedWith_nowhere :
    (forall l, l ∈ lines -> ~ Spec.contains l text) ->
    locatedWith snippet lines text None None.

(** A matcher is guided on an input when a successful run ends with a
    successful call of its continuation, on a state between its own
    state and the end of the input. *)
Definition guided (input : list N) (m : RegExp.Matcher) : Prop :=
  forall (x z : RegExp.State) (k : RegExp.Continuation),
    (x.1 <= length input)%nat ->
    m x k = Some z ->
    exists y : RegExp.State,
      (x.1 <= y.1 <= length input)%nat /\ k y = Some z.

End Props.

Module DependencyProps.

(** What the outdated packages cost in the score of the dependency
    scanner: 5 for each HIGH risk and 2 for each MEDIUM risk, nothing
    when npm outdated failed. *)
Definition outdatedDeduction (o : DependencyScanner.OutdatedAnalysis) : Z :=
  match o with
  | DependencyScanner.OutdatedSuccess outdated =>
      5 * DependencyScanner.countRisk "HIGH" outdated
      + 2 * DependencyScanner.countRisk "MEDIUM" outdated
  | DependencyScanner.OutdatedFailure _ => 0
  end.

(** What the audit costs when it reports the four counts. *)
Definition auditDeduction (a : DependencyScanner.AuditAnalysis) : Z :=
  match a with
  | DependencyScanner.AuditSuccess (Some metadata) _ =>
      20 * default 0 (metadata !! "critical")
      + 10 * default 0 (metadata !! "high")
      + 5 * default 0 (metadata !! "moderate")
      + 2 * default 0 (metadata !! "low")
  | DependencyScanner.AuditSuccess None _ => 0
  | DependencyScanner.AuditFailure _ => 0
  end.

End DependencyProps.

Module BestPracticesProps.
Import BestPractices.

(** The text of a value that is a string. *)
Definition textOf (value : Json) : list N :=
  match value with
  | JString text => text
  | JArray _ | JOther => []
  end.

(** The entries for which the test of a loop succeeds with true. *)
Definition unpinned (entry : list N * Json) : bool :=
  default false (isUnpinned entry.2).

Definition complex (entry : list N * Json) : bool :=
  default false (isComplex entry.2).

(** The issue each loop pushes for such an entry. *)
Definition versionIssue (entry : list N * Json) : BestPracticeIssue :=
  UnpinnedVersion entry.1 (textOf entry.2)
    (pinSolution entry.1 (textOf entry.2)).

Definition scriptIssue (entry : list N * Json) : BestPracticeIssue :=
  ComplexScript entry.1 entry.2.

End BestPracticesProps.

Module RateLimitProps.


(** The context of a Match of the route pattern defines a POST route on
    [path]: the route pattern matches it with a method that is POST in
    upper case and with [path] between the quotes. *)
Definition postRoute (route : Match) (path : list N) : Prop :=
  exists routeMatch method,
    RegExp.exec RateLimitScanner.routeDefinition (default [] (context route))
    = Some routeMatch /\
    RegExp.captures routeMatch !! 0%nat = Some (Some method) /\
    RegExp.captures routeMatch !! 1%nat = Some (Some path) /\
    JS.toUpperCase method = JS.str "POST".

End RateLimitProps.

Module SecretProps.
Import SecretScan.

(** The secret the loop pushes for a definition and a Match. *)
Definition secretOf (def : SecretDef) (m : Match) : SecretScanner.Secret :=
  {| SecretScanner.s_file := file m;
     SecretScanner.s_line := line m;
     SecretScanner.s_type := sd_type def;
     SecretScanner.s_severity := sd_severity def;
     SecretScanner.s_context := context m |}.

(** The number of slashes of a path. *)
Definition slashes (s : list N) : nat :=
  length (List.filter (fun c => (c =? 47)%N) s).

(** The definitions whose Matches are reported as secrets: all but the
    one of the environment variables. *)
Definition secretDefs : list SecretDef :=
  List.filter (fun def => negb (isEnvVar def)) secretPatterns.

(** The Matches of a list that lie outside the excluded directories. *)
Definition kept (results : list Match) : list Match :=
  List.filter (fun m => negb (isExcluded (file m))) results.

(** The files of a corpus in which a definition finds a secret: those
    its pattern matches, outside the excluded directories. *)
Definition holding (def : SecretDef) (files : list SourceFile)
  : list SourceFile :=
  List.filter (fun f => RegExp.test (sd_pattern def) (content f)
                        && negb (isExcluded (relativePath f))) files.

(** The type and the file of a secret. *)
Definition typeAndFile (s : SecretScanner.Secret) : string * string :=
  (SecretScanner.s_type s, SecretScanner.s_file s).

End SecretProps.

Module CrossProps.

(** Where an issue was found: the file, the line and the context of
    its Match. *)
Definition place (i : Issue) : string * option Z * option (list N) :=
  (i_file i, i_line i, i_context i).

Definition placeOf (m : Match) : string * option Z * option (list N) :=
  (file m, line m, context m).

(** The issues of a list that carry a given name. *)
Definition named (n : string) (issues : list Issue) : list Issue :=
  List.filter (fun i => String.eqb (i_name i) n) issues.

End CrossProps.

Module LoopProps.

(** The files of a corpus that a rule matches. *)
Definition matching (rule : Rule) (files : list SourceFile) : list SourceFile :=
  List.filter (fun f => RegExp.test (pattern rule) (content f)) files.

(** The name and the file of an issue. *)
Definition nameAndFile (i : Issue) : string * string := (i_name i, i_file i).

End LoopProps.

(** ** Further example projects *)

Module RateLimitExamples.
Import RegExp.

(** A limiter whose options start on the next line. *)
Definition limitOnTwoLines : Project :=
  Examples.projectOf None
    [ {| relativePath := "app.js";
         content := JS.str "app.use(rateLimit({" ++ [10%N]
                    ++ JS.str "  max: 5 }))" |} ].

(** A login route without limiter. *)
Definition loginRoute : Project :=
  Examples.projectOf None
    [Examples.sourceFile "routes.js" "app.post('/login', handler)"].

(** / app\. (?: use | post ) \( \s* [Q] /login [Q] \s* , \s*
      (?: rateLimit | limiter ) /i, which is the pattern [new RegExp]
    builds for POST /login *)
Definition loginProtection : RegExp.t :=
  icase (seq [lit "app."; RAlt (lit "use") (lit "post"); lit "("; star ws;
              quote; lit "/login"; quote; star ws; lit ","; star ws;
              RAlt (lit "rateLimit") (lit "limiter")]).

(** A RegExp constructor that knows the source of that pattern only. *)
Definition newRegExp (src : list N) : option RegExp.t :=
  if bool_decide
       (src = RateLimitScanner.protectionSource (JS.str "POST") (JS.str "/login"))
  then Some loginProtection else None.

Definition scanLoginRoute : option RateLimitScanner.Result :=
  RateLimitScanner.scanRateLimit newRegExp loginRoute.

(** A POST route under /login whose path opens a group that it does not
    close; [new RegExp] throws a SyntaxError on the source built for it,
    and [newRegExp] above gives [None] there. *)
Definition unclosedGroupRoute : Project :=
  Examples.projectOf None
    [Examples.sourceFile "routes.js" "app.post('/login/(x', handler)"].

End RateLimitExamples.

Module ScanExamples.

(** A project that declares and loads express-rate-limit. *)
Definition limited : Project :=
  Examples.projectOf
    (Some {| dependencies := Some {[ "express-rate-limit" := "^6.7.0" ]};
             devDependencies := None;
             entries := {| m_dependencies :=
                             Some (Examples.entriesOf
                                     [("express-rate-limit", "^6.7.0")]);
                           m_scripts := None |} |})
    [Examples.sourceFile "app.js"
       "const limiter = require('express-rate-limit')"].

(** The configuration the CORS scanner reads on the second line of
    [Examples.wildcardOnLineTwo]. *)
Definition lineTwoConfiguration : CorsScanner.Configuration :=
  {| CorsScanner.c_file := "a.js";
     CorsScanner.c_line := Some 2;
     CorsScanner.c_origin := JS.str "'*'";
     CorsScanner.c_credentials := CorsScanner.nonDetectee;
     CorsScanner.c_context := JS.str "app.use(cors({ origin: '*' }))" |}.

(** The endpoint the rate-limit scanner reports on
    [RateLimitExamples.loginRoute]. *)
Definition loginEndpoint : RateLimitScanner.Endpoint :=
  {| RateLimitScanner.e_path := JS.str "/login";
     RateLimitScanner.e_method := JS.str "POST";
     RateLimitScanner.e_file := "routes.js";
     RateLimitScanner.e_line := Some 1 |}.

End ScanExamples.

Module MiddlewareExamples.

(** A project that declares express-session and opens the options of
    the session on the next line. *)
Definition sessionOnTwoLines : Project :=
  Examples.projectOf
    (Some {| dependencies := Some {[ "express-session" := "^1.17.3" ]};
             devDependencies := None;
             entries := {| m_dependencies :=
                             Some (Examples.entriesOf
                                     [("express-session", "^1.17.3")]);
                           m_scripts := None |} |})
    [ {| relativePath := "app.js";
         content := JS.str "app.use(session(" ++ [10%N]
                    ++ JS.str "{ secret: 'keyboard cat' }))" |} ].

(** A manifest with helmet and cors, and no source file. *)
Definition helmetAndCors : PackageJson :=
  {| dependencies := Some {[ "helmet" := "^7.0.0"; "cors" := "^2.8.5" ]};
     devDependencies := None;
     entries := {| m_dependencies :=
                     Some (Examples.entriesOf
                             [("helmet", "^7.0.0"); ("cors", "^2.8.5")]);
                   m_scripts := None |} |}.

End MiddlewareExamples.

Module AuthExamples.

(** A token signed with a short secret, and the issue the
    authentication scanner reports for it. *)
Definition shortSecret : Project :=
  Examples.projectOf
    (Some {| dependencies := Some {[ "jsonwebtoken" := "^9.0.0" ]};
             devDependencies := None;
             entries := {| m_dependencies :=
                             Some (Examples.entriesOf
                                     [("jsonwebtoken", "^9.0.0")]);
                           m_scripts := None |} |})
    [Examples.sourceFile "auth.js" "const t = jwt.sign(payload, 'secret')"].

Definition weakSecretIssue : Issue :=
  {| i_file := "auth.js"; i_line := Some 1;
     i_name := "Clé secrète JWT faible";
     i_severity := HIGH;
     i_solution := "Utilisez une clé secrète JWT forte (min. 32 caractères) stockée dans les variables d'environnement";
     i_context := Some (JS.str "const t = jwt.sign(payload, 'secret')");
     i_value := None |}.

End AuthExamples.

Module DependencyExamples.

(** A manifest that gives the version of a package as a number, and a
    manifest whose script is a list of commands. *)
Definition numericVersion : Manifest :=
  {| m_dependencies := Some [(JS.str "express", JString (JS.str "^4.18.2"));
                             (JS.str "left-pad", JOther)];
     m_scripts := None |}.

Definition versionAsNumber : Project :=
  Examples.projectOf
    (Some {| dependencies := Some {[ "express" := "^4.18.2" ]};
             devDependencies := None;
             entries := numericVersion |}) [].

(** Two ranges, a pinned version, and two scripts of which one chains
    two commands. *)
Definition rangesAndScripts : Manifest :=
  {| m_dependencies :=
       Some (Examples.entriesOf
               [("express", "^4.18.2"); ("lodash", "4.17.21");
                ("react", ">=18"); ("debug", "~4.3.4")]);
     m_scripts :=
       Some (Examples.entriesOf
               [("build", "tsc && node dist/index.js"); ("test", "jest")]) |}.

End DependencyExamples.

Module SecretExamples.

(** A project on disk: the files each file pattern selects. *)
Definition onDisk (sources envFiles : list SourceFile) : Project :=
  {| packageJson := None;
     findFiles := fun g =>
       if String.eqb g "**/*.{js,ts,jsx,tsx,json,env,config,yml,yaml}"
       then sources
       else if String.eqb g "**/.env*" then envFiles else [] |}.

(** A password and two environment variables in the sources, a secret
    in a bundle directly under dist, and one variable defined on each
    of the two lines of .env. *)
Definition app : Project :=
  onDisk
    [ Examples.sourceFile "src/db.js"
        "const cfg = { 'password': 'hunter2!', port: process.env.DB_PORT }";
      Examples.sourceFile "src/mail.js" "send(process.env.SMTP_HOST)";
      Examples.sourceFile "dist/bundle.js" "x = { 'api_key': 'abcdef0123456789' }";
      Examples.sourceFile "lib/node_modules/pkg/index.js"
        "y = { 'api_key': 'abcdef0123456789' }" ]
    [ {| relativePath := ".env";
         content := JS.str "SMTP_HOST=localhost" ++ [10%N]
                    ++ JS.str "DB_PORT=5432" |} ].

End SecretExamples.

(** * Properties *)

(** ** Strings and arrays *)

Module JSFacts.
Import JS Spec.

Lemma startsWith_spec (s p : list N) :
  startsWith s p = true <-> exists post, s = p ++ post.
Proof.
  revert s. induction p as [|a p IH]; intros s; simpl.
  - split; [intros _; exists s; reflexivity | reflexivity].
  - destruct s as [|b s].
    + split; [discriminate | intros [post H]; discriminate].
    + rewrite andb_true_iff, N.eqb_eq, IH. split.
      * intros [-> [post ->]]. eauto.
      * intros [post H]. injection H as -> ->. eauto.
Qed.

Lemma includes_spec (s sub : list N) :
  includes s sub = true <-> contains s sub.
Proof.
  unfold contains. induction s as [|c s IH].
  - simpl. rewrite orb_false_r, startsWith_spec. split.
    + intros [post H]. exists [], post. exact H.
    + intros [pre [post H]]. destruct pre; [eauto | discriminate].
  - cbn [includes]. rewrite orb_true_iff, startsWith_spec, IH. split.
    + intros [[post H] | [pre [post H]]].
      * exists [], post. exact H.
      * exists (c :: pre), post. rewrite H. reflexivity.
    + intros [[|c' pre] [post H]].
      * left. eauto.
      * right. injection H as _ H. eauto.
Qed.

Lemma includes_false (s sub : list N) :
  includes s sub = false <-> ~ contains s sub.
Proof.
  rewrite <- includes_spec. destruct (includes s sub); split; congruence.
Qed.

(** [findIndex] returns -1 or the index of the first element that
    satisfies the predicate. *)
Lemma findIndex_range {A} (p : A -> bool) (l : list A) :
  -1 <= findIndex p l < Z.of_nat (length l).
Proof.
  induction l as [|x l IH]; simpl; [lia|].
  destruct (p x); [lia|].
  destruct (Z.ltb_spec (findIndex p l) 0); lia.
Qed.

Lemma findIndex_found {A} (p : A -> bool) (l : list A) :
  0 <= findIndex p l ->
  exists x, l !! Z.to_nat (findIndex p l) = Some x /\ p x = true /\
    forall j y, (j < Z.to_nat (findIndex p l))%nat -> l !! j = Some y ->
                p y = false.
Proof.
  induction l as [|x l IH]; simpl; [lia|].
  destruct (p x) eqn:Hx.
  - intros _. exists x. repeat split; auto. simpl. intros j y Hj. lia.
  - destruct (Z.ltb_spec (findIndex p l) 0) as [Hlt|Hge]; [lia|].
    intros _. destruct (IH Hge) as [z [Hz [Hpz Hmin]]].
    exists z. replace (Z.to_nat (findIndex p l + 1))
      with (S (Z.to_nat (findIndex p l))) by lia.
    repeat split; auto.
    intros [|j] y Hj Hy; simpl in Hy.
    + congruence.
    + apply (Hmin j); [lia | exact Hy].
Qed.

Lemma findIndex_none {A} (p : A -> bool) (l : list A) :
  findIndex p l < 0 -> forall x, x ∈ l -> p x = false.
Proof.
  induction l as [|x l IH]; simpl; intros H y Hy.
  - inversion Hy.
  - destruct (p x) eqn:Hx; [lia|].
    destruct (Z.ltb_spec (findIndex p l) 0) as [Hlt|Hge].
    + inversion Hy; subst; auto.
    + pose proof (findIndex_range p l). lia.
Qed.

Lemma split_lines_nonempty (s : list N) : split_lines s <> [].
Proof.
  destruct s as [|c s]; simpl; [discriminate|].
  destruct (c =? 10)%N; [discriminate|].
  destruct (split_lines s); discriminate.
Qed.

Lemma split_lines_join (s : list N) : joinLines (split_lines s) = s.
Proof.
  induction s as [|c s IH]; simpl; [reflexivity|].
  destruct (N.eqb_spec c 10) as [->|Hc].
  - pose proof (split_lines_nonempty s) as Hne.
    simpl. destruct (split_lines s) as [|l ls]; [contradiction|].
    simpl. f_equal. exact IH.
  - pose proof (split_lines_nonempty s) as Hne.
    destruct (split_lines s) as [|l ls]; [contradiction|].
    simpl in *. destruct ls; rewrite <- IH; reflexivity.
Qed.

Lemma split_lines_no_newline (s l : list N) :
  l ∈ split_lines s -> 10%N ∉ l.
Proof.
  revert l. induction s as [|c s IH]; simpl; intros l Hl.
  - apply list_elem_of_singleton in Hl as ->. apply not_elem_of_nil.
  - destruct (N.eqb_spec c 10) as [->|Hc].
    + apply elem_of_cons in Hl as [->|Hl]; [apply not_elem_of_nil | auto].
    + pose proof (split_lines_nonempty s) as Hne.
      destruct (split_lines s) as [|l0 ls]; [contradiction|].
      apply elem_of_cons in Hl as [->|Hl].
      * intros Hin. apply elem_of_cons in Hin as [Heq|Hin]; [congruence|].
        eapply IH; [|exact Hin]. left.
      * apply IH. right. exact Hl.
Qed.

(** [trim] removes white space at both ends and nothing else. *)
Lemma trimStart_spec (s : list N) :
  exists w, s = w ++ trimStart s /\ forallb isWhiteSpace w = true /\
    match trimStart s with c :: _ => isWhiteSpace c = false | [] => True end.
Proof.
  induction s as [|c s [w [H1 [H2 H3]]]]; simpl.
  - exists []. auto.
  - destruct (isWhiteSpace c) eqn:Hc.
    + exists (c :: w). simpl. rewrite Hc, H2, <- H1. auto.
    + exists []. simpl. auto.
Qed.

Lemma trim_spec (s : list N) :
  exists w1 w2, s = w1 ++ trim s ++ w2 /\
    forallb isWhiteSpace w1 = true /\ forallb isWhiteSpace w2 = true /\
    match trim s with c :: _ => isWhiteSpace c = false | [] => True end /\
    match rev (trim s) with c :: _ => isWhiteSpace c = false | [] => True end.
Proof.
  destruct (trimStart_spec s) as [w1 [H1 [Hw1 Hhd]]].
  destruct (trimStart_spec (rev (trimStart s))) as [w2 [H2 [Hw2 Hlast]]].
  unfold trim, trimEnd. set (t := trimStart s) in *.
  set (u := trimStart (rev t)) in *.
  assert (Ht : t = rev u ++ rev w2).
  { rewrite <- rev_app_distr, <- H2, rev_involutive. reflexivity. }
  exists w1, (rev w2). rewrite rev_involutive. repeat split; auto.
  - rewrite <- Ht. exact H1.
  - rewrite forallb_forall in *. intros x Hx. apply Hw2.
    apply in_rev. exact Hx.
  - destruct (rev u) as [|c r] eqn:Hr; [exact I|].
    rewrite Ht in Hhd. simpl in Hhd. exact Hhd.
Qed.

End JSFacts.

(** ** The pattern matcher *)

Module MatcherFacts.
Import JS Spec JSFacts.

(** The loop of [findFilesWithPattern] appends, for each file in turn,
    what its body pushes. *)
Lemma step_app (pat : ContentPattern) (acc : list Match) (f : SourceFile) :
  findFilesWithPattern_step pat acc f
  = acc ++ findFilesWithPattern_step pat [] f.
Proof.
  unfold findFilesWithPattern_step. destruct pat as [s|re].
  - destruct (includes (content f) s); [reflexivity | now rewrite app_nil_r].
  - destruct (RegExp.exec re (content f)); [reflexivity | now rewrite app_nil_r].
Qed.

Lemma foldl_step (pat : ContentPattern) (files : list SourceFile)
    (acc : list Match) :
  foldl (findFilesWithPattern_step pat) acc files
  = acc ++ flat_map (findFilesWithPattern_step pat []) files.
Proof.
  revert acc. induction files as [|f files IH]; intros acc; simpl.
  - now rewrite app_nil_r.
  - rewrite IH, step_app, <- app_assoc. reflexivity.
Qed.

Lemma findFilesWithPattern_flat (p : Project) (g : string)
    (pat : ContentPattern) :
  findFilesWithPattern p g pat
  = flat_map (findFilesWithPattern_step pat []) (findFiles p g).
Proof. unfold findFilesWithPattern. now rewrite foldl_step. Qed.

(** What the body pushes for a file, with a RegExp: nothing, or one
    Match that carries the path of the file. *)
Lemma step_regexp_file (re : RegExp.t) (f : SourceFile) (m : Match) :
  m ∈ findFilesWithPattern_step (PRegExp re) [] f -> file m = relativePath f.
Proof.
  unfold findFilesWithPattern_step.
  destruct (RegExp.exec re (content f)); simpl; intros H.
  - apply list_elem_of_singleton in H as ->. reflexivity.
  - inversion H.
Qed.

Lemma step_regexp_length (re : RegExp.t) (f : SourceFile) :
  length (findFilesWithPattern_step (PRegExp re) [] f)
  = if RegExp.test re (content f) then 1%nat else 0%nat.
Proof.
  unfold findFilesWithPattern_step, RegExp.test.
  destruct (RegExp.exec re (content f)); reflexivity.
Qed.

Lemma filter_step_same (re : RegExp.t) (f : SourceFile) :
  List.filter (forFile (relativePath f))
    (findFilesWithPattern_step (PRegExp re) [] f)
  = findFilesWithPattern_step (PRegExp re) [] f.
Proof.
  unfold findFilesWithPattern_step, forFile.
  destruct (RegExp.exec re (content f)); simpl; [|reflexivity].
  now rewrite String.eqb_refl.
Qed.

Lemma filter_step_other (re : RegExp.t) (f : SourceFile) (path : string) :
  relativePath f <> path ->
  List.filter (forFile path) (findFilesWithPattern_step (PRegExp re) [] f) = [].
Proof.
  intros Hne. unfold findFilesWithPattern_step, forFile.
  destruct (RegExp.exec re (content f)); simpl; [|reflexivity].
  destruct (String.eqb_spec (relativePath f) path); [contradiction | reflexivity].
Qed.

Lemma filter_flat_absent (re : RegExp.t) (files : list SourceFile)
    (path : string) :
  path ∉ (relativePath <$> files) ->
  List.filter (forFile path)
    (flat_map (findFilesWithPattern_step (PRegExp re) []) files) = [].
Proof.
  induction files as [|f files IH]; cbn [flat_map]; intros Hnotin;
    [reflexivity|].
  rewrite List.filter_app, IH, app_nil_r.
  - apply filter_step_other. intros Heq. apply Hnotin. rewrite <- Heq. left.
  - intros Hin. apply Hnotin. right. exact Hin.
Qed.

Lemma step_regexp_located (re : RegExp.t) (f : SourceFile) (m : Match) :
  m ∈ findFilesWithPattern_step (PRegExp re) [] f ->
  exists arr, RegExp.exec re (content f) = Some arr /\
    located (split_lines (content f)) (RegExp.matched arr) (line m) (context m).
Proof.
  unfold findFilesWithPattern_step.
  destruct (RegExp.exec re (content f)) as [arr|]; simpl; intros H;
    [|inversion H].
  apply list_elem_of_singleton in H as ->. exists arr. split; [reflexivity|].
  simpl. set (lines := split_lines (content f)).
  set (p := fun line => includes line (RegExp.matched arr)).
  destruct (Z.leb_spec 0 (findIndex p lines)) as [Hge|Hlt].
  - destruct (findIndex_found p lines Hge) as [l [Hl [Hp Hmin]]].
    rewrite Hl. simpl.
    replace (findIndex p lines) with (Z.of_nat (Z.to_nat (findIndex p lines)))
      at 1 by lia.
    apply located_first; [exact Hl | now apply includes_spec |].
    intros j l' Hj Hl'. apply includes_false. exact (Hmin j l' Hj Hl').
  - apply located_nowhere. intros l Hl. apply includes_false.
    exact (findIndex_none p lines Hlt l Hl).
Qed.

End MatcherFacts.

(** C1. For a file of the corpus, paths being distinct, the matcher
    returns exactly one Match for the file and a rule when the rule's
    regular expression matches the content of the file, however many
    times it occurs there, and no Match when it does not match. *)
Theorem one_match_per_file_and_rule
    (p : Project) (g : string) (re : RegExp.t) (f : SourceFile) :
  NoDup (relativePath <$> findFiles p g) ->
  f ∈ findFiles p g ->
  length (List.filter (Spec.forFile (relativePath f))
            (findFilesWithPattern p g (PRegExp re)))
  = if RegExp.test re (content f) then 1%nat else 0%nat.
Proof.
  rewrite MatcherFacts.findFilesWithPattern_flat.
  induction (findFiles p g) as [|a files IH]; intros Hnd Hin.
  - inversion Hin.
  - rewrite fmap_cons in Hnd. apply NoDup_cons in Hnd as [Ha Hnd].
    cbn [flat_map]. rewrite List.filter_app, length_app.
    apply elem_of_cons in Hin as [<-|Hin].
    + rewrite MatcherFacts.filter_step_same, MatcherFacts.step_regexp_length.
      rewrite MatcherFacts.filter_flat_absent by exact Ha.
      simpl. lia.
    + rewrite MatcherFacts.filter_step_other, IH by
        (auto; intros Heq; apply Ha; rewrite Heq;
         apply list_elem_of_fmap; eauto).
      reflexivity.
Qed.

Lemma one_match_per_file_and_rule_witness :
  NoDup (relativePath <$> findFiles Examples.threeCalls filePattern) /\
  Examples.sourceFile "a.js" "cors(x); cors(y); cors(z)"
    ∈ findFiles Examples.threeCalls filePattern /\
  length (List.filter (Spec.forFile "a.js")
            (findFilesWithPattern Examples.threeCalls filePattern
               (PRegExp CorsScanner.corsCall))) = 1%nat.
Proof.
  assert (Hnd : NoDup (relativePath <$> findFiles Examples.threeCalls filePattern)).
  { vm_compute. repeat constructor; intros H; inversion H; subst;
      try discriminate; match goal with H' : _ ∈ _ |- _ => inversion H' end. }
  assert (Hin : Examples.sourceFile "a.js" "cors(x); cors(y); cors(z)"
                  ∈ findFiles Examples.threeCalls filePattern).
  { vm_compute. left. }
  split; [exact Hnd | split; [exact Hin |]].
  exact (one_match_per_file_and_rule Examples.threeCalls filePattern
           CorsScanner.corsCall _ Hnd Hin).
Defined.

(** C8. Every Match returned for a rule comes from a file of the corpus
    whose content the rule's regular expression matches; its line is the
    1-based index of the first line of that file that contains the
    matched text and its snippet is that line trimmed, and when no line
    contains the matched text both are null. *)
Theorem match_line_and_snippet
    (p : Project) (g : string) (re : RegExp.t) (m : Match) :
  m ∈ findFilesWithPattern p g (PRegExp re) ->
  exists f arr,
    f ∈ findFiles p g /\ file m = relativePath f /\
    RegExp.exec re (content f) = Some arr /\
    Spec.located (JS.split_lines (content f)) (RegExp.matched arr)
      (line m) (context m).
Proof.
  rewrite MatcherFacts.findFilesWithPattern_flat, list_elem_of_In.
  intros H. apply in_flat_map in H as [f [Hf Hm]].
  apply list_elem_of_In in Hf, Hm.
  destruct (MatcherFacts.step_regexp_located re f m Hm) as [arr [Harr Hloc]].
  exists f, arr. repeat split; auto.
  exact (MatcherFacts.step_regexp_file re f m Hm).
Qed.

Lemma match_line_and_snippet_witness :
  let wildcard := pattern CorsScanner.wildcardOrigin in
  let m1 := {| file := "a.js"; line := None; context := None |} in
  let m2 := {| file := "a.js"; line := Some 2;
               context := Some (JS.str "app.use(cors({ origin: '*' }))") |} in
  (m1 ∈ findFilesWithPattern Examples.wildcardOnTwoLines filePattern
          (PRegExp wildcard) /\
   exists f arr,
     f ∈ findFiles Examples.wildcardOnTwoLines filePattern /\
     file m1 = relativePath f /\
     RegExp.exec wildcard (content f) = Some arr /\
     Spec.located (JS.split_lines (content f)) (RegExp.matched arr)
       (line m1) (context m1)) /\
  (m2 ∈ findFilesWithPattern Examples.wildcardOnLineTwo filePattern
          (PRegExp wildcard) /\
   exists f arr,
     f ∈ findFiles Examples.wildcardOnLineTwo filePattern /\
     file m2 = relativePath f /\
     RegExp.exec wildcard (content f) = Some arr /\
     Spec.located (JS.split_lines (content f)) (RegExp.matched arr)
       (line m2) (context m2)).
Proof.
  intros wildcard m1 m2.
  assert (H1 : m1 ∈ findFilesWithPattern Examples.wildcardOnTwoLines
                 filePattern (PRegExp wildcard)) by (vm_compute; left).
  assert (H2 : m2 ∈ findFilesWithPattern Examples.wildcardOnLineTwo
                 filePattern (PRegExp wildcard)) by (vm_compute; left).
  split; (split; [assumption |]).
  - exact (match_line_and_snippet _ _ _ _ H1).
  - exact (match_line_and_snippet _ _ _ _ H2).
Defined.

(** ** The composite score *)

Module ScoreFacts.
Import ReportGenerator Spec.
Local Open Scope Q_scope.

(** Every value the score takes is a multiple of one half; the facts
    below compute with the numerators. *)
Lemma Qmin_half (a b : Q) (m n : Z) :
  a == m # 2 -> b == n # 2 -> Qmin a b == Z.min m n # 2.
Proof.
  intros Ha Hb. destruct (Z.le_ge_cases m n) as [Hle|Hge].
  - rewrite Q.min_l, Z.min_l by (try rewrite Ha, Hb; unfold Qle; simpl; lia).
    exact Ha.
  - rewrite Q.min_r, Z.min_r by (try rewrite Ha, Hb; unfold Qle; simpl; lia).
    exact Hb.
Qed.

Lemma Qmax_half (a b : Q) (m n : Z) :
  a == m # 2 -> b == n # 2 -> Qmax a b == Z.max m n # 2.
Proof.
  intros Ha Hb. destruct (Z.le_ge_cases m n) as [Hle|Hge].
  - rewrite Q.max_r, Z.max_r by (try rewrite Ha, Hb; unfold Qle; simpl; lia).
    exact Hb.
  - rewrite Q.max_l, Z.max_l by (try rewrite Ha, Hb; unfold Qle; simpl; lia).
    exact Ha.
Qed.

Lemma Qminus_half (a b : Q) (m n : Z) :
  a == m # 2 -> b == n # 2 -> a - b == (m - n) # 2.
Proof. intros -> ->. unfold Qeq. simpl. lia. Qed.

Lemma Qplus_half (a b : Q) (m n : Z) :
  a == m # 2 -> b == n # 2 -> a + b == (m + n) # 2.
Proof. intros -> ->. unfold Qeq. simpl. lia. Qed.

Lemma inject_half (z : Z) : inject_Z z == (2 * z) # 2.
Proof. unfold Qeq. simpl. lia. Qed.

Lemma Math_round_half (h : Z) : Math_round (h # 2) = ((h + 1) / 2)%Z.
Proof.
  unfold Math_round.
  rewrite (Qfloor_comp _ ((h + 1) # 2)) by (unfold Qeq; simpl; lia).
  reflexivity.
Qed.

Lemma Math_round_eq (q : Q) (h : Z) :
  q == h # 2 -> Math_round q = ((h + 1) / 2)%Z.
Proof.
  intros H. unfold Math_round.
  rewrite (Qfloor_comp _ ((h # 2) + (1 # 2))) by (rewrite H; reflexivity).
  apply Math_round_half.
Qed.

(** The blocks of the scorer, on numerators. *)
Lemma deductDependencies_half (r : Results) (s : Q) (h : Z) :
  s == h # 2 ->
  deductDependencies r s
  == (h - (30 * vulnCritical (countsOf r) + 20 * vulnHigh (countsOf r)
           + 10 * vulnModerate (countsOf r) + 4 * vulnLow (countsOf r))) # 2.
Proof.
  intros Hs. unfold deductDependencies, countsOf, vulnerabilitiesOf. simpl.
  destruct (dependencies r) as [[e|[vuln d|e] o sc]|]; rewrite Hs;
    unfold orZero, Qeq; simpl; lia.
Qed.

Lemma countSeverity_countOf {A} (sev : A -> Severity) (s : Severity)
    (l : list A) :
  countSeverity sev s l = inject_Z (countOf sev s l).
Proof. reflexivity. Qed.

Lemma deductSecrets_half (r : Results) (s : Q) (h : Z) :
  s == h # 2 ->
  deductSecrets r s
  == (h - (20 * secretsCritical (countsOf r) + 10 * secretsHigh (countsOf r))) # 2.
Proof.
  intros Hs. unfold deductSecrets, countsOf. simpl.
  destruct (secrets r) as [x|]; simpl; rewrite Hs;
    rewrite ?countSeverity_countOf; unfold Qeq; simpl; lia.
Qed.

Lemma deductCors_half (r : Results) (s : Q) (h : Z) :
  s == h # 2 ->
  deductCors r s == (h - 10 * corsHigh (countsOf r)) # 2.
Proof.
  intros Hs. unfold deductCors, countsOf. simpl.
  destruct (cors r) as [x|]; simpl; rewrite Hs;
    rewrite ?countSeverity_countOf; unfold Qeq; simpl; lia.
Qed.

(** A capped deduction guarded by [total] being truthy. *)
Lemma capped_half (t : Z) (s d : Q) (h cap k : Z) :
  s == h # 2 -> d == (k * t) # 2 -> (0 <= cap)%Z ->
  (if negb (t =? 0)%Z then s - Qmin (inject_Z cap) d else s)
  == (h - Z.min (2 * cap) (k * t)) # 2.
Proof.
  intros Hs Hd Hcap. destruct (Z.eqb_spec t 0) as [->|Hne]; simpl.
  - rewrite Hs. replace (Z.min (2 * cap) (k * 0)) with 0%Z by lia.
    unfold Qeq. simpl. lia.
  - apply Qminus_half; [exact Hs|]. apply Qmin_half; [|exact Hd].
    apply inject_half.
Qed.

Lemma deductAuth_half (r : Results) (s : Q) (h : Z) :
  s == h # 2 ->
  deductAuth r s == (h - Z.min 40 (4 * authIssues (countsOf r))) # 2.
Proof.
  intros Hs. unfold deductAuth, countsOf. simpl.
  destruct (auth r) as [x|]; simpl.
  - apply (capped_half _ s _ h 20 4); [exact Hs | | lia].
    unfold Qeq. simpl. lia.
  - rewrite Hs. unfold Qeq. simpl. lia.
Qed.

Lemma deductInputValidation_half (r : Results) (s : Q) (h : Z) :
  s == h # 2 ->
  deductInputValidation r s
  == (h - Z.min 30 (3 * inputValidationIssues (countsOf r))) # 2.
Proof.
  intros Hs. unfold deductInputValidation, countsOf. simpl.
  destruct (inputValidation r) as [x|]; simpl.
  - apply (capped_half _ s _ h 15 3); [exact Hs | | lia].
    unfold Qeq. simpl. lia.
  - rewrite Hs. unfold Qeq. simpl. lia.
Qed.

Lemma deductSqlInjection_half (r : Results) (s : Q) (h : Z) :
  s == h # 2 ->
  deductSqlInjection r s
  == (h - Z.min 40 (6 * injectionIssues (countsOf r))) # 2.
Proof.
  intros Hs. unfold deductSqlInjection, countsOf. simpl.
  destruct (sqlInjection r) as [x|]; simpl.
  - apply (capped_half _ s _ h 20 6); [exact Hs | | lia].
    unfold Qeq. simpl. lia.
  - rewrite Hs. unfold Qeq. simpl. lia.
Qed.

Lemma deductCsrf_half (r : Results) (s : Q) (h : Z) :
  s == h # 2 ->
  deductCsrf r s == (h - Z.min 30 (4 * csrfIssues (countsOf r))) # 2.
Proof.
  intros Hs. unfold deductCsrf, countsOf. simpl.
  destruct (csrf r) as [x|]; simpl.
  - apply (capped_half _ s _ h 15 4); [exact Hs | | lia].
    unfold Qeq. simpl. lia.
  - rewrite Hs. unfold Qeq. simpl. lia.
Qed.

Lemma deductRateLimit_half (r : Results) (s : Q) (h : Z) :
  s == h # 2 ->
  deductRateLimit r s == (h - Z.min 20 (2 * rateLimitIssues (countsOf r))) # 2.
Proof.
  intros Hs. unfold deductRateLimit, countsOf. simpl.
  destruct (rateLimit r) as [x|]; simpl.
  - apply Qminus_half; [exact Hs|]. apply (Qmin_half _ _ 20); [reflexivity|].
    apply inject_half.
  - rewrite Hs. unfold Qeq. simpl. lia.
Qed.

Lemma deductMiddlewares_half (r : Results) (s : Q) (h : Z) :
  s == h # 2 ->
  deductMiddlewares r s
  == (h - Z.min 40 (8 * missingHighPriority (countsOf r))) # 2.
Proof.
  intros Hs. unfold deductMiddlewares, countsOf. simpl.
  destruct (middlewares r) as [x|]; simpl.
  - apply Qminus_half; [exact Hs|]. apply (Qmin_half _ _ 40); [reflexivity|].
    unfold Qeq. simpl. lia.
  - rewrite Hs. unfold Qeq. simpl. lia.
Qed.

(** The score before the last statement is 100 minus the deductions. *)
Lemma scoreBeforeClamp_half (r : Results) :
  scoreBeforeClamp r == (200 - twiceDeductions (countsOf r)) # 2.
Proof.
  unfold scoreBeforeClamp. cbv zeta.
  assert (H0 : 100 == 200 # 2) by reflexivity.
  pose proof (deductDependencies_half r _ _ H0) as H1.
  pose proof (deductSecrets_half r _ _ H1) as H2.
  pose proof (deductAuth_half r _ _ H2) as H3.
  pose proof (deductInputValidation_half r _ _ H3) as H4.
  pose proof (deductSqlInjection_half r _ _ H4) as H5.
  pose proof (deductCsrf_half r _ _ H5) as H6.
  pose proof (deductCors_half r _ _ H6) as H7.
  pose proof (deductRateLimit_half r _ _ H7) as H8.
  pose proof (deductMiddlewares_half r _ _ H8) as H9.
  rewrite H9. unfold Qeq. cbn [Qnum Qden]. unfold twiceDeductions.
  lia.
Qed.

Lemma calculateSecurityScore_closed (r : Results) :
  calculateSecurityScore r
  = Z.max 0 (Z.min 100 ((200 - twiceDeductions (countsOf r) + 1) / 2)).
Proof.
  unfold calculateSecurityScore. cbv zeta.
  rewrite (Math_round_eq _ _ (scoreBeforeClamp_half r)). reflexivity.
Qed.

Lemma deductions_half (c : Counts) :
  100 - deductions c == (200 - twiceDeductions c) # 2.
Proof.
  unfold deductions, twiceDeductions.
  apply (Qminus_half _ _ 200); [reflexivity|].
  repeat apply Qplus_half;
    try (apply Qmin_half; [reflexivity|]);
    try (unfold Qeq; simpl; lia).
Qed.

Lemma compositeScore_closed (c : Counts) :
  compositeScore c
  = Z.max 0 (Z.min 100 ((200 - twiceDeductions c + 1) / 2)).
Proof.
  unfold compositeScore.
  rewrite (Math_round_eq _ (Z.max 0 (Z.min 200 (200 - twiceDeductions c)))).
  - generalize (twiceDeductions c). intros d.
    Z.div_mod_to_equations. lia.
  - apply (Qmax_half _ _ 0); [reflexivity|].
    apply (Qmin_half _ _ 200); [reflexivity|]. apply deductions_half.
Qed.

(** More issues, more deductions. *)
Lemma twiceDeductions_mono (a b : Counts) :
  counts_le a b -> (twiceDeductions a <= twiceDeductions b)%Z.
Proof. unfold counts_le, twiceDeductions. lia. Qed.

Lemma nonZero_none (l : list Z) : nonZero l = 0%nat -> Forall (fun x => x = 0%Z) l.
Proof.
  unfold nonZero. induction l as [|x l IH]; simpl; intros H; constructor.
  - destruct (Z.eqb_spec x 0); [assumption | discriminate].
  - apply IH. destruct (x =? 0)%Z; [exact H | discriminate].
Qed.

(** With one capped domain alone, twice the deductions are at most 40. *)
Lemma twiceDeductions_alone (c : Counts) :
  oneCappedDomainAlone c -> (twiceDeductions c <= 40)%Z.
Proof.
  intros [Hun Hcap]. apply nonZero_none in Hun.
  unfold uncappedCounts in Hun.
  repeat match goal with
         | H : Forall _ (_ :: _) |- _ => apply Forall_cons in H as [? H]
         end.
  unfold nonZero, cappedCounts in Hcap. cbn [List.filter] in Hcap.
  unfold twiceDeductions.
  destruct (Z.eqb_spec (authIssues c) 0),
    (Z.eqb_spec (inputValidationIssues c) 0),
    (Z.eqb_spec (injectionIssues c) 0),
    (Z.eqb_spec (csrfIssues c) 0),
    (Z.eqb_spec (rateLimitIssues c) 0),
    (Z.eqb_spec (missingHighPriority c) 0);
    cbn [List.filter negb length] in Hcap; lia.
Qed.

(** A capped block takes at most its cap. *)
Lemma capped_at_most (t : Z) (s cap d : Q) :
  0 <= cap ->
  s - cap <= (if negb (t =? 0)%Z then s - Qmin cap d else s).
Proof.
  intros Hcap. pose proof (Q.le_min_l cap d).
  destruct (negb (t =? 0)%Z); lra.
Qed.

End ScoreFacts.

(** C2. The composite score is 100 minus the deductions of the
    specification (15, 10, 5 and 2 per critical, high, moderate and low
    vulnerability; 10 and 5 per CRITICAL and HIGH secret; 2 per auth
    issue up to 20; 1.5 per input-validation issue up to 15; 3 per
    injection issue up to 20; 2 per CSRF issue up to 15; 5 per HIGH CORS
    issue; the rate-limit issue count up to 10; 4 per missing
    high-priority middleware up to 20), clamped to [0,100] and rounded
    to the nearest integer. *)
Theorem composite_score_deductions (r : ReportGenerator.Results) :
  ReportGenerator.calculateSecurityScore r
  = Spec.compositeScore (Spec.countsOf r).
Proof.
  rewrite ScoreFacts.calculateSecurityScore_closed.
  rewrite ScoreFacts.compositeScore_closed. reflexivity.
Qed.

(** C3. The composite score always lies in [0,100], and it does not
    increase when issue counts increase: if every count of the second
    result object is at least the same count of the first, as when the
    two differ only in the counts of one domain, higher in the second,
    the score of the second is at most the score of the first. *)
Theorem composite_score_bounded_and_monotone :
  (forall r, 0 <= ReportGenerator.calculateSecurityScore r <= 100) /\
  (forall r1 r2,
      Spec.counts_le (Spec.countsOf r1) (Spec.countsOf r2) ->
      ReportGenerator.calculateSecurityScore r2
      <= ReportGenerator.calculateSecurityScore r1).
Proof.
  split.
  - intros r. unfold ReportGenerator.calculateSecurityScore. lia.
  - intros r1 r2 Hle. rewrite !ScoreFacts.calculateSecurityScore_closed.
    apply ScoreFacts.twiceDeductions_mono in Hle.
    apply Z.max_le_compat_l, Z.min_le_compat_l, Z.div_le_mono; lia.
Qed.

Lemma composite_score_bounded_and_monotone_witness :
  Spec.counts_le (Spec.countsOf Examples.noFindings)
    (Spec.countsOf Examples.thirtyAuthIssues) /\
  ReportGenerator.calculateSecurityScore Examples.thirtyAuthIssues
  <= ReportGenerator.calculateSecurityScore Examples.noFindings.
Proof.
  assert (H : Spec.counts_le (Spec.countsOf Examples.noFindings)
                (Spec.countsOf Examples.thirtyAuthIssues)).
  { vm_compute. repeat split; discriminate. }
  split; [exact H |].
  exact (proj2 composite_score_bounded_and_monotone _ _ H).
Defined.

(** C4, as stated, fails: the deductions for dependency
    vulnerabilities, for secrets and for CORS have no cap.  Seven
    critical vulnerabilities alone, ten critical secrets alone, or
    twenty files with a wildcard origin alone bring the score to 0 or
    below before it is clamped. *)
Lemma uncapped_domains_zero_the_score :
  (Spec.onlyDependencies (Spec.countsOf Examples.sevenCritical) /\
   (ReportGenerator.scoreBeforeClamp Examples.sevenCritical <= 0)%Q /\
   ReportGenerator.calculateSecurityScore Examples.sevenCritical = 0) /\
  (Spec.onlySecrets (Spec.countsOf Examples.tenSecrets) /\
   (ReportGenerator.scoreBeforeClamp Examples.tenSecrets <= 0)%Q /\
   ReportGenerator.calculateSecurityScore Examples.tenSecrets = 0) /\
  (Spec.onlyCors (Spec.countsOf Examples.twentyWildcards) /\
   (ReportGenerator.scoreBeforeClamp Examples.twentyWildcards <= 0)%Q /\
   ReportGenerator.calculateSecurityScore Examples.twentyWildcards = 0).
Proof.
  repeat split; try (vm_compute; (reflexivity || discriminate)).
Qed.

(** C4, amended.  The deductions for auth, input validation,
    injection, CSRF, rate limiting and missing middleware are capped,
    at 20, 15, 20, 15, 10 and 20 points, so that when one of these
    domains alone has issues the score stays at 80 or more, before and
    after it is clamped. *)
Theorem capped_domains_cannot_zero_the_score :
  (forall r s,
      (s - 20 <= ReportGenerator.deductAuth r s)%Q /\
      (s - 15 <= ReportGenerator.deductInputValidation r s)%Q /\
      (s - 20 <= ReportGenerator.deductSqlInjection r s)%Q /\
      (s - 15 <= ReportGenerator.deductCsrf r s)%Q /\
      (s - 10 <= ReportGenerator.deductRateLimit r s)%Q /\
      (s - 20 <= ReportGenerator.deductMiddlewares r s)%Q) /\
  (forall r,
      Spec.oneCappedDomainAlone (Spec.countsOf r) ->
      (80 <= ReportGenerator.scoreBeforeClamp r)%Q /\
      80 <= ReportGenerator.calculateSecurityScore r).
Proof.
  split.
  - intros r s.
    unfold ReportGenerator.deductAuth, ReportGenerator.deductInputValidation,
      ReportGenerator.deductSqlInjection, ReportGenerator.deductCsrf,
      ReportGenerator.deductRateLimit, ReportGenerator.deductMiddlewares.
    repeat split;
      match goal with
      | |- context [match ?o with Some _ => _ | None => _ end] => destruct o
      end;
      try (apply ScoreFacts.capped_at_most; lra);
      try lra;
      match goal with
      | |- (_ <= _ - Qmin ?a ?b)%Q => pose proof (Q.le_min_l a b); lra
      end.
  - intros r Halone. apply ScoreFacts.twiceDeductions_alone in Halone.
    split.
    + rewrite ScoreFacts.scoreBeforeClamp_half. unfold Qle. simpl. lia.
    + rewrite ScoreFacts.calculateSecurityScore_closed.
      assert (80 <= (200 - Spec.twiceDeductions (Spec.countsOf r) + 1) / 2)
        by (apply Z.div_le_lower_bound; lia).
      lia.
Qed.

Lemma capped_domains_cannot_zero_the_score_witness :
  Spec.oneCappedDomainAlone (Spec.countsOf Examples.thirtyAuthIssues) /\
  (80 <= ReportGenerator.scoreBeforeClamp Examples.thirtyAuthIssues)%Q /\
  80 <= ReportGenerator.calculateSecurityScore Examples.thirtyAuthIssues.
Proof.
  assert (H : Spec.oneCappedDomainAlone
                (Spec.countsOf Examples.thirtyAuthIssues)).
  { split; vm_compute; [reflexivity | repeat constructor]. }
  split; [exact H |].
  exact (proj2 capped_domains_cannot_zero_the_score _ H).
Defined.

(** ** Domain-local scores, totals and package resolution *)

Module DomainFacts.

Lemma sumValues_sumZ (v : gmap string Z) :
  Index.sumValues v = Spec.sumZ ((map_to_list v).*2).
Proof.
  unfold Index.sumValues, Spec.sumZ. rewrite map_fold_foldr.
  induction (map_to_list v) as [|[k x] l IH]; [reflexivity|].
  rewrite fmap_cons. cbn [foldr uncurry snd]. rewrite IH. apply Z.add_comm.
Qed.

Lemma middleware_score_range (installed missing : list MiddlewareScanner.Middleware)
    (configIssues : Z) :
  0 <= MiddlewareScanner.calculateSecurityScore installed missing configIssues
    <= 100.
Proof. unfold MiddlewareScanner.calculateSecurityScore. lia. Qed.

Lemma rateLimit_score_range (detections installed configIssues unprotected : Z) :
  0 <= RateLimitScanner.rateLimitScore detections installed configIssues
         unprotected <= 100.
Proof. unfold RateLimitScanner.rateLimitScore. cbv zeta. lia. Qed.

Lemma cors_score_range (p : Project) :
  0 <= CorsScanner.securityScore (CorsScanner.scanCORS p) <= 100.
Proof.
  unfold CorsScanner.scanCORS. cbv zeta. cbn [CorsScanner.securityScore].
  repeat match goal with
         | |- context [if ?b then _ else _] => destruct b
         end; lia.
Qed.

Lemma dependency_score_range (p : Project)
    (a : DependencyScanner.AuditAnalysis)
    (o : DependencyScanner.OutdatedAnalysis)
    (au : DependencyScanner.Audit) (out : DependencyScanner.OutdatedAnalysis)
    (s : JS.Num) :
  Spec.auditCounted a ->
  DependencyScanner.scanDependencies p a o
  = Some (DependencyScanner.Report au out s) ->
  exists z, s = JS.Int z /\ 0 <= z <= 100.
Proof.
  intros Ha. unfold DependencyScanner.scanDependencies.
  destruct (packageJson p) as [pj|]; [|discriminate].
  destruct (BestPractices.checkDependencyBestPractices (entries pj));
    [|discriminate].
  destruct a as [[md|] n|e]; simpl in Ha; [|destruct Ha|].
  - intros H. injection H as _ _ <-.
    destruct Ha as [[c ->] [[h ->] [[m ->] [l ->]]]].
    destruct o as [outdated|e]; simpl; eexists; (split; [reflexivity | lia]).
  - intros H. injection H as _ _ <-.
    destruct o as [outdated|e']; simpl; eexists; (split; [reflexivity | lia]).
Qed.

End DomainFacts.

(** C9. Every domain-local score is an integer between 0 and 100: the
    middleware score for any lists of installed and missing middlewares
    and any number of configuration issues, the rate-limit score for
    any counts, the CORS score of any project, and the dependency score
    for any counts reported by the audit. *)
Theorem domain_scores_in_range :
  (forall installed missing configIssues,
      0 <= MiddlewareScanner.calculateSecurityScore installed missing
             configIssues <= 100) /\
  (forall p r,
      MiddlewareScanner.scanMiddlewares p = Some r ->
      0 <= MiddlewareScanner.securityScore r <= 100) /\
  (forall detections installed configIssues unprotected,
      0 <= RateLimitScanner.rateLimitScore detections installed configIssues
             unprotected <= 100) /\
  (forall newRegExp p r,
      RateLimitScanner.scanRateLimit newRegExp p = Some r ->
      0 <= RateLimitScanner.securityScore r <= 100) /\
  (forall p, 0 <= CorsScanner.securityScore (CorsScanner.scanCORS p) <= 100) /\
  (forall p a o au out s,
      Spec.auditCounted a ->
      DependencyScanner.scanDependencies p a o
      = Some (DependencyScanner.Report au out s) ->
      exists z, s = JS.Int z /\ 0 <= z <= 100).
Proof.
  repeat split.
  - apply DomainFacts.middleware_score_range.
  - apply DomainFacts.middleware_score_range.
  - revert H. unfold MiddlewareScanner.scanMiddlewares.
    destruct (MiddlewareScanner.resolvePackages p) as [ins mis].
    destruct (MiddlewareScanner.analyseSession p ins); [|discriminate].
    intros [= <-]. apply DomainFacts.middleware_score_range.
  - revert H. unfold MiddlewareScanner.scanMiddlewares.
    destruct (MiddlewareScanner.resolvePackages p) as [ins mis].
    destruct (MiddlewareScanner.analyseSession p ins); [|discriminate].
    intros [= <-]. apply DomainFacts.middleware_score_range.
  - apply DomainFacts.rateLimit_score_range.
  - apply DomainFacts.rateLimit_score_range.
  - revert H. unfold RateLimitScanner.scanRateLimit.
    destruct (RateLimitScanner.unprotectedEndpointsOf newRegExp p);
      [|discriminate].
    intros [= <-]. apply DomainFacts.rateLimit_score_range.
  - revert H. unfold RateLimitScanner.scanRateLimit.
    destruct (RateLimitScanner.unprotectedEndpointsOf newRegExp p);
      [|discriminate].
    intros [= <-]. apply DomainFacts.rateLimit_score_range.
  - apply DomainFacts.cors_score_range.
  - apply DomainFacts.cors_score_range.
  - eapply DomainFacts.dependency_score_range; eassumption.
Qed.

Lemma domain_scores_in_range_witness :
  0 <= MiddlewareScanner.calculateSecurityScore [] Examples.thousandMissing 0
    <= 100 /\
  (exists r, MiddlewareScanner.scanMiddlewares Examples.emptyProject = Some r /\
             0 <= MiddlewareScanner.securityScore r <= 100) /\
  (exists r, RateLimitScanner.scanRateLimit (fun _ => None)
               Examples.emptyProject = Some r /\
             0 <= RateLimitScanner.securityScore r <= 100) /\
  Spec.auditCounted Examples.heavyAudit /\
  (exists au out s,
      DependencyScanner.scanDependencies Examples.bareManifest
        Examples.heavyAudit (DependencyScanner.OutdatedSuccess [])
      = Some (DependencyScanner.Report au out s) /\
      exists z, s = JS.Int z /\ 0 <= z <= 100).
Proof.
  destruct domain_scores_in_range as [Hmw [Hmws [Hrl [Hrls [Hcors Hdep]]]]].
  split; [apply Hmw |].
  split.
  { destruct (MiddlewareScanner.scanMiddlewares Examples.emptyProject)
      as [r|] eqn:E; [|vm_compute in E; discriminate].
    exists r. split; [reflexivity | exact (Hmws _ _ E)]. }
  split.
  { destruct (RateLimitScanner.scanRateLimit (fun _ => None)
                Examples.emptyProject) as [r|] eqn:E;
      [|vm_compute in E; discriminate].
    exists r. split; [reflexivity | exact (Hrls _ _ _ E)]. }
  assert (Ha : Spec.auditCounted Examples.heavyAudit).
  { vm_compute. repeat split; eexists; reflexivity. }
  split; [exact Ha |].
  destruct (DependencyScanner.scanDependencies Examples.bareManifest
              Examples.heavyAudit (DependencyScanner.OutdatedSuccess []))
    as [[e|au out s]|] eqn:E;
    [vm_compute in E; discriminate | | vm_compute in E; discriminate].
  exists au, out, s. split; [reflexivity | exact (Hdep _ _ _ _ _ _ Ha E)].
Defined.

(** C10. The total of the final result object is the sum of the
    vulnerability counts of the dependency audit, the number of secrets,
    the count of missing high-priority middlewares and the totals of the
    sqlInjection, auth, inputValidation, csrf and cookies domains; the
    cors and rateLimit results play no part in it. *)
Theorem total_issues_sum
    (dependencies : DependencyScanner.Result)
    (secrets : SecretScanner.Result)
    (middlewares : MiddlewareScanner.Result)
    (cors cors' : CorsScanner.Result)
    (rateLimit rateLimit' : RateLimitScanner.Result)
    (sqlInjection : SqlInjectionScanner.Result)
    (auth : AuthScanner.Result)
    (inputValidation : InputValidationScanner.Result)
    (csrf : CsrfScanner.Result)
    (cookies : CookieScanner.Result)
    (time : string) :
  let results :=
    Index.results dependencies secrets middlewares cors rateLimit sqlInjection
      auth inputValidation csrf cookies time in
  let results' :=
    Index.results dependencies secrets middlewares cors' rateLimit'
      sqlInjection auth inputValidation csrf cookies time in
  ReportGenerator.totalIssues (ReportGenerator.stats results)
  = Spec.sumZ (Spec.auditCounts dependencies)
    + Z.of_nat (length (SecretScanner.secrets secrets))
    + MiddlewareScanner.missing_count middlewares
    + SqlInjectionScanner.total sqlInjection
    + AuthScanner.total auth
    + InputValidationScanner.total inputValidation
    + CsrfScanner.total csrf
    + CookieScanner.total cookies
  /\ ReportGenerator.totalIssues (ReportGenerator.stats results')
     = ReportGenerator.totalIssues (ReportGenerator.stats results).
Proof.
  cbv zeta. split; [|reflexivity].
  unfold Index.results, Index.vulnCount, Spec.auditCounts.
  cbn [ReportGenerator.stats ReportGenerator.totalIssues].
  destruct dependencies as [e|[v d|e] o s].
  - reflexivity.
  - rewrite DomainFacts.sumValues_sumZ. reflexivity.
  - rewrite DomainFacts.sumValues_sumZ, map_to_list_empty. reflexivity.
Qed.

(** C7, as stated, fails on a project without a manifest: nothing is
    reported missing by the middleware and the authentication scanners,
    and the dependency scanner returns an error object. *)
Lemma no_manifest_counterexample :
  packageJson Examples.emptyProject = None /\
  (MiddlewareScanner.resolvePackages Examples.emptyProject).2
    <> MiddlewareScanner.securityMiddlewares /\
  (AuthScanner.resolvePackages Examples.emptyProject).2
    <> AuthScanner.recommendedPackages /\
  DependencyScanner.scanDependencies Examples.emptyProject
    Examples.heavyAudit (DependencyScanner.OutdatedSuccess [])
  = Some (DependencyScanner.Error "package.json non trouvé ou invalide").
Proof. repeat split; vm_compute; discriminate. Qed.

(** C7, amended.  For a project without a manifest the package
    resolution of the middleware and of the authentication scanner
    yields no installed and no missing package, and both scanners
    return their result; the dependency scanner returns the error
    object that says the manifest was not found. *)
Theorem no_manifest_resolution (p : Project) :
  packageJson p = None ->
  MiddlewareScanner.resolvePackages p = ([], []) /\
  (exists r, MiddlewareScanner.scanMiddlewares p = Some r /\
             MiddlewareScanner.installed_packages r = [] /\
             MiddlewareScanner.missing_packages r = [] /\
             MiddlewareScanner.recommended_packages r = []) /\
  AuthScanner.packages_installed (AuthScanner.scanAuthentication p) = [] /\
  AuthScanner.packages_recommended (AuthScanner.scanAuthentication p) = [] /\
  (forall a o,
      DependencyScanner.scanDependencies p a o
      = Some (DependencyScanner.Error "package.json non trouvé ou invalide")).
Proof.
  intros Hp.
  assert (Hmw : MiddlewareScanner.resolvePackages p = ([], []))
    by (unfold MiddlewareScanner.resolvePackages; now rewrite Hp).
  assert (Hau : AuthScanner.resolvePackages p = ([], []))
    by (unfold AuthScanner.resolvePackages; now rewrite Hp).
  repeat split.
  - exact Hmw.
  - unfold MiddlewareScanner.scanMiddlewares. rewrite Hmw.
    eexists. split; [reflexivity|]. repeat split.
  - unfold AuthScanner.scanAuthentication. now rewrite Hau.
  - unfold AuthScanner.scanAuthentication. now rewrite Hau.
  - intros a o. unfold DependencyScanner.scanDependencies. now rewrite Hp.
Qed.

Lemma no_manifest_resolution_witness :
  packageJson Examples.emptyProject = None /\
  MiddlewareScanner.resolvePackages Examples.emptyProject = ([], []) /\
  AuthScanner.packages_recommended
    (AuthScanner.scanAuthentication Examples.emptyProject) = [] /\
  DependencyScanner.scanDependencies Examples.emptyProject
    Examples.heavyAudit (DependencyScanner.OutdatedSuccess [])
  = Some (DependencyScanner.Error "package.json non trouvé ou invalide").
Proof.
  assert (H : packageJson Examples.emptyProject = None) by reflexivity.
  destruct (no_manifest_resolution Examples.emptyProject H)
    as [Hmw [_ [_ [Hau Hdep]]]].
  split; [exact H |]. split; [exact Hmw |]. split; [exact Hau |].
  apply Hdep.
Defined.

(** ** The scanners' loops *)

Module ScannerFacts.
Import Spec.

Lemma foldl_push {A B} (h : A -> B) (l : list A) (acc : list B) :
  foldl (fun out y => out ++ [h y]) acc l = acc ++ List.map h l.
Proof.
  revert acc. induction l as [|y l IH]; intros acc; simpl.
  - now rewrite app_nil_r.
  - rewrite IH, <- app_assoc. reflexivity.
Qed.

Lemma pushAll_flat {A B C} (xs : list A) (f : A -> list B) (g : A -> B -> C) :
  pushAll xs f g = flat_map (fun x => List.map (g x) (f x)) xs.
Proof.
  unfold pushAll.
  enough (H : forall acc,
             foldl (fun out x => foldl (fun out y => out ++ [g x y]) out (f x))
               acc xs
             = acc ++ flat_map (fun x => List.map (g x) (f x)) xs)
    by apply (H []).
  induction xs as [|x xs IH]; intros acc; simpl.
  - now rewrite app_nil_r.
  - rewrite IH, foldl_push, <- app_assoc. reflexivity.
Qed.

Lemma collectIssues_flat (p : Project) (rules : list Rule) :
  collectIssues p rules
  = flat_map (fun r => List.map (mkIssue r)
                         (findFilesWithPattern p filePattern
                            (PRegExp (pattern r)))) rules.
Proof. apply pushAll_flat. Qed.

(** A file the pattern does not match contributes nothing. *)
Lemma step_no_match (re : RegExp.t) (f : SourceFile) :
  RegExp.test re (content f) = false ->
  findFilesWithPattern_step (PRegExp re) [] f = [].
Proof.
  unfold RegExp.test, findFilesWithPattern_step.
  destruct (RegExp.exec re (content f)); [discriminate | reflexivity].
Qed.

Lemma flat_no_match (re : RegExp.t) (files : list SourceFile) :
  (forall g, g ∈ files -> RegExp.test re (content g) = false) ->
  flat_map (findFilesWithPattern_step (PRegExp re) []) files = [].
Proof.
  induction files as [|f files IH]; intros H; cbn [flat_map]; [reflexivity|].
  rewrite step_no_match, IH; [reflexivity | |].
  - intros g Hg. apply H. now right.
  - apply H. now left.
Qed.

Lemma no_match_anywhere (p : Project) (re : RegExp.t) :
  (forall g, g ∈ findFiles p filePattern ->
             RegExp.test re (content g) = false) ->
  findFilesWithPattern p filePattern (PRegExp re) = [].
Proof.
  intros H. rewrite MatcherFacts.findFilesWithPattern_flat.
  now apply flat_no_match.
Qed.

(** The loops of the rate-limit scanner over the configuration rules. *)
Lemma configurationIssues_step_app (rule : Rule) (acc : list Issue)
    (m : Match) :
  RateLimitScanner.configurationIssues_step rule acc m
  = acc ++ RateLimitScanner.configurationIssues_step rule [] m.
Proof.
  unfold RateLimitScanner.configurationIssues_step.
  destruct (RateLimitScanner.extractValue rule m);
    [now rewrite app_nil_r | reflexivity].
Qed.

Lemma configurationIssues_inner (rule : Rule) (ms : list Match)
    (acc : list Issue) :
  foldl (RateLimitScanner.configurationIssues_step rule) acc ms
  = acc ++ flat_map (RateLimitScanner.configurationIssues_step rule []) ms.
Proof.
  revert acc. induction ms as [|m ms IH]; intros acc; cbn [foldl flat_map].
  - now rewrite app_nil_r.
  - rewrite IH, configurationIssues_step_app, <- app_assoc. reflexivity.
Qed.

Lemma configurationIssuesOf_flat (p : Project) (rules : list Rule) :
  RateLimitScanner.configurationIssuesOf p rules
  = flat_map
      (fun rule =>
         flat_map (RateLimitScanner.configurationIssues_step rule [])
           (findFilesWithPattern p filePattern (PRegExp (pattern rule))))
      rules.
Proof.
  unfold RateLimitScanner.configurationIssuesOf.
  enough (H : forall acc,
             foldl (fun configurationIssues rule =>
                      let results :=
                        findFilesWithPattern p filePattern
                          (PRegExp (pattern rule)) in
                      foldl (RateLimitScanner.configurationIssues_step rule)
                        configurationIssues results) acc rules
             = acc ++ flat_map
                 (fun rule =>
                    flat_map (RateLimitScanner.configurationIssues_step rule [])
                      (findFilesWithPattern p filePattern
                         (PRegExp (pattern rule)))) rules)
    by apply (H []).
  induction rules as [|rule rules IH]; intros acc; cbn [foldl flat_map].
  - now rewrite app_nil_r.
  - cbv zeta. rewrite IH, configurationIssues_inner, <- app_assoc. reflexivity.
Qed.

(** An issue is in the list exactly when some rule and some Match of
    that rule reach the push. *)
Lemma configurationIssuesOf_elem (p : Project) (rules : list Rule) (i : Issue) :
  i ∈ RateLimitScanner.configurationIssuesOf p rules <->
  exists rule m value,
    rule ∈ rules /\
    m ∈ findFilesWithPattern p filePattern (PRegExp (pattern rule)) /\
    RateLimitScanner.extractValue rule m = inr value /\
    i = {| i_file := file m; i_line := line m; i_name := name rule;
           i_severity := severity rule; i_solution := solution rule;
           i_context := context m; i_value := value |}.
Proof.
  rewrite configurationIssuesOf_flat, list_elem_of_In, in_flat_map. split.
  - intros [rule [Hrule Hi]]. apply in_flat_map in Hi as [m [Hm Hi]].
    unfold RateLimitScanner.configurationIssues_step in Hi.
    destruct (RateLimitScanner.extractValue rule m) as [u|value] eqn:E;
      [inversion Hi|].
    destruct Hi as [<-|[]]. exists rule, m, value.
    rewrite !list_elem_of_In. auto.
  - intros [rule [m [value [Hrule [Hm [E ->]]]]]].
    exists rule. rewrite <- list_elem_of_In. split; [exact Hrule|].
    apply in_flat_map. exists m. rewrite <- list_elem_of_In.
    split; [exact Hm|].
    unfold RateLimitScanner.configurationIssues_step. rewrite E. now left.
Qed.

(** What the filter does with a captured value. *)
Lemma extractValue_lowMax (m : Match) (v : Z) :
  captured RateLimitScanner.lowMax m v ->
  RateLimitScanner.extractValue RateLimitScanner.lowMax m
  = if v <=? 100 then inl tt else inr (Some (JS.Int v)).
Proof.
  intros [ctx [arr [digits [Hctx [Hexec [Hcap Hint]]]]]].
  unfold RateLimitScanner.extractValue.
  change (threshold RateLimitScanner.lowMax) with (Some 100).
  change (name RateLimitScanner.lowMax) with "Limite de taux faible".
  rewrite Hctx.
  destruct ctx as [|c ctx]; [vm_compute in Hexec; discriminate|].
  cbn [length Nat.eqb negb andb Z.eqb].
  rewrite Hexec, Hcap.
  destruct digits as [|d digits]; [vm_compute in Hint; discriminate|].
  cbn [length Nat.eqb negb]. cbv zeta. rewrite Hint.
  cbn [JS.le String.eqb Ascii.eqb Bool.eqb andb]. reflexivity.
Qed.

Lemma extractValue_shortWindow (m : Match) (v : Z) :
  captured RateLimitScanner.shortWindow m v ->
  RateLimitScanner.extractValue RateLimitScanner.shortWindow m
  = if 60000 <=? v then inl tt else inr (Some (JS.Int v)).
Proof.
  intros [ctx [arr [digits [Hctx [Hexec [Hcap Hint]]]]]].
  unfold RateLimitScanner.extractValue.
  change (threshold RateLimitScanner.shortWindow) with (Some 60000).
  change (name RateLimitScanner.shortWindow)
    with "Fenêtre de temps de limite courte".
  rewrite Hctx.
  destruct ctx as [|c ctx]; [vm_compute in Hexec; discriminate|].
  cbn [length Nat.eqb negb andb Z.eqb].
  rewrite Hexec, Hcap.
  destruct digits as [|d digits]; [vm_compute in Hint; discriminate|].
  cbn [length Nat.eqb negb]. cbv zeta. rewrite Hint.
  cbn [JS.ge String.eqb Ascii.eqb Bool.eqb andb]. reflexivity.
Qed.

(** The names of the three configuration rules are distinct. *)
Lemma rule_of_name (rule : Rule) :
  rule ∈ RateLimitScanner.rateLimitConfigPatterns ->
  (name rule = name RateLimitScanner.lowMax -> rule = RateLimitScanner.lowMax) /\
  (name rule = name RateLimitScanner.shortWindow ->
   rule = RateLimitScanner.shortWindow).
Proof.
  unfold RateLimitScanner.rateLimitConfigPatterns.
  rewrite !elem_of_cons, elem_of_nil.
  intros [->|[->|[->|[]]]]; split; intros H; try reflexivity;
    vm_compute in H; discriminate.
Qed.

Lemma captured_context (rule : Rule) (m m' : Match) (v : Z) :
  context m' = context m -> captured rule m v -> captured rule m' v.
Proof.
  intros Hc [ctx [arr [digits [Hctx H]]]]. exists ctx, arr, digits.
  split; [congruence | exact H].
Qed.

(** A Match without context, as when the matched text runs over
    several lines, captures nothing and reaches the push with a null
    value. *)
Lemma extractValue_null_context (rule : Rule) (m : Match) :
  context m = None -> RateLimitScanner.extractValue rule m = inr None.
Proof.
  intros H. unfold RateLimitScanner.extractValue. rewrite H.
  destruct (threshold rule); reflexivity.
Qed.

(** The configuration problems of the result are the issues of the
    loop over the configuration rules. *)
Lemma scan_configurationProblems (newRegExp : list N -> option RegExp.t)
    (p : Project) (r : RateLimitScanner.Result) :
  RateLimitScanner.scanRateLimit newRegExp p = Some r ->
  RateLimitScanner.issues_configurationProblems r
  = RateLimitScanner.configurationIssuesOf p
      RateLimitScanner.rateLimitConfigPatterns.
Proof.
  unfold RateLimitScanner.scanRateLimit.
  destruct (RateLimitScanner.unprotectedEndpointsOf newRegExp p);
    [|discriminate].
  intros [= <-]. reflexivity.
Qed.

(** The filter on the issues of the loop. *)
Lemma threshold_filter (p : Project) (m : Match) (v : Z) :
  let issues :=
    RateLimitScanner.configurationIssuesOf p
      RateLimitScanner.rateLimitConfigPatterns in
  (m ∈ findFilesWithPattern p filePattern
         (PRegExp (pattern RateLimitScanner.lowMax)) ->
   captured RateLimitScanner.lowMax m v ->
   (reported issues RateLimitScanner.lowMax m <-> 100 < v)) /\
  (m ∈ findFilesWithPattern p filePattern
         (PRegExp (pattern RateLimitScanner.shortWindow)) ->
   captured RateLimitScanner.shortWindow m v ->
   (reported issues RateLimitScanner.shortWindow m <-> v < 60000)).
Proof.
  cbv zeta. split; intros Hm Hcap; split.
  - intros [i [Hi [Hname [_ [_ Hctx]]]]].
    apply configurationIssuesOf_elem in Hi
      as [rule [m' [value [Hrule [_ [Hex ->]]]]]].
    simpl in Hname, Hctx.
    apply (rule_of_name rule Hrule) in Hname as ->.
    apply (captured_context _ m m' v Hctx) in Hcap.
    rewrite (extractValue_lowMax m' v Hcap) in Hex.
    destruct (Z.leb_spec v 100); [discriminate | lia].
  - intros Hv. eexists. split.
    + apply configurationIssuesOf_elem.
      exists RateLimitScanner.lowMax, m, (Some (JS.Int v)).
      split; [left|]. split; [exact Hm|]. split; [|reflexivity].
      rewrite (extractValue_lowMax m v Hcap).
      destruct (Z.leb_spec v 100); [lia | reflexivity].
    + repeat split.
  - intros [i [Hi [Hname [_ [_ Hctx]]]]].
    apply configurationIssuesOf_elem in Hi
      as [rule [m' [value [Hrule [_ [Hex ->]]]]]].
    simpl in Hname, Hctx.
    apply (rule_of_name rule Hrule) in Hname as ->.
    apply (captured_context _ m m' v Hctx) in Hcap.
    rewrite (extractValue_shortWindow m' v Hcap) in Hex.
    destruct (Z.leb_spec 60000 v); [discriminate | lia].
  - intros Hv. eexists. split.
    + apply configurationIssuesOf_elem.
      exists RateLimitScanner.shortWindow, m, (Some (JS.Int v)).
      split; [right; left|]. split; [exact Hm|]. split; [|reflexivity].
      rewrite (extractValue_shortWindow m v Hcap).
      destruct (Z.leb_spec 60000 v); [lia | reflexivity].
    + repeat split.
Qed.

End ScannerFacts.




(** ** The matcher of regular expressions *)

Module EngineFacts.
Import RegExp.

(** Matching one character either fails or moves on and calls the
    continuation. *)
Lemma charMatcher_cont (ic : bool) (input : list N) (p : N -> bool)
    (invert : bool) (x : State) (k : Continuation) :
  charMatcher ic input p invert x k
  = match charMatcher ic input p invert x Some with
    | Some y => k y
    | None => None
    end.
Proof.
  unfold charMatcher. destruct (input !! x.1) as [c|]; [|reflexivity].
  destruct (xorb (setHas ic p c) invert); reflexivity.
Qed.

(** So does matching a literal. *)
Lemma literal_cont (ic : bool) (input : list N) (cs : list N) (x : State)
    (k : Continuation) :
  let l := foldr (fun c r => RSeq (RChar c) r) REmpty cs in
  compile ic input l x k
  = match compile ic input l x Some with
    | Some y => k y
    | None => None
    end.
Proof.
  cbv zeta. revert x k. induction cs as [|c cs IH]; intros x k.
  - reflexivity.
  - cbn [foldr compile].
    rewrite charMatcher_cont.
    rewrite (charMatcher_cont _ _ _ _ _ (fun y => compile ic input _ y Some)).
    destruct (charMatcher ic input (fun a => (a =? c)%N) false x Some) as [y|];
      [|reflexivity].
    apply IH.
Qed.

(** Every matcher is local, and so the fuel of a quantifier is enough:
    more fuel gives the same result. *)
Lemma charMatcher_local (ic : bool) (input : list N) (p : N -> bool)
    (invert : bool) :
  Spec.local input (charMatcher ic input p invert).
Proof.
  intros x k k' Hx Hk. unfold charMatcher.
  destruct (input !! x.1) as [c|] eqn:E; [|reflexivity].
  apply lookup_lt_Some in E.
  destruct (xorb (setHas ic p c) invert); [|reflexivity].
  apply Hk. simpl. lia.
Qed.

Lemma repeatMatcher_local (input : list N) (m : Matcher) (gs : list nat)
    (fuel min : nat) (max : option nat) (greedy : bool) :
  Spec.local input m ->
  Spec.local input (repeatMatcher m gs fuel min max greedy).
Proof.
  intros Hm. revert min max.
  induction fuel as [|fuel IH]; intros min max x k k' Hx Hk;
    cbn [repeatMatcher]; [reflexivity|].
  assert (Hkx : k x = k' x) by (apply Hk; lia).
  assert (Hd : forall y : State,
             (x.1 <= y.1 <= length input)%nat ->
             (if Nat.eqb min 0 && Nat.eqb y.1 x.1 then None
              else repeatMatcher m gs fuel (Nat.pred min) (Nat.pred <$> max)
                     greedy y k)
             = (if Nat.eqb min 0 && Nat.eqb y.1 x.1 then None
                else repeatMatcher m gs fuel (Nat.pred min) (Nat.pred <$> max)
                       greedy y k')).
  { intros y Hy. destruct (Nat.eqb min 0 && Nat.eqb y.1 x.1); [reflexivity|].
    apply IH; [lia|]. intros z Hz. apply Hk. lia. }
  pose proof (Hm (x.1, clearCaptures gs x.2) _ _ Hx Hd) as Hmd.
  destruct max as [[|n]|]; [exact Hkx | |];
    (destruct (negb (Nat.eqb min 0)); [exact Hmd|]);
    (destruct (negb greedy); rewrite Hkx, Hmd; reflexivity).
Qed.

Lemma compile_local (ic : bool) (input : list N) (r : Regex) :
  Spec.local input (compile ic input r).
Proof.
  induction r as [|c| |inv atoms|r1 IH1 r2 IH2|r1 IH1 r2 IH2
                  |r IH min max greedy|i r IH|neg r IH|];
    cbn [compile]; try apply charMatcher_local.
  - intros x k k' Hx Hk. apply Hk. lia.
  - intros x k k' Hx Hk. apply IH1; [exact Hx|].
    intros y Hy. apply IH2; [lia|]. intros z Hz. apply Hk. lia.
  - intros x k k' Hx Hk.
    rewrite (IH1 x k k' Hx Hk), (IH2 x k k' Hx Hk). reflexivity.
  - intros x k k' Hx Hk.
    exact (repeatMatcher_local input _ _ _ _ _ _ IH x k k' Hx Hk).
  - intros x k k' Hx Hk. apply IH; [exact Hx|].
    intros y Hy. apply Hk. exact Hy.
  - intros x k k' Hx Hk.
    assert (Hkx : k x = k' x) by (apply Hk; lia).
    destruct (compile ic input r x Some) as [y|]; destruct neg;
      try reflexivity; try exact Hkx.
    apply Hk. simpl. lia.
  - intros x k k' Hx Hk. rewrite (Hk x) by lia. reflexivity.
Qed.

Lemma repeatMatcher_fuel (input : list N) (m : Matcher) (gs : list nat)
    (fuel1 fuel2 min : nat) (max : option nat) (greedy : bool)
    (x : State) (k : Continuation) :
  Spec.local input m ->
  (x.1 <= length input)%nat ->
  (min + (length input - x.1) < fuel1)%nat ->
  (min + (length input - x.1) < fuel2)%nat ->
  repeatMatcher m gs fuel1 min max greedy x k
  = repeatMatcher m gs fuel2 min max greedy x k.
Proof.
  intros Hm. revert fuel2 min max x k.
  induction fuel1 as [|fuel1 IH]; intros fuel2 min max x k Hx H1 H2; [lia|].
  destruct fuel2 as [|fuel2]; [lia|]. cbn [repeatMatcher].
  assert (Hd : forall y : State,
             (x.1 <= y.1 <= length input)%nat ->
             (if Nat.eqb min 0 && Nat.eqb y.1 x.1 then None
              else repeatMatcher m gs fuel1 (Nat.pred min) (Nat.pred <$> max)
                     greedy y k)
             = (if Nat.eqb min 0 && Nat.eqb y.1 x.1 then None
                else repeatMatcher m gs fuel2 (Nat.pred min) (Nat.pred <$> max)
                       greedy y k)).
  { intros y Hy.
    destruct (Nat.eqb_spec min 0) as [->|Hmin];
      [destruct (Nat.eqb_spec y.1 x.1) as [He|Hne]|]; cbn [andb];
      try reflexivity; apply IH; simpl; lia. }
  pose proof (Hm (x.1, clearCaptures gs x.2) _ _ Hx Hd) as Hmd.
  destruct max as [[|n]|]; [reflexivity | |];
    (destruct (negb (Nat.eqb min 0)); [exact Hmd|]);
    (destruct (negb greedy); rewrite Hmd; reflexivity).
Qed.

(** The fuel [compile] gives a quantifier can be replaced by any larger
    amount. *)
Lemma quantifier_fuel (ic : bool) (input : list N) (r : Regex)
    (min : nat) (max : option nat) (greedy : bool) (fuel : nat)
    (x : State) (k : Continuation) :
  (x.1 <= length input)%nat ->
  (min + (length input - x.1) < fuel)%nat ->
  compile ic input (RQuant r min max greedy) x k
  = repeatMatcher (compile ic input r) (groupsOf r) fuel min max greedy x k.
Proof.
  intros Hx Hfuel. cbn [compile].
  apply (repeatMatcher_fuel input); [apply compile_local | exact Hx | lia | lia].
Qed.

(** The search returns the first start index at which the pattern
    matches, and finds one whenever there is one. *)
Lemma search_found (re : t) (input : list N) (fuel i j : nat) :
  (i <= j < i + fuel)%nat -> matchAt re input j <> None ->
  search re input fuel i <> None.
Proof.
  revert i. induction fuel as [|fuel IH]; intros i Hj Hm; [lia|].
  cbn [search]. destruct (matchAt re input i) as [y|] eqn:E; [discriminate|].
  apply IH; [|exact Hm].
  destruct (Nat.eq_dec i j) as [->|Hne]; [congruence | lia].
Qed.

Lemma search_sound (re : t) (input : list N) (fuel i : nat) (a : MatchArray) :
  search re input fuel i = Some a ->
  (i <= index a < i + fuel)%nat /\ matchAt re input (index a) <> None /\
  forall j, (i <= j < index a)%nat -> matchAt re input j = None.
Proof.
  revert i. induction fuel as [|fuel IH]; intros i; cbn [search];
    [discriminate|].
  destruct (matchAt re input i) as [y|] eqn:E.
  - intros [= <-]. cbn [index]. rewrite E.
    repeat split; [lia | lia | discriminate | intros j Hj; lia].
  - intros H. destruct (IH _ H) as [Hr [Hm Hfirst]].
    repeat split; [lia | lia | exact Hm |].
    intros j Hj. destruct (Nat.eq_dec j i) as [->|Hne]; [exact E|].
    apply Hfirst. lia.
Qed.

(** A pattern that matches wherever another one does is found in every
    text the other one is found in. *)
Lemma test_weaken (re1 re2 : t) (input : list N) :
  (forall j, matchAt re1 input j <> None -> matchAt re2 input j <> None) ->
  test re1 input = true -> test re2 input = true.
Proof.
  intros H. unfold test, exec.
  destruct (search re1 input (S (length input)) 0) as [a|] eqn:E1;
    [|discriminate].
  intros _. destruct (search_sound _ _ _ _ _ E1) as [Hr [Hm _]].
  pose proof (search_found re2 input (S (length input)) 0 (index a) Hr
                (H _ Hm)) as Hf.
  destruct (search re2 input (S (length input)) 0); [reflexivity | congruence].
Qed.

(** A text in which the wildcard rule is found holds a call of cors. *)
Lemma wildcard_is_a_call (input : list N) :
  test (pattern CorsScanner.wildcardOrigin) input = true ->
  test CorsScanner.corsCall input = true.
Proof.
  apply test_weaken. intros j. unfold matchAt.
  change (ignoreCase (pattern CorsScanner.wildcardOrigin)) with true.
  change (ignoreCase CorsScanner.corsCall) with true.
  change (nGroups (source (pattern CorsScanner.wildcardOrigin))) with 0%nat.
  change (nGroups (source CorsScanner.corsCall)) with 0%nat.
  change (source CorsScanner.corsCall) with (lit "cors(").
  assert (HR : exists R, source (pattern CorsScanner.wildcardOrigin)
                         = RSeq (lit "cors(") R) by (eexists; reflexivity).
  destruct HR as [R ->]. cbn [compile]. unfold lit.
  rewrite literal_cont.
  destruct (compile true input _ (j, replicate 0 None) Some);
    [discriminate | congruence].
Qed.

End EngineFacts.

(** ** The CORS scanner on a wildcard origin *)

Module CorsFacts.

(** A file the pattern matches yields a Match. *)
Lemma match_somewhere (p : Project) (re : RegExp.t) (f : SourceFile) :
  f ∈ findFiles p filePattern -> RegExp.test re (content f) = true ->
  findFilesWithPattern p filePattern (PRegExp re) <> [].
Proof.
  intros Hf Ht. rewrite MatcherFacts.findFilesWithPattern_flat.
  apply list_elem_of_In, in_split in Hf as [l1 [l2 ->]].
  rewrite flat_map_app. cbn [flat_map].
  pose proof (MatcherFacts.step_regexp_length re f) as Hlen. rewrite Ht in Hlen.
  destruct (findFilesWithPattern_step (PRegExp re) [] f) as [|m ms];
    [discriminate|].
  intros H. apply app_eq_nil in H as [_ H]. discriminate.
Qed.

(** When a single file matches, the matcher returns the Match of that
    file and nothing else. *)
Lemma single_match (p : Project) (re : RegExp.t) (l1 l2 : list SourceFile)
    (f : SourceFile) :
  findFiles p filePattern = l1 ++ f :: l2 ->
  RegExp.test re (content f) = true ->
  (forall g, g ∈ l1 ++ l2 -> RegExp.test re (content g) = false) ->
  exists m, findFilesWithPattern p filePattern (PRegExp re) = [m] /\
            file m = relativePath f.
Proof.
  intros Hfiles Ht Hothers.
  rewrite MatcherFacts.findFilesWithPattern_flat, Hfiles, flat_map_app.
  cbn [flat_map].
  rewrite !ScannerFacts.flat_no_match
    by (intros g Hg; apply Hothers, elem_of_app; auto).
  rewrite app_nil_r. cbn [app].
  pose proof (MatcherFacts.step_regexp_length re f) as Hlen. rewrite Ht in Hlen.
  pose proof (MatcherFacts.step_regexp_file re f) as Hfile.
  destruct (findFilesWithPattern_step (PRegExp re) [] f) as [|m [|m' ms]];
    try discriminate.
  exists m. split; [reflexivity|]. apply Hfile. left.
Qed.

End CorsFacts.

(** C6, as stated, fails: on the scenario of the specification the CORS
    scanner detects CORS and reports the single HIGH issue of the
    wildcard origin, but the score is 60 and not 50, since a project
    without MEDIUM issue earns 10 points. *)
Lemma wildcard_scenario_does_not_score_50 :
  let r := CorsScanner.scanCORS Examples.wildcardScenario in
  CorsScanner.installed r = None /\
  CorsScanner.detected r = true /\
  (exists i, CorsScanner.issues r = [i] /\ i_severity i = HIGH /\
             i_name i = "CORS permissif avec wildcard") /\
  CorsScanner.securityScore r = 60 /\
  CorsScanner.securityScore r <> 50.
Proof.
  cbv zeta.
  split; [vm_compute; reflexivity|]. split; [vm_compute; reflexivity|].
  split.
  - exists (mkIssue CorsScanner.wildcardOrigin
              {| file := "server.js"; line := Some 1;
                 context := Some (JS.str "app.use(cors({origin: '*'}))") |}).
    split; [vm_compute; reflexivity|]. split; reflexivity.
  - split; vm_compute; [reflexivity | discriminate].
Qed.

(** C6, amended.  When exactly one file of the corpus holds a call of
    cors with a wildcard origin and no file holds another of the CORS
    issue patterns, the CORS scanner returns detected: true, exactly
    one issue, of HIGH severity and named for the permissive wildcard
    origin, and a score of exactly 60. *)
Theorem wildcard_origin_scores_60
    (p : Project) (l1 l2 : list SourceFile) (f : SourceFile) :
  findFiles p filePattern = l1 ++ f :: l2 ->
  RegExp.test (pattern CorsScanner.wildcardOrigin) (content f) = true ->
  (forall g, g ∈ l1 ++ l2 ->
     RegExp.test (pattern CorsScanner.wildcardOrigin) (content g) = false) ->
  (forall g rule,
     g ∈ findFiles p filePattern ->
     rule ∈ [CorsScanner.withCredentials; CorsScanner.permissiveMethods;
             CorsScanner.permissiveHeaders] ->
     RegExp.test (pattern rule) (content g) = false) ->
  let r := CorsScanner.scanCORS p in
  CorsScanner.detected r = true /\
  (exists i, CorsScanner.issues r = [i] /\ i_severity i = HIGH /\
             i_name i = "CORS permissif avec wildcard" /\
             i_file i = relativePath f) /\
  CorsScanner.securityScore r = 60.
Proof.
  intros Hfiles Hwild Hothers Hrules.
  destruct (CorsFacts.single_match p _ l1 l2 f Hfiles Hwild Hothers)
    as [m [Hm Hfile]].
  assert (Hissues : collectIssues p CorsScanner.corsPatterns
                    = [mkIssue CorsScanner.wildcardOrigin m]).
  { rewrite ScannerFacts.collectIssues_flat.
    unfold CorsScanner.corsPatterns. cbn [flat_map].
    rewrite Hm.
    rewrite !ScannerFacts.no_match_anywhere
      by (intros g Hg; apply Hrules; [exact Hg | set_solver]).
    reflexivity. }
  assert (Hf : f ∈ findFiles p filePattern)
    by (rewrite Hfiles; set_solver).
  pose proof (CorsFacts.match_somewhere p CorsScanner.corsCall f Hf
                (EngineFacts.wildcard_is_a_call _ Hwild)) as Husage.
  cbv zeta. unfold CorsScanner.scanCORS. cbv zeta.
  cbn [CorsScanner.detected CorsScanner.issues CorsScanner.securityScore].
  rewrite Hissues.
  destruct (findFilesWithPattern p filePattern (PRegExp CorsScanner.corsCall))
    as [|u us]; [contradiction|].
  repeat split.
  exists (mkIssue CorsScanner.wildcardOrigin m).
  repeat split. exact Hfile.
Qed.

Lemma wildcard_origin_scores_60_witness :
  let p := Examples.wildcardScenario in
  let f := Examples.sourceFile "server.js" "app.use(cors({origin: '*'}))" in
  findFiles p filePattern = [] ++ f :: [] /\
  RegExp.test (pattern CorsScanner.wildcardOrigin) (content f) = true /\
  CorsScanner.detected (CorsScanner.scanCORS p) = true /\
  (exists i, CorsScanner.issues (CorsScanner.scanCORS p) = [i] /\
             i_severity i = HIGH /\
             i_name i = "CORS permissif avec wildcard" /\
             i_file i = relativePath f) /\
  CorsScanner.securityScore (CorsScanner.scanCORS p) = 60.
Proof.
  intros p f.
  assert (Hfiles : findFiles p filePattern = [] ++ f :: []) by reflexivity.
  assert (Hwild : RegExp.test (pattern CorsScanner.wildcardOrigin) (content f)
                  = true) by (vm_compute; reflexivity).
  split; [exact Hfiles |]. split; [exact Hwild |].
  apply (wildcard_origin_scores_60 p [] [] f Hfiles Hwild).
  - intros g Hg. inversion Hg.
  - intros g rule Hg Hrule.
    apply list_elem_of_singleton in Hg as ->.
    repeat (apply elem_of_cons in Hrule as [->|Hrule];
            [vm_compute; reflexivity|]).
    inversion Hrule.
Defined.

(** * Further properties *)

(** ** The matcher of regular expressions, continued *)

Module EngineMore.
Import RegExp.

Lemma charMatcher_guided (ic : bool) (input : list N) (p : N -> bool)
    (invert : bool) :
  Props.guided input (charMatcher ic input p invert).
Proof.
  intros x z k Hx. unfold charMatcher.
  destruct (input !! x.1) as [c|] eqn:E; [|discriminate].
  apply lookup_lt_Some in E.
  destruct (xorb (setHas ic p c) invert); [|discriminate].
  intros H. eexists. split; [|exact H]. simpl. lia.
Qed.

Lemma repeatMatcher_guided (input : list N) (m : Matcher) (gs : list nat)
    (fuel min : nat) (max : option nat) (greedy : bool) :
  Props.guided input m ->
  Props.guided input (repeatMatcher m gs fuel min max greedy).
Proof.
  intros Hm. revert min max.
  induction fuel as [|fuel IH]; intros min max x z k Hx;
    cbn [repeatMatcher]; [discriminate|].
  assert (Hk : k x = Some z ->
               exists y : State, (x.1 <= y.1 <= length input)%nat /\
                                 k y = Some z)
    by (intros H; exists x; split; [lia | exact H]).
  assert (Hd : m (x.1, clearCaptures gs x.2)
                 (fun y => if Nat.eqb min 0 && Nat.eqb y.1 x.1 then None
                           else repeatMatcher m gs fuel (Nat.pred min)
                                  (Nat.pred <$> max) greedy y k) = Some z ->
               exists y : State, (x.1 <= y.1 <= length input)%nat /\
                                 k y = Some z).
  { intros H. apply Hm in H as [y [Hy H]]; [|exact Hx]. simpl in Hy.
    destruct (Nat.eqb min 0 && Nat.eqb y.1 x.1); [discriminate|].
    apply IH in H as [y' [Hy' H]]; [|lia].
    exists y'. split; [lia | exact H]. }
  destruct max as [[|n]|]; [exact Hk | |];
    (destruct (negb (Nat.eqb min 0)); [exact Hd|]);
    (destruct (negb greedy);
     [destruct (k x); [exact Hk | exact Hd]
     |match goal with
      | |- context [match ?t with Some _ => _ | None => _ end] =>
          destruct t; [exact Hd | exact Hk]
      end]).
Qed.

Lemma compile_guided (ic : bool) (input : list N) (r : Regex) :
  Props.guided input (compile ic input r).
Proof.
  induction r as [|c| |inv atoms|r1 IH1 r2 IH2|r1 IH1 r2 IH2
                  |r IH min max greedy|i r IH|neg r IH|];
    cbn [compile]; try apply charMatcher_guided.
  - intros x z k Hx H. exists x. split; [lia | exact H].
  - intros x z k Hx H. apply IH1 in H as [y [Hy H]]; [|exact Hx].
    apply IH2 in H as [y' [Hy' H]]; [|lia].
    exists y'. split; [lia | exact H].
  - intros x z k Hx H.
    destruct (compile ic input r1 x k) eqn:E1.
    + rewrite <- E1 in H. exact (IH1 _ _ _ Hx H).
    + exact (IH2 _ _ _ Hx H).
  - intros x z k Hx H.
    exact (repeatMatcher_guided input _ _ _ _ _ _ IH x z k Hx H).
  - intros x z k Hx H. apply IH in H as [y [Hy H]]; [|exact Hx].
    eexists. split; [|exact H]. simpl. exact Hy.
  - intros x z k Hx H.
    destruct (compile ic input r x Some) as [y|]; destruct neg;
      try discriminate.
    + eexists. split; [|exact H]. simpl. lia.
    + exists x. split; [lia | exact H].
  - intros x z k Hx H.
    destruct (xorb _ _); [|discriminate].
    exists x. split; [lia | exact H].
Qed.

(** A match ends at or after its start, within the input; the matched
    text is the part of the input between the two. *)
Lemma matchAt_range (re : t) (input : list N) (i : nat) (y : State) :
  (i <= length input)%nat -> matchAt re input i = Some y ->
  (i <= y.1 <= length input)%nat.
Proof.
  intros Hi H. unfold matchAt in H.
  apply compile_guided in H as [y' [Hy' H]]; [|exact Hi].
  injection H as ->. exact Hy'.
Qed.

Lemma search_matched (re : t) (input : list N) (fuel i : nat)
    (a : MatchArray) :
  (i + fuel <= S (length input))%nat ->
  search re input fuel i = Some a ->
  exists e, (index a <= e <= length input)%nat /\
            matched a = JS.substring input (index a) e /\
            input = take (index a) input ++ matched a ++ drop e input.
Proof.
  revert i. induction fuel as [|fuel IH]; intros i Hi; cbn [search];
    [discriminate|].
  destruct (matchAt re input i) as [y|] eqn:E.
  - intros [= <-]. cbn [index matched].
    assert (Hi' : (i <= length input)%nat) by lia.
    pose proof (matchAt_range _ _ _ _ Hi' E) as Hy.
    exists y.1. split; [exact Hy|]. split; [reflexivity|].
    unfold JS.substring.
    rewrite <- (take_drop i input) at 1. f_equal.
    rewrite <- (take_drop (y.1 - i) (drop i input)) at 1. f_equal.
    rewrite drop_drop. f_equal. lia.
  - intros H. apply (IH (S i)); [lia | exact H].
Qed.

Lemma exec_matched (re : t) (input : list N) (a : MatchArray) :
  exec re input = Some a ->
  exists e, (index a <= e <= length input)%nat /\
            matched a = JS.substring input (index a) e /\
            input = take (index a) input ++ matched a ++ drop e input.
Proof. apply search_matched. lia. Qed.

Lemma exec_contains (re : t) (input : list N) (a : MatchArray) :
  exec re input = Some a -> Spec.contains input (matched a).
Proof.
  intros H. destruct (exec_matched _ _ _ H) as [e [_ [_ Hsplit]]].
  eexists _, _. exact Hsplit.
Qed.

End EngineMore.

(** ** utils/fileUtils.js, continued *)

Module MatcherMore.
Import JS Spec JSFacts FileUtilsMore.

(** A text without line feed that starts a string starts its first line. *)
Lemma split_lines_prefix (t post : list N) :
  10%N ∉ t -> exists l ls, split_lines (t ++ post) = (t ++ l) :: ls.
Proof.
  induction t as [|c t IH]; intros Ht.
  - pose proof (split_lines_nonempty post) as Hne.
    destruct (split_lines post) as [|l ls] eqn:E; [contradiction|].
    exists l, ls. exact E.
  - apply not_elem_of_cons in Ht as [Hc Ht].
    destruct (IH Ht) as [l [ls E]].
    cbn [app split_lines]. rewrite E.
    destruct (N.eqb_spec c 10) as [->|_]; [contradiction|].
    exists l, ls. reflexivity.
Qed.

(** A text without line feed that occurs in a string occurs in one of
    its lines. *)
Lemma split_lines_contains (s t : list N) :
  10%N ∉ t -> contains s t -> exists l, l ∈ split_lines s /\ contains l t.
Proof.
  intros Ht [pre [post ->]]. induction pre as [|c pre IH].
  - destruct (split_lines_prefix t post Ht) as [l [ls E]].
    exists (t ++ l). cbn [app]. rewrite E. split; [left|].
    exists [], l. reflexivity.
  - destruct IH as [l [Hl Hc]]. cbn [app split_lines].
    destruct (N.eqb_spec c 10) as [->|_].
    + exists l. split; [right; exact Hl | exact Hc].
    + destruct (split_lines (pre ++ t ++ post)) as [|l0 ls];
        [inversion Hl|].
      apply elem_of_cons in Hl as [->|Hl].
      * exists (c :: l0). split; [left|].
        destruct Hc as [a [b ->]]. exists (c :: a), b. reflexivity.
      * exists l. split; [right; exact Hl | exact Hc].
Qed.

(** A text that holds a line feed occurs in no line. *)
Lemma split_lines_line_feed (s t l : list N) :
  10%N ∈ t -> l ∈ split_lines s -> ~ contains l t.
Proof.
  intros Ht Hl [a [b ->]].
  apply (split_lines_no_newline _ _ Hl).
  rewrite !elem_of_app. right. left. exact Ht.
Qed.

(** What the body of the loop pushes for a file: nothing, or one Match
    of the file, located by the text the pattern finds. *)
Lemma step_located (pat : ContentPattern) (f : SourceFile) (m : Match) :
  m ∈ findFilesWithPattern_step pat [] f ->
  exists text, Props.foundText pat f = Some text /\
    contains (content f) text /\ file m = relativePath f /\
    Props.locatedWith (Props.snippetOf pat) (split_lines (content f)) text
      (line m) (context m).
Proof.
  assert (Hloc : forall (snippet : list N -> list N) (text : list N),
    Props.locatedWith snippet (split_lines (content f)) text
      (if 0 <=? findIndex (fun l => includes l text) (split_lines (content f))
       then Some (findIndex (fun l => includes l text)
                    (split_lines (content f)) + 1)
       else None)
      (if 0 <=? findIndex (fun l => includes l text) (split_lines (content f))
       then snippet <$>
            split_lines (content f)
              !! Z.to_nat (findIndex (fun l => includes l text)
                             (split_lines (content f)))
       else None)).
  { intros snippet text. set (lines := split_lines (content f)).
    set (p := fun l => includes l text).
    destruct (Z.leb_spec 0 (findIndex p lines)) as [Hge|Hlt].
    - destruct (findIndex_found p lines Hge) as [l [Hl [Hp Hmin]]].
      rewrite Hl. simpl.
      replace (findIndex p lines)
        with (Z.of_nat (Z.to_nat (findIndex p lines))) at 1 by lia.
      apply Props.locatedWith_first;
        [exact Hl | now apply includes_spec |].
      intros j l' Hj Hl'. apply includes_false. exact (Hmin j l' Hj Hl').
    - apply Props.locatedWith_nowhere. intros l Hl. apply includes_false.
      exact (findIndex_none p lines Hlt l Hl). }
  unfold findFilesWithPattern_step, Props.foundText. destruct pat as [s|re].
  - destruct (includes (content f) s) eqn:E; simpl; intros H;
      [|inversion H].
    apply list_elem_of_singleton in H as ->. exists s.
    split; [reflexivity|]. split; [now apply includes_spec|].
    split; [reflexivity|]. cbn [line context Props.snippetOf].
    specialize (Hloc (fun l => l) s).
    rewrite option_fmap_id in Hloc. exact Hloc.
  - destruct (RegExp.exec re (content f)) as [arr|] eqn:E; simpl; intros H;
      [|inversion H].
    apply list_elem_of_singleton in H as ->. exists (RegExp.matched arr).
    split; [reflexivity|].
    split; [exact (EngineMore.exec_contains _ _ _ E)|].
    split; [reflexivity|]. exact (Hloc JS.trim (RegExp.matched arr)).
Qed.

Lemma step_files (pat : ContentPattern) (f : SourceFile) :
  file <$> findFilesWithPattern_step pat [] f
  = if fileContainsPattern f pat then [relativePath f] else [].
Proof.
  unfold findFilesWithPattern_step, fileContainsPattern, RegExp.test.
  destruct pat as [s|re].
  - destruct (includes (content f) s); reflexivity.
  - destruct (RegExp.exec re (content f)); reflexivity.
Qed.

Lemma member_of_step (p : Project) (g : string) (pat : ContentPattern)
    (m : Match) :
  m ∈ findFilesWithPattern p g pat <->
  exists f, f ∈ findFiles p g /\ m ∈ findFilesWithPattern_step pat [] f.
Proof.
  rewrite MatcherFacts.findFilesWithPattern_flat, list_elem_of_In, in_flat_map.
  split; intros [f [Hf Hm]]; exists f;
    [rewrite !list_elem_of_In | rewrite <- !list_elem_of_In]; auto.
Qed.

End MatcherMore.

(** X1. The files of the Matches that the matcher returns are the files
    of the corpus that [fileContainsPattern] accepts, each once and in
    the order of the corpus, for a string and for a RegExp. *)
Theorem matches_follow_the_corpus
    (p : Project) (g : string) (pat : ContentPattern) :
  file <$> findFilesWithPattern p g pat
  = relativePath <$>
    List.filter (fun f => FileUtilsMore.fileContainsPattern f pat)
      (findFiles p g).
Proof.
  rewrite MatcherFacts.findFilesWithPattern_flat.
  induction (findFiles p g) as [|f files IH]; [reflexivity|].
  cbn [flat_map List.filter]. rewrite fmap_app, IH, MatcherMore.step_files.
  destruct (FileUtilsMore.fileContainsPattern f pat); reflexivity.
Qed.

(** X2. With a string as content pattern, every Match comes from a file
    of the corpus that contains the string; its line is the 1-based
    index of the first line that contains the string and its context is
    that line as it stands, not trimmed; both are null when no line
    contains the string. *)
Theorem string_match_line_and_context
    (p : Project) (g : string) (s : list N) (m : Match) :
  m ∈ findFilesWithPattern p g (PString s) ->
  exists f,
    f ∈ findFiles p g /\ file m = relativePath f /\
    Spec.contains (content f) s /\
    Props.locatedWith (fun l => l) (JS.split_lines (content f)) s
      (line m) (context m).
Proof.
  intros H. apply MatcherMore.member_of_step in H as [f [Hf Hm]].
  destruct (MatcherMore.step_located _ _ _ Hm)
    as [text [Htext [Hc [Hfile Hloc]]]].
  exists f. cbn [Props.foundText] in Htext.
  destruct (JS.includes (content f) s); [|discriminate].
  injection Htext as <-. auto.
Qed.

Lemma string_match_line_and_context_witness :
  let m := {| file := "a.js"; line := Some 2;
              context := Some (JS.str "  app.use(cors({ origin: '*' }))  ") |} in
  m ∈ findFilesWithPattern Examples.wildcardOnLineTwo filePattern
        (PString (JS.str "cors(")) /\
  exists f,
    f ∈ findFiles Examples.wildcardOnLineTwo filePattern /\
    file m = relativePath f /\
    Spec.contains (content f) (JS.str "cors(") /\
    Props.locatedWith (fun l => l) (JS.split_lines (content f))
      (JS.str "cors(") (line m) (context m).
Proof.
  intros m.
  assert (H : m ∈ findFilesWithPattern Examples.wildcardOnLineTwo filePattern
                (PString (JS.str "cors("))) by (vm_compute; left).
  split; [exact H|].
  exact (string_match_line_and_context _ _ _ _ H).
Defined.

(** X3. A Match has no line and no context exactly when the text the
    pattern found in the file, the string itself or the text matched by
    the RegExp, holds a line feed. *)
Theorem match_unlocated_iff_line_feed
    (p : Project) (g : string) (pat : ContentPattern) (m : Match) :
  m ∈ findFilesWithPattern p g pat ->
  exists f text,
    f ∈ findFiles p g /\ file m = relativePath f /\
    Props.foundText pat f = Some text /\
    (line m = None <-> 10%N ∈ text) /\
    (context m = None <-> 10%N ∈ text).
Proof.
  intros H. apply MatcherMore.member_of_step in H as [f [Hf Hm]].
  destruct (MatcherMore.step_located _ _ _ Hm)
    as [text [Htext [Hc [Hfile Hloc]]]].
  exists f, text. split; [exact Hf|]. split; [exact Hfile|].
  split; [exact Htext|].
  destruct (decide (10%N ∈ text)) as [Hin|Hnotin].
  - inversion Hloc as [i l Hl Hcl _|Hno].
    + apply list_elem_of_lookup_2 in Hl.
      destruct (MatcherMore.split_lines_line_feed _ _ _ Hin Hl Hcl).
    + split; split; auto.
  - destruct (MatcherMore.split_lines_contains _ _ Hnotin Hc)
      as [l [Hl Hcl]].
    inversion Hloc as [i l' Hl' Hcl' _|Hno].
    + split; split; (discriminate || contradiction).
    + destruct (Hno l Hl Hcl).
Qed.

Lemma match_unlocated_iff_line_feed_witness :
  let wildcard := PRegExp (pattern CorsScanner.wildcardOrigin) in
  let m := {| file := "a.js"; line := None; context := None |} in
  m ∈ findFilesWithPattern Examples.wildcardOnTwoLines filePattern wildcard /\
  exists f text,
    f ∈ findFiles Examples.wildcardOnTwoLines filePattern /\
    file m = relativePath f /\
    Props.foundText wildcard f = Some text /\
    (line m = None <-> 10%N ∈ text) /\
    (context m = None <-> 10%N ∈ text).
Proof.
  intros wildcard m.
  assert (H : m ∈ findFilesWithPattern Examples.wildcardOnTwoLines filePattern
                wildcard) by (vm_compute; left).
  split; [exact H|].
  exact (match_unlocated_iff_line_feed _ _ _ _ H).
Defined.

(** ** scanner/corsScanner.js, continued *)

Module CorsMore.
Import RegExp CorsScanner.

(** Whether a literal matches does not depend on the captures of the
    state it starts from. *)
Lemma literal_captures (ic : bool) (input : list N) (cs : list N) (j : nat)
    (c1 c2 : list (option (nat * nat))) :
  let l := foldr (fun c r => RSeq (RChar c) r) REmpty cs in
  compile ic input l (j, c1) Some = None ->
  compile ic input l (j, c2) Some = None.
Proof.
  cbv zeta. revert j. induction cs as [|c cs IH]; intros j.
  - discriminate.
  - cbn [foldr compile]. unfold charMatcher. cbn [fst snd].
    destruct (input !! j) as [a|]; [|reflexivity].
    destruct (xorb _ _); [|reflexivity]. apply IH.
Qed.

(** A pattern that starts with a literal is found only in texts in which
    the literal is found. *)
Lemma literal_prefix (ic : bool) (s : string) (R : Regex) (input : list N) :
  test {| source := RSeq (lit s) R; ignoreCase := ic |} input = true ->
  test {| source := lit s; ignoreCase := ic |} input = true.
Proof.
  apply EngineFacts.test_weaken. intros j. unfold matchAt.
  cbn [source ignoreCase compile]. unfold lit.
  rewrite EngineFacts.literal_cont.
  destruct (compile ic input _ (j, replicate _ None) Some) eqn:E;
    [|congruence].
  intros _ H. apply (literal_captures _ _ _ _ _
                       (replicate (nGroups (RSeq (lit s) R)) None)) in H.
  unfold lit in H. congruence.
Qed.

(** Each of the four rules is found only in texts that hold a call of
    cors. *)
Lemma rule_is_a_call (rule : Rule) (input : list N) :
  rule ∈ corsPatterns ->
  test (pattern rule) input = true -> test corsCall input = true.
Proof.
  unfold corsPatterns. rewrite !elem_of_cons.
  intros [->|[->|[->|[->|H]]]]; [| | | |inversion H];
    exact (literal_prefix true "cors(" _ input).
Qed.

Lemma matched_somewhere (p : Project) (re : RegExp.t) :
  findFilesWithPattern p filePattern (PRegExp re) = [] ->
  forall f, f ∈ findFiles p filePattern -> test re (content f) = false.
Proof.
  intros H f Hf. destruct (test re (content f)) eqn:E; [|reflexivity].
  destruct (CorsFacts.match_somewhere p re f Hf E H).
Qed.

(** Without a call of cors there is no issue. *)
Lemma no_call_no_issue (p : Project) :
  findFilesWithPattern p filePattern (PRegExp corsCall) = [] ->
  collectIssues p corsPatterns = [].
Proof.
  intros H. pose proof (matched_somewhere p _ H) as Hno.
  rewrite ScannerFacts.collectIssues_flat.
  assert (Hall : forall rule, rule ∈ corsPatterns ->
            findFilesWithPattern p filePattern (PRegExp (pattern rule)) = []).
  { intros rule Hrule. apply ScannerFacts.no_match_anywhere. intros f Hf.
    destruct (test (pattern rule) (content f)) eqn:E; [|reflexivity].
    rewrite <- (Hno f Hf). symmetry.
    exact (rule_is_a_call rule _ Hrule E). }
  induction corsPatterns as [|rule rules IH]; [reflexivity|].
  cbn [flat_map]. rewrite Hall by left. cbn [List.map app].
  apply IH. intros r Hr. apply Hall. now right.
Qed.

(** An issue comes from one of the four rules: it is of the wildcard
    rule and HIGH, or of another rule and MEDIUM. *)
Lemma issue_kinds (p : Project) (i : Issue) :
  i ∈ collectIssues p corsPatterns ->
  (isWildcard i = true /\ i_severity i = HIGH) \/
  (isWildcard i = false /\ i_severity i = MEDIUM).
Proof.
  rewrite ScannerFacts.collectIssues_flat, list_elem_of_In, in_flat_map.
  intros [rule [Hrule Hi]]. apply in_map_iff in Hi as [m [<- _]].
  revert Hrule. unfold corsPatterns. cbn [In].
  intros [<-|[<-|[<-|[<-|[]]]]]; [left | right..]; split; reflexivity.
Qed.

Lemma wildcard_is_high (issues : list Issue) :
  (forall i, i ∈ issues ->
     (isWildcard i = true /\ i_severity i = HIGH) \/
     (isWildcard i = false /\ i_severity i = MEDIUM)) ->
  existsb isWildcard issues
  = existsb (fun i => Severity_eqb (i_severity i) HIGH) issues /\
  (issues <> [] ->
   existsb (fun i => Severity_eqb (i_severity i) HIGH) issues = true \/
   List.filter (fun i => Severity_eqb (i_severity i) MEDIUM) issues <> []).
Proof.
  induction issues as [|i issues IH]; intros H.
  - split; [reflexivity | congruence].
  - destruct IH as [IH _]; [intros j Hj; apply H; now right|].
    cbn [existsb List.filter]. rewrite IH.
    destruct (H i) as [[-> ->]|[-> ->]]; [left | |]; cbn.
    + split; [reflexivity | intros _; now left].
    + split; [reflexivity | intros _; right; discriminate].
Qed.

End CorsMore.

(** X4. The status and the score of the CORS scanner go together: a
    restricted CORS scores 90, 95 or 100; a permissive one 50, 55 or 60;
    headers set by hand, without any call of cors, score 100 with no
    issue and no configuration; and a project without CORS scores 0. *)
Theorem cors_status_and_score (p : Project) :
  let r := CorsScanner.scanCORS p in
  (CorsScanner.status r = "✅ CORS restreint" /\
   CorsScanner.securityScore r ∈ [90; 95; 100]) \/
  (CorsScanner.status r = "⚠️ CORS permissif (*) détecté" /\
   CorsScanner.securityScore r ∈ [50; 55; 60]) \/
  (CorsScanner.status r = "⚠️ Configuration CORS manuelle détectée" /\
   CorsScanner.securityScore r = 100 /\
   CorsScanner.issues r = [] /\ CorsScanner.configurations r = []) \/
  (CorsScanner.status r = "❌ Aucun CORS détecté" /\
   CorsScanner.securityScore r = 0 /\
   CorsScanner.issues r = [] /\ CorsScanner.configurations r = []).
Proof.
  unfold CorsScanner.scanCORS. cbv zeta.
  cbn [CorsScanner.status CorsScanner.securityScore CorsScanner.issues
       CorsScanner.configurations].
  destruct (CorsMore.wildcard_is_high _ (CorsMore.issue_kinds p)) as [-> _].
  pose proof (CorsMore.no_call_no_issue p) as Hno.
  destruct (findFilesWithPattern p filePattern
              (PRegExp CorsScanner.corsCall)) as [|u usage].
  - rewrite (Hno eq_refl). cbn [length Nat.eqb negb orb existsb List.filter
                                  List.map].
    destruct (findFilesWithPattern p filePattern
                (PRegExp CorsScanner.manualHeader)) as [|m manual];
      cbn [length Nat.eqb negb]; right; right; [right | left]; auto.
  - cbn [length Nat.eqb negb orb].
    destruct (existsb _ (collectIssues p CorsScanner.corsPatterns));
      cbn [negb]; [right; left | left]; (split; [reflexivity|]);
      destruct (_ =? 0); try destruct (_ <=? 1);
      rewrite !elem_of_cons; lia.
Qed.

(** X5. The CORS scanner gives the full score of 100 exactly when it
    detects CORS, by a call of cors or by headers set by hand, and
    reports no issue at all. *)
Theorem cors_full_score (p : Project) :
  let r := CorsScanner.scanCORS p in
  CorsScanner.securityScore r = 100 <->
  CorsScanner.detected r = true /\ CorsScanner.issues r = [].
Proof.
  unfold CorsScanner.scanCORS. cbv zeta.
  cbn [CorsScanner.detected CorsScanner.securityScore CorsScanner.issues].
  destruct (CorsMore.wildcard_is_high _ (CorsMore.issue_kinds p))
    as [-> Hsome].
  destruct (negb (Nat.eqb (length (findFilesWithPattern p filePattern
                                     (PRegExp CorsScanner.corsCall))) 0)
            || negb (Nat.eqb (length (findFilesWithPattern p filePattern
                                        (PRegExp CorsScanner.manualHeader))) 0));
    [|split; [lia | intros [H _]; discriminate]].
  destruct (collectIssues p CorsScanner.corsPatterns) as [|i issues].
  - cbn. split; auto.
  - destruct Hsome as [Hhigh|Hmedium]; [discriminate| |].
    + rewrite Hhigh. cbn [negb]. split; [|intros [_ H]; discriminate].
      destruct (_ =? 0); try destruct (_ <=? 1); lia.
    + split; [|intros [_ H]; discriminate].
      destruct (List.filter _ (i :: issues)) as [|a l]; [congruence|].
      cbn [length]. destruct (existsb _ _); cbn [negb];
        destruct (Z.eqb_spec (Z.of_nat (S (length l))) 0); try lia;
        destruct (_ <=? 1); lia.
Qed.

(** ** Literal patterns *)

Module LiteralFacts.
Import RegExp.

Lemma search_matchAt (re : t) (input : list N) (fuel i : nat)
    (a : MatchArray) :
  search re input fuel i = Some a ->
  exists y, matchAt re input (index a) = Some y /\
            matched a = JS.substring input (index a) y.1.
Proof.
  revert i. induction fuel as [|fuel IH]; intros i; cbn [search];
    [discriminate|].
  destruct (matchAt re input i) as [y|] eqn:E.
  - intros [= <-]. exists y. split; [exact E | reflexivity].
  - apply IH.
Qed.

(** A literal matches its own characters, up to case under the [i]
    flag. *)
Lemma literal_end (ic : bool) (input : list N) (cs : list N) (j : nat)
    (c : list (option (nat * nat))) (y : State) :
  compile ic input (foldr (fun c r => RSeq (RChar c) r) REmpty cs) (j, c) Some
  = Some y ->
  y.1 = (j + length cs)%nat /\
  Forall2 (fun a ch => setHas ic (fun x => (x =? ch)%N) a = true)
    (take (length cs) (drop j input)) cs.
Proof.
  revert j. induction cs as [|ch cs IH]; intros j.
  - cbn. intros [= <-]. split; [cbn; lia | constructor].
  - cbn [foldr compile length]. unfold charMatcher. cbn [fst snd].
    destruct (input !! j) as [a|] eqn:Ea; [|discriminate].
    rewrite xorb_false_r.
    destruct (setHas ic (fun x => (x =? ch)%N) a) eqn:Et; [|discriminate].
    intros H. apply IH in H as [Hy Hall]. split; [lia|].
    rewrite (drop_S _ _ _ Ea). cbn [take]. constructor; assumption.
Qed.

Lemma literal_no_line_feed (ic : bool) (l cs : list N) :
  Forall2 (fun a ch => setHas ic (fun x => (x =? ch)%N) a = true) l cs ->
  10%N ∉ cs -> 10%N ∉ l.
Proof.
  induction 1 as [|a ch l cs Ha _ IH]; intros Hcs; [apply not_elem_of_nil|].
  apply not_elem_of_cons in Hcs as [Hch Hcs].
  apply not_elem_of_cons. split; [|exact (IH Hcs)].
  intros <-. apply Hch. revert Ha. unfold setHas.
  replace (JS.toUpper 10) with 10%N by reflexivity.
  replace (JS.toLower 10) with 10%N by reflexivity.
  rewrite orb_diag. destruct ic; intros H; now apply N.eqb_eq in H.
Qed.

(** The text a literal pattern matches holds no line feed unless the
    literal does. *)
Lemma matched_no_line_feed (ic : bool) (s : string) (input : list N)
    (a : MatchArray) :
  exec {| source := lit s; ignoreCase := ic |} input = Some a ->
  10%N ∉ JS.str s -> 10%N ∉ matched a.
Proof.
  unfold exec. intros H Hs.
  apply search_matchAt in H as [y [Hy ->]].
  unfold matchAt in Hy. cbn [source ignoreCase] in Hy. unfold lit in Hy.
  apply literal_end in Hy as [-> Hall].
  unfold JS.substring.
  replace (index a + length (JS.str s) - index a)%nat
    with (length (JS.str s)) by lia.
  exact (literal_no_line_feed _ _ _ Hall Hs).
Qed.

Lemma no_line_feed (cs : list N) :
  forallb (fun c => negb (c =? 10)%N) cs = true -> 10%N ∉ cs.
Proof.
  induction cs as [|c cs IH]; cbn [forallb]; [intros _; apply not_elem_of_nil|].
  intros H. apply andb_true_iff in H as [Hc H].
  apply not_elem_of_cons. split; [|exact (IH H)].
  intros <-. discriminate.
Qed.

(** A Match of a text without line feed has a line, at least 1, and a
    context. *)
Lemma located_line (pat : ContentPattern) (f : SourceFile) (m : Match)
    (text : list N) :
  m ∈ findFilesWithPattern_step pat [] f ->
  Props.foundText pat f = Some text -> 10%N ∉ text ->
  exists (i : nat) (l : list N),
    JS.split_lines (content f) !! i = Some l /\ Spec.contains l text /\
    line m = Some (Z.of_nat i + 1) /\
    context m = Some (Props.snippetOf pat l).
Proof.
  intros Hm Htext Hlf.
  destruct (MatcherMore.step_located _ _ _ Hm)
    as [text' [Htext' [Hc [_ Hloc]]]].
  rewrite Htext in Htext'. injection Htext' as <-.
  inversion Hloc as [i l Hl Hcl _|Hno].
  - exists i, l. auto.
  - destruct (MatcherMore.split_lines_contains _ _ Hlf Hc) as [l [Hl Hcl]].
    destruct (Hno l Hl Hcl).
Qed.

Lemma literal_line (ic : bool) (s : string) (f : SourceFile) (m : Match) :
  10%N ∉ JS.str s ->
  m ∈ findFilesWithPattern_step
        (PRegExp {| source := lit s; ignoreCase := ic |}) [] f ->
  exists (i : nat) (l : list N),
    JS.split_lines (content f) !! i = Some l /\
    line m = Some (Z.of_nat i + 1) /\ context m = Some (JS.trim l).
Proof.
  intros Hs Hm.
  destruct (MatcherMore.step_located _ _ _ Hm) as [text [Htext _]].
  assert (Hlf : 10%N ∉ text).
  { cbn [Props.foundText] in Htext.
    destruct (exec _ (content f)) as [a|] eqn:E; [|discriminate].
    injection Htext as <-. exact (matched_no_line_feed _ _ _ _ E Hs). }
  destruct (located_line _ _ _ _ Hm Htext Hlf) as [i [l [Hl [_ [H1 H2]]]]].
  exists i, l. auto.
Qed.

End LiteralFacts.

(** X6. The CORS scanner returns one configuration for each file of the
    corpus that holds a call of cors, in the order of the corpus; each
    carries the number of a line of its file and the trimmed text of
    that line. *)
Theorem cors_configurations_per_file (p : Project) :
  let r := CorsScanner.scanCORS p in
  CorsScanner.c_file <$> CorsScanner.configurations r
  = relativePath <$>
    List.filter (fun f => RegExp.test CorsScanner.corsCall (content f))
      (findFiles p filePattern) /\
  forall c, c ∈ CorsScanner.configurations r ->
    exists f (i : nat) (l : list N),
      f ∈ findFiles p filePattern /\
      CorsScanner.c_file c = relativePath f /\
      JS.split_lines (content f) !! i = Some l /\
      CorsScanner.c_line c = Some (Z.of_nat i + 1) /\
      CorsScanner.c_context c = JS.trim l.
Proof.
  unfold CorsScanner.scanCORS. cbv zeta. cbn [CorsScanner.configurations].
  split.
  - rewrite MatcherFacts.findFilesWithPattern_flat.
    induction (findFiles p filePattern) as [|f files IH]; [reflexivity|].
    cbn [flat_map List.filter]. rewrite map_app, fmap_app.
    rewrite IH. f_equal.
    pose proof (MatcherMore.step_files (PRegExp CorsScanner.corsCall) f) as H.
    cbn [FileUtilsMore.fileContainsPattern] in H.
    destruct (RegExp.test CorsScanner.corsCall (content f));
      destruct (findFilesWithPattern_step _ [] f) as [|m [|m' ms]];
      try discriminate; [|reflexivity].
    injection H as H. cbn. now rewrite H.
  - intros c Hc. apply list_elem_of_In, in_map_iff in Hc as [m [<- Hm]].
    apply list_elem_of_In, MatcherMore.member_of_step in Hm as [f [Hf Hm]].
    assert (Hs : 10%N ∉ JS.str "cors(")
      by (apply LiteralFacts.no_line_feed; reflexivity).
    destruct (LiteralFacts.literal_line true "cors(" f m Hs Hm)
      as [i [l [Hl [H1 H2]]]].
    destruct (MatcherMore.step_located _ _ _ Hm) as [_ [_ [_ [Hfile _]]]].
    exists f, i, l. cbn [CorsScanner.c_file CorsScanner.c_line
                         CorsScanner.c_context].
    rewrite H2. auto.
Qed.

Lemma cors_configurations_per_file_witness :
  let c := ScanExamples.lineTwoConfiguration in
  c ∈ CorsScanner.configurations
        (CorsScanner.scanCORS Examples.wildcardOnLineTwo) /\
  exists f (i : nat) (l : list N),
    f ∈ findFiles Examples.wildcardOnLineTwo filePattern /\
    CorsScanner.c_file c = relativePath f /\
    JS.split_lines (content f) !! i = Some l /\
    CorsScanner.c_line c = Some (Z.of_nat i + 1) /\
    CorsScanner.c_context c = JS.trim l.
Proof.
  intros c.
  assert (H : c ∈ CorsScanner.configurations
                    (CorsScanner.scanCORS Examples.wildcardOnLineTwo))
    by (vm_compute; left).
  split; [exact H|].
  exact (proj2 (cors_configurations_per_file Examples.wildcardOnLineTwo) c H).
Defined.

(** ** scanner/rateLimitScanner.js, continued *)

Module RateLimitMore.
Import RateLimitScanner.

(** A loop that pushes the elements that pass a test is a filter. *)
Lemma foldl_filter {A} (f : A -> bool) (l : list A) (acc : list A) :
  foldl (fun out x => if f x then out ++ [x] else out) acc l
  = acc ++ List.filter f l.
Proof.
  revert acc. induction l as [|x l IH]; intros acc; cbn [foldl List.filter].
  - now rewrite app_nil_r.
  - rewrite IH. destruct (f x); [now rewrite <- app_assoc | reflexivity].
Qed.

Lemma installed_at_most_five (p : Project) :
  (length (installedPackagesOf p) <= 5)%nat.
Proof.
  unfold installedPackagesOf. destruct (packageJson p) as [pj|]; [|cbn; lia].
  cbv zeta. rewrite foldl_filter. cbn [app].
  etransitivity; [apply List.filter_length_le | reflexivity].
Qed.

(** One turn of the loop over the routes leaves the list as it is or
    pushes a sensitive POST route for which no file matches the pattern
    built for it. *)
Lemma checkRoute_spec (newRegExp : list N -> option RegExp.t) (p : Project)
    (acc out : list Endpoint) (route : Match) :
  checkRoute newRegExp p acc route = Some out ->
  out = acc \/
  exists path re,
    out = acc ++ [ {| e_path := path; e_method := JS.str "POST";
                      e_file := file route; e_line := line route |} ] /\
    isSensitive path = true /\
    newRegExp (protectionSource (JS.str "POST") path) = Some re /\
    findFilesWithPattern p filePattern (PRegExp re) = [].
Proof.
  unfold checkRoute. cbv zeta.
  destruct (RegExp.exec routeDefinition _) as [routeMatch|];
    [|intros [= <-]; now left].
  destruct (RegExp.captures routeMatch !! 1%nat) as [[path|]|];
    try (intros [= <-]; now left).
  destruct (RegExp.captures routeMatch !! 0%nat) as [[m1|]|];
    try (intros [= <-]; now left).
  destruct (negb (Nat.eqb (length path) 0)); [|intros [= <-]; now left].
  destruct (isSensitive path) eqn:Hs; [|intros [= <-]; now left].
  cbn [andb]. destruct (bool_decide_reflect (JS.toUpperCase m1 = JS.str "POST"))
    as [->|_]; [|intros [= <-]; now left].
  destruct (newRegExp _) as [re|] eqn:Hre; [|discriminate].
  destruct (findFilesWithPattern p filePattern (PRegExp re)) as [|m ms] eqn:Hp;
    cbn [length]; [|intros [= <-]; now left].
  cbn. intros [= <-]. right. exists path, re. auto.
Qed.

Lemma loop_spec (newRegExp : list N -> option RegExp.t) (p : Project)
    (routes : list Match) (acc out : list Endpoint) (e : Endpoint) :
  foldl (fun acc route =>
           match acc with
           | Some unprotectedEndpoints =>
               checkRoute newRegExp p unprotectedEndpoints route
           | None => None
           end) (Some acc) routes = Some out ->
  e ∈ out ->
  e ∈ acc \/
  exists route re,
    route ∈ routes /\ e_method e = JS.str "POST" /\
    e_file e = file route /\ e_line e = line route /\
    isSensitive (e_path e) = true /\
    newRegExp (protectionSource (JS.str "POST") (e_path e)) = Some re /\
    findFilesWithPattern p filePattern (PRegExp re) = [].
Proof.
  revert acc. induction routes as [|route routes IH]; intros acc;
    cbn [foldl].
  - intros [= <-]. now left.
  - destruct (checkRoute newRegExp p acc route) as [acc'|] eqn:E.
    + intros H He. destruct (IH _ H He) as [Hin|[r [re [Hr Hrest]]]].
      * destruct (checkRoute_spec _ _ _ _ _ E)
          as [->|[path [re [-> [Hs [Hre Hp]]]]]]; [now left|].
        apply elem_of_app in Hin as [Hin|Hin]; [now left|].
        apply list_elem_of_singleton in Hin as ->.
        right. exists route, re. cbn. split; [left|]. repeat split; assumption.
      * right. exists r, re. split; [now right | exact Hrest].
    + intros H. exfalso. clear -H.
      induction routes as [|r routes IH]; [discriminate | exact (IH H)].
Qed.

End RateLimitMore.

(** X7. The status and the score of the rate-limit scanner go together:
    a limiter that is detected and has no issue scores 50 plus 5 for each
    installed package, 70 at most; a limiter with issues scores at most
    60; and without a detected limiter the score is 0, whatever the
    manifest declares. *)
Theorem rate_limit_status_and_score
    (newRegExp : list N -> option RegExp.t) (p : Project)
    (r : RateLimitScanner.Result) :
  RateLimitScanner.scanRateLimit newRegExp p = Some r ->
  (RateLimitScanner.status r = "✅ Rate-limiting correctement configuré" /\
   0 < RateLimitScanner.detected_count r /\
   RateLimitScanner.issues_count r = 0 /\
   RateLimitScanner.securityScore r
   = 50 + Z.min 20 (5 * RateLimitScanner.installed_count r) /\
   RateLimitScanner.securityScore r <= 70) \/
  (RateLimitScanner.status r
   = "⚠️ Rate-limiting détecté mais mal configuré ou incomplet" /\
   0 < RateLimitScanner.detected_count r /\
   0 < RateLimitScanner.issues_count r /\
   RateLimitScanner.securityScore r <= 60) \/
  (RateLimitScanner.status r = "❌ Aucun système de rate-limiting détecté" /\
   RateLimitScanner.detected_count r = 0 /\
   RateLimitScanner.securityScore r = 0).
Proof.
  unfold RateLimitScanner.scanRateLimit.
  destruct (RateLimitScanner.unprotectedEndpointsOf newRegExp p) as [eps|];
    [|discriminate].
  cbv zeta. intros [= <-].
  cbn [RateLimitScanner.status RateLimitScanner.detected_count
       RateLimitScanner.issues_count RateLimitScanner.securityScore
       RateLimitScanner.installed_count].
  pose proof (RateLimitMore.installed_at_most_five p) as Hfive.
  unfold RateLimitScanner.rateLimitScore. cbv zeta.
  destruct (Z.ltb_spec 0 (Z.of_nat (length (RateLimitScanner.rateLimitDetectionsOf p))))
    as [Hd|Hd]; [|right; right; repeat split; lia].
  destruct (Z.eqb_spec (Z.of_nat (length
             (RateLimitScanner.configurationIssuesOf p
                RateLimitScanner.rateLimitConfigPatterns))) 0) as [Hc|Hc];
    [destruct (Z.eqb_spec (Z.of_nat (length eps)) 0) as [Hu|Hu]|];
    cbn [andb]; [left | right; left..]; repeat split; lia.
Qed.

Lemma rate_limit_status_and_score_witness :
  exists r,
    Examples.scanRateLimit ScanExamples.limited = Some r /\
    RateLimitScanner.securityScore r = 55 /\
    ((RateLimitScanner.status r = "✅ Rate-limiting correctement configuré" /\
      0 < RateLimitScanner.detected_count r /\
      RateLimitScanner.issues_count r = 0 /\
      RateLimitScanner.securityScore r
      = 50 + Z.min 20 (5 * RateLimitScanner.installed_count r) /\
      RateLimitScanner.securityScore r <= 70) \/
     (RateLimitScanner.status r
      = "⚠️ Rate-limiting détecté mais mal configuré ou incomplet" /\
      0 < RateLimitScanner.detected_count r /\
      0 < RateLimitScanner.issues_count r /\
      RateLimitScanner.securityScore r <= 60) \/
     (RateLimitScanner.status r = "❌ Aucun système de rate-limiting détecté" /\
      RateLimitScanner.detected_count r = 0 /\
      RateLimitScanner.securityScore r = 0)).
Proof.
  assert (Hs : RateLimitScanner.securityScore
                 <$> Examples.scanRateLimit ScanExamples.limited = Some 55)
    by (vm_compute; reflexivity).
  destruct (Examples.scanRateLimit ScanExamples.limited) as [r|] eqn:E;
    [|discriminate].
  exists r. split; [reflexivity|]. split; [now injection Hs|].
  exact (rate_limit_status_and_score _ _ r E).
Defined.

Module RouteFacts.
Import RateLimitScanner RateLimitProps.

Lemma empty_path_not_sensitive : isSensitive [] = false.
Proof. vm_compute. reflexivity. Qed.

(** A turn of the loop over the routes throws exactly on a sensitive
    POST route for whose pattern the constructor of RegExp throws,
    whatever was collected before. *)
Lemma checkRoute_none (newRegExp : list N -> option RegExp.t) (p : Project)
    (acc : list Endpoint) (route : Match) :
  checkRoute newRegExp p acc route = None <->
  exists path,
    postRoute route path /\ isSensitive path = true /\
    newRegExp (protectionSource (JS.str "POST") path) = None.
Proof.
  unfold checkRoute, postRoute. cbv zeta. split.
  - destruct (RegExp.exec routeDefinition _) as [routeMatch|]; [|discriminate].
    destruct (RegExp.captures routeMatch !! 1%nat) as [[path|]|] eqn:E1;
      try discriminate.
    destruct (RegExp.captures routeMatch !! 0%nat) as [[m1|]|] eqn:E0;
      try discriminate.
    destruct (negb (Nat.eqb (length path) 0)); [|discriminate].
    destruct (isSensitive path) eqn:Hs; [|discriminate].
    cbn [andb].
    destruct (bool_decide_reflect (JS.toUpperCase m1 = JS.str "POST"))
      as [Hm|_]; [|discriminate].
    rewrite Hm.
    destruct (newRegExp _) as [re|] eqn:Hre.
    + destruct (negb _); discriminate.
    + intros _. exists path. split; [|auto]. exists routeMatch, m1. auto.
  - intros [path [[routeMatch [method [-> [E0 [E1 Hm]]]]] [Hs Hre]]].
    rewrite E1, E0.
    destruct path as [|c path];
      [rewrite empty_path_not_sensitive in Hs; discriminate|].
    cbn [length Nat.eqb negb]. rewrite Hs, Hm. cbn [andb].
    rewrite bool_decide_true by reflexivity. now rewrite Hre.
Qed.

Lemma routes_thrown (newRegExp : list N -> option RegExp.t) (p : Project)
    (routes : list Match) :
  foldl (fun acc route =>
           match acc with
           | Some unprotectedEndpoints =>
               checkRoute newRegExp p unprotectedEndpoints route
           | None => None
           end) None routes = None.
Proof. induction routes as [|r routes IH]; [reflexivity | exact IH]. Qed.

Lemma loop_none (newRegExp : list N -> option RegExp.t) (p : Project)
    (routes : list Match) (acc : list Endpoint) :
  foldl (fun acc route =>
           match acc with
           | Some unprotectedEndpoints =>
               checkRoute newRegExp p unprotectedEndpoints route
           | None => None
           end) (Some acc) routes = None <->
  exists route path,
    route ∈ routes /\ postRoute route path /\ isSensitive path = true /\
    newRegExp (protectionSource (JS.str "POST") path) = None.
Proof.
  revert acc. induction routes as [|route routes IH]; intros acc;
    cbn [foldl].
  - split; [discriminate | intros [r [path [Hr _]]]; inversion Hr].
  - destruct (checkRoute newRegExp p acc route) as [acc'|] eqn:E.
    + rewrite IH. split.
      * intros [r [path [Hr H]]]. exists r, path. split; [now right | exact H].
      * intros [r [path [Hr H]]]. apply elem_of_cons in Hr as [->|Hr].
        -- assert (Hnone : checkRoute newRegExp p acc route = None)
             by (apply checkRoute_none; eauto).
           congruence.
        -- exists r, path. auto.
    + rewrite routes_thrown. split; [intros _|reflexivity].
      apply checkRoute_none in E as [path H].
      exists route, path. split; [left | exact H].
Qed.

End RouteFacts.

(** X8. The rate-limit scanner throws exactly when the project has a
    Match of the route pattern whose context defines a POST route on a
    sensitive path for which the constructor of RegExp throws on the
    source built from that path, as it does on /login/(x, whose group is
    not closed: the path is spliced into the source as it is written.
    In every other case the scanner returns a result. *)
Theorem rate_limit_scan_throws
    (newRegExp : list N -> option RegExp.t) (p : Project) :
  RateLimitScanner.scanRateLimit newRegExp p = None <->
  exists route path,
    route ∈ findFilesWithPattern p filePattern
              (PRegExp RateLimitScanner.routeDefinition) /\
    RateLimitProps.postRoute route path /\
    RateLimitScanner.isSensitive path = true /\
    newRegExp (RateLimitScanner.protectionSource (JS.str "POST") path) = None.
Proof.
  rewrite <- (RouteFacts.loop_none newRegExp p _ []).
  unfold RateLimitScanner.scanRateLimit,
    RateLimitScanner.unprotectedEndpointsOf. cbv zeta.
  destruct (foldl _ (Some []) _) as [eps|]; split;
    [discriminate | discriminate | reflexivity | reflexivity].
Qed.

Lemma rate_limit_scan_throws_witness :
  let route := {| file := "routes.js"; line := Some 1;
                  context := Some (JS.str "app.post('/login/(x', handler)") |} in
  let path := JS.str "/login/(x" in
  route ∈ findFilesWithPattern RateLimitExamples.unclosedGroupRoute filePattern
            (PRegExp RateLimitScanner.routeDefinition) /\
  RateLimitProps.postRoute route path /\
  RateLimitScanner.isSensitive path = true /\
  RateLimitExamples.newRegExp
    (RateLimitScanner.protectionSource (JS.str "POST") path) = None /\
  RateLimitScanner.scanRateLimit RateLimitExamples.newRegExp
    RateLimitExamples.unclosedGroupRoute = None /\
  RateLimitScanner.scanRateLimit RateLimitExamples.newRegExp
    RateLimitExamples.loginRoute <> None.
Proof.
  intros route path.
  assert (Hin : route ∈ findFilesWithPattern RateLimitExamples.unclosedGroupRoute
                          filePattern (PRegExp RateLimitScanner.routeDefinition))
    by (vm_compute; left).
  assert (Hpost : RateLimitProps.postRoute route path).
  { exists {| RegExp.index := 0;
              RegExp.matched := JS.str "app.post('/login/(x'";
              RegExp.captures := [Some (JS.str "post"); Some path] |},
           (JS.str "post").
    split; [vm_compute; reflexivity|]. repeat split. }
  assert (Hs : RateLimitScanner.isSensitive path = true)
    by (vm_compute; reflexivity).
  assert (Hre : RateLimitExamples.newRegExp
                  (RateLimitScanner.protectionSource (JS.str "POST") path)
                = None) by (vm_compute; reflexivity).
  split; [exact Hin|]. split; [exact Hpost|]. split; [exact Hs|].
  split; [exact Hre|]. split.
  - apply (proj2 (rate_limit_scan_throws RateLimitExamples.newRegExp
                    RateLimitExamples.unclosedGroupRoute)).
    exists route, path. auto.
  - vm_compute. discriminate.
Defined.

(** X9. Every unprotected endpoint the rate-limit scanner reports is a
    POST route on a sensitive path, found on a Match of the route
    pattern, such that no file of the corpus matches the protection
    pattern built for it. *)
Theorem unprotected_endpoints_are_sensitive_posts
    (newRegExp : list N -> option RegExp.t) (p : Project)
    (r : RateLimitScanner.Result) (e : RateLimitScanner.Endpoint) :
  RateLimitScanner.scanRateLimit newRegExp p = Some r ->
  e ∈ RateLimitScanner.issues_unprotectedEndpoints r ->
  RateLimitScanner.e_method e = JS.str "POST" /\
  RateLimitScanner.isSensitive (RateLimitScanner.e_path e) = true /\
  (exists route,
     route ∈ findFilesWithPattern p filePattern
               (PRegExp RateLimitScanner.routeDefinition) /\
     RateLimitScanner.e_file e = file route /\
     RateLimitScanner.e_line e = line route) /\
  (exists re,
     newRegExp (RateLimitScanner.protectionSource (JS.str "POST")
                  (RateLimitScanner.e_path e)) = Some re /\
     findFilesWithPattern p filePattern (PRegExp re) = []).
Proof.
  unfold RateLimitScanner.scanRateLimit.
  destruct (RateLimitScanner.unprotectedEndpointsOf newRegExp p) as [eps|] eqn:E;
    [|discriminate].
  cbv zeta. intros [= <-].
  cbn [RateLimitScanner.issues_unprotectedEndpoints]. intros He.
  unfold RateLimitScanner.unprotectedEndpointsOf in E. cbv zeta in E.
  destruct (RateLimitMore.loop_spec _ _ _ _ _ _ E He)
    as [Hin|[route [re [Hr [Hm [Hf [Hl [Hs [Hre Hp]]]]]]]]]; [inversion Hin|].
  split; [exact Hm|]. split; [exact Hs|]. split; eauto.
Qed.

Lemma unprotected_endpoints_are_sensitive_posts_witness :
  let e := ScanExamples.loginEndpoint in
  exists r,
    RateLimitExamples.scanLoginRoute = Some r /\
    e ∈ RateLimitScanner.issues_unprotectedEndpoints r /\
    RateLimitScanner.e_method e = JS.str "POST" /\
    RateLimitScanner.isSensitive (RateLimitScanner.e_path e) = true /\
    (exists route,
       route ∈ findFilesWithPattern RateLimitExamples.loginRoute filePattern
                 (PRegExp RateLimitScanner.routeDefinition) /\
       RateLimitScanner.e_file e = file route /\
       RateLimitScanner.e_line e = line route) /\
    (exists re,
       RateLimitExamples.newRegExp
         (RateLimitScanner.protectionSource (JS.str "POST")
            (RateLimitScanner.e_path e)) = Some re /\
       findFilesWithPattern RateLimitExamples.loginRoute filePattern (PRegExp re)
       = []).
Proof.
  intros e.
  assert (Hu : RateLimitScanner.issues_unprotectedEndpoints
                 <$> RateLimitExamples.scanLoginRoute = Some [e])
    by (vm_compute; reflexivity).
  destruct RateLimitExamples.scanLoginRoute as [r|] eqn:E; [|discriminate].
  assert (He : e ∈ RateLimitScanner.issues_unprotectedEndpoints r)
    by (injection Hu as ->; left).
  exists r. split; [reflexivity|]. split; [exact He|].
  exact (unprotected_endpoints_are_sensitive_posts _ _ r e E He).
Defined.

(** X10. A Match of a configuration rule is always reported, with a null
    value, when the rule has no threshold or when the Match has no
    context, as when the configuration runs over several lines: the
    limit is then not compared with the threshold. *)
Theorem unread_limit_is_reported
    (newRegExp : list N -> option RegExp.t) (p : Project)
    (r : RateLimitScanner.Result) (rule : Rule) (m : Match) :
  RateLimitScanner.scanRateLimit newRegExp p = Some r ->
  rule ∈ RateLimitScanner.rateLimitConfigPatterns ->
  m ∈ findFilesWithPattern p filePattern (PRegExp (pattern rule)) ->
  threshold rule = None \/ context m = None ->
  {| i_file := file m; i_line := line m; i_name := name rule;
     i_severity := severity rule; i_solution := solution rule;
     i_context := context m; i_value := None |}
  ∈ RateLimitScanner.issues_configurationProblems r.
Proof.
  intros Hscan Hrule Hm Hnull.
  rewrite (ScannerFacts.scan_configurationProblems _ _ _ Hscan).
  apply ScannerFacts.configurationIssuesOf_elem.
  exists rule, m, None. split; [exact Hrule|]. split; [exact Hm|].
  split; [|reflexivity].
  destruct Hnull as [Ht|Hc].
  - unfold RateLimitScanner.extractValue. rewrite Ht. reflexivity.
  - exact (ScannerFacts.extractValue_null_context rule m Hc).
Qed.

Lemma unread_limit_is_reported_witness :
  let m := {| file := "app.js"; line := None; context := None |} in
  let low := RateLimitScanner.lowMax in
  low ∈ RateLimitScanner.rateLimitConfigPatterns /\
  m ∈ findFilesWithPattern RateLimitExamples.limitOnTwoLines filePattern
        (PRegExp (pattern low)) /\
  exists r,
    Examples.scanRateLimit RateLimitExamples.limitOnTwoLines = Some r /\
    {| i_file := file m; i_line := line m; i_name := name low;
       i_severity := severity low; i_solution := solution low;
       i_context := context m; i_value := None |}
    ∈ RateLimitScanner.issues_configurationProblems r.
Proof.
  intros m low.
  assert (Hrule : low ∈ RateLimitScanner.rateLimitConfigPatterns) by left.
  assert (Hm : m ∈ findFilesWithPattern RateLimitExamples.limitOnTwoLines
                     filePattern (PRegExp (pattern low)))
    by (vm_compute; left).
  split; [exact Hrule|]. split; [exact Hm|].
  destruct (Examples.scanRateLimit RateLimitExamples.limitOnTwoLines) as [r|] eqn:E;
    [|vm_compute in E; discriminate].
  exists r. split; [reflexivity|].
  exact (unread_limit_is_reported _ _ r low m E Hrule Hm (or_intror eq_refl)).
Defined.

(** ** scanner/middlewareScanner.js, continued *)

Module MiddlewareMore.
Import MiddlewareScanner.

(** A loop that pushes each element on one of two lists is a pair of
    filters. *)
Lemma foldl_partition {A} (f : A -> bool) (l : list A) (a b : list A) :
  foldl (fun '(yes, no) x => if f x then (yes ++ [x], no) else (yes, no ++ [x]))
        (a, b) l
  = (a ++ List.filter f l, b ++ List.filter (fun x => negb (f x)) l).
Proof.
  revert a b. induction l as [|x l IH]; intros a b; cbn [foldl List.filter].
  - now rewrite !app_nil_r.
  - destruct (f x); cbn [negb]; rewrite IH, <- app_assoc; reflexivity.
Qed.

Lemma resolvePackages_filter (p : Project) (pj : PackageJson) :
  packageJson p = Some pj ->
  resolvePackages p
  = (List.filter (fun m => hasDependency (spreadDependencies pj) (npm m))
       securityMiddlewares,
     List.filter (fun m => negb (hasDependency (spreadDependencies pj) (npm m)))
       securityMiddlewares).
Proof.
  intros H. unfold resolvePackages. rewrite H. cbv zeta.
  exact (foldl_partition _ securityMiddlewares [] []).
Qed.

Lemma filter_filter {A} (f g : A -> bool) (l : list A) :
  List.filter f (List.filter g l) = List.filter (fun x => f x && g x) l.
Proof.
  induction l as [|x l IH]; cbn [List.filter]; [reflexivity|].
  destruct (g x); cbn [List.filter]; rewrite ?andb_false_r, ?andb_true_r;
    [destruct (f x)|]; now rewrite IH.
Qed.

Lemma filter_and_length {A} (f g : A -> bool) (l : list A) :
  (length (List.filter (fun x => f x && g x) l) <= length (List.filter f l))%nat.
Proof.
  induction l as [|x l IH]; cbn [List.filter]; [lia|].
  destruct (f x), (g x); cbn [andb length]; lia.
Qed.

(** The installed middlewares and those reported as missing or as
    recommended are distinct middlewares of the list. *)
Lemma three_filters (declared : Middleware -> bool) (l : list Middleware) :
  (length (List.filter declared l)
   + length (List.filter (fun m => hasPriority HIGH m && negb (declared m)) l)
   + length (List.filter (fun m => hasPriority MEDIUM m && negb (declared m)) l)
   <= length l)%nat.
Proof.
  induction l as [|m l IH]; cbn [List.filter length]; [lia|].
  destruct (hasPriority HIGH m) eqn:Hh, (hasPriority MEDIUM m) eqn:Hm;
    [unfold hasPriority in Hh, Hm; destruct (priority m); discriminate|..];
    destruct (declared m); cbn [andb negb length]; lia.
Qed.

Lemma existsb_filter {A} (q f : A -> bool) (l : list A) :
  existsb q (List.filter f l) = existsb (fun x => f x && q x) l.
Proof.
  induction l as [|x l IH]; cbn [List.filter existsb]; [reflexivity|].
  destruct (f x); cbn [existsb andb]; now rewrite IH.
Qed.

Lemma partition_counts (deps : gmap string string) :
  let declared m := hasDependency deps (npm m) in
  let installed := List.filter declared securityMiddlewares in
  let missing := List.filter (fun m => negb (declared m)) securityMiddlewares in
  0 <= Z.of_nat (length (List.filter (hasPriority HIGH) missing)) <= 6 /\
  0 <= Z.of_nat (length (List.filter (hasPriority MEDIUM) missing)) <= 6 /\
  Z.of_nat (length installed)
  + Z.of_nat (length (List.filter (hasPriority HIGH) missing))
  + Z.of_nat (length (List.filter (hasPriority MEDIUM) missing)) <= 15.
Proof.
  intros declared installed missing. subst installed missing.
  rewrite !filter_filter.
  pose proof (filter_and_length (hasPriority HIGH)
                (fun m => negb (declared m)) securityMiddlewares) as Hhigh.
  pose proof (filter_and_length (hasPriority MEDIUM)
                (fun m => negb (declared m)) securityMiddlewares) as Hmedium.
  pose proof (three_filters declared securityMiddlewares) as Hsum.
  change (length (List.filter (hasPriority HIGH) securityMiddlewares))
    with 6%nat in Hhigh.
  change (length (List.filter (hasPriority MEDIUM) securityMiddlewares))
    with 6%nat in Hmedium.
  change (length securityMiddlewares) with 15%nat in Hsum.
  cbv beta in Hhigh, Hmedium. lia.
Qed.

(** The session is analysed when the manifest declares express-session. *)
Lemma session_installed (declared : string -> bool) :
  existsb (fun m => String.eqb (m_name m) "express-session")
    (List.filter (fun m => declared (npm m)) securityMiddlewares)
  = declared "express-session".
Proof.
  rewrite existsb_filter. unfold securityMiddlewares.
  cbn [existsb m_name npm].
  repeat match goal with
         | |- context [String.eqb ?a ?b] =>
             let v := eval vm_compute in (String.eqb a b) in
             change (String.eqb a b) with v
         end.
  rewrite !andb_false_r, andb_true_r. cbn [orb].
  now rewrite orb_false_r.
Qed.

(** The first Match is the Match of the first file the pattern
    matches. *)
Lemma first_match (p : Project) (g : string) (re : RegExp.t) :
  head (findFilesWithPattern p g (PRegExp re))
  = head (List.filter (fun f => RegExp.test re (content f)) (findFiles p g))
    ≫= fun f => head (findFilesWithPattern_step (PRegExp re) [] f).
Proof.
  rewrite MatcherFacts.findFilesWithPattern_flat.
  induction (findFiles p g) as [|f files IH]; [reflexivity|].
  cbn [flat_map List.filter].
  pose proof (MatcherFacts.step_regexp_length re f) as Hlen.
  destruct (RegExp.test re (content f)).
  - cbn [head mbind option_bind].
    destruct (findFilesWithPattern_step (PRegExp re) [] f) as [|m ms];
      [discriminate | reflexivity].
  - destruct (findFilesWithPattern_step (PRegExp re) [] f) as [|m ms];
      [exact IH | discriminate].
Qed.

(** The Match of a file has no context exactly when the matched text
    holds a line feed. *)
Lemma step_unlocated (re : RegExp.t) (f : SourceFile) (m : Match)
    (a : RegExp.MatchArray) :
  m ∈ findFilesWithPattern_step (PRegExp re) [] f ->
  RegExp.exec re (content f) = Some a ->
  (context m = None <-> 10%N ∈ RegExp.matched a).
Proof.
  intros Hm Ha.
  destruct (MatcherMore.step_located _ _ _ Hm) as [text [Htext [Hc [_ Hloc]]]].
  cbn [Props.foundText] in Htext. rewrite Ha in Htext. injection Htext as <-.
  destruct (decide (10%N ∈ RegExp.matched a)) as [Hin|Hnotin].
  - inversion Hloc as [i l Hl Hcl _|Hno]; [|tauto].
    apply list_elem_of_lookup_2 in Hl.
    destruct (MatcherMore.split_lines_line_feed _ _ _ Hin Hl Hcl).
  - destruct (MatcherMore.split_lines_contains _ _ Hnotin Hc) as [l [Hl Hcl]].
    inversion Hloc as [i l' Hl' Hcl' _|Hno].
    + split; [discriminate | contradiction].
    + destruct (Hno l Hl Hcl).
Qed.

(** When the session analysis fails. *)
Lemma analyseSession_fails (p : Project) (installed : list Middleware) :
  analyseSession p installed = None <->
  existsb (fun m => String.eqb (m_name m) "express-session") installed = true /\
  exists f a,
    head (List.filter (fun f => RegExp.test sessionCall (content f))
            (findFiles p filePattern)) = Some f /\
    RegExp.exec sessionCall (content f) = Some a /\
    10%N ∈ RegExp.matched a.
Proof.
  unfold analyseSession.
  destruct (existsb _ installed);
    [|split; [discriminate | intros [H _]; discriminate]].
  pose proof (first_match p filePattern sessionCall) as Hfirst.
  destruct (head (List.filter _ (findFiles p filePattern))) as [f|] eqn:Ef.
  - cbn [mbind option_bind] in Hfirst.
    assert (Hf : RegExp.test sessionCall (content f) = true).
    { apply head_Some_elem_of, list_elem_of_In, filter_In in Ef as [_ Ef].
      exact Ef. }
    unfold RegExp.test in Hf.
    destruct (RegExp.exec sessionCall (content f)) as [a|] eqn:Ea;
      [clear Hf | discriminate].
    destruct (findFilesWithPattern p filePattern (PRegExp sessionCall))
      as [|m ms]; cbn [head] in Hfirst.
    + exfalso. symmetry in Hfirst.
      unfold findFilesWithPattern_step in Hfirst. rewrite Ea in Hfirst.
      discriminate.
    + symmetry in Hfirst. apply head_Some_elem_of in Hfirst.
      pose proof (step_unlocated _ _ _ _ Hfirst Ea) as Hiff.
      destruct (context m) as [ctx|].
      * split; [discriminate|]. intros [_ [f' [a' [Hf' [Ha' Hin]]]]].
        injection Hf' as <-. rewrite Ea in Ha'. injection Ha' as <-.
        apply Hiff in Hin. discriminate.
      * split; [|reflexivity]. intros _. split; [reflexivity|].
        exists f, a. split; [reflexivity|]. split; [exact Ea|].
        now apply Hiff.
  - cbn [mbind option_bind] in Hfirst.
    destruct (findFilesWithPattern p filePattern (PRegExp sessionCall));
      [|discriminate].
    split; [discriminate | intros [_ [f [a [H _]]]]; discriminate].
Qed.

End MiddlewareMore.

(** X11. With a manifest, the middleware scanner sorts the fifteen
    middlewares by their npm name: the installed ones are those the
    manifest declares, the missing ones the HIGH middlewares it does not
    declare and the recommended ones the MEDIUM middlewares it does not
    declare, each in the order of the list; an undeclared LOW middleware
    is in none of the three.  At most six are missing, at most six are
    recommended, and the three counts add up to fifteen at most. *)
Theorem middleware_packages_partition
    (p : Project) (pj : PackageJson) (r : MiddlewareScanner.Result) :
  packageJson p = Some pj ->
  MiddlewareScanner.scanMiddlewares p = Some r ->
  let declared m :=
    hasDependency (spreadDependencies pj) (MiddlewareScanner.npm m) in
  MiddlewareScanner.installed_packages r
  = List.filter declared MiddlewareScanner.securityMiddlewares /\
  MiddlewareScanner.missing_packages r
  = List.filter (fun m => MiddlewareScanner.hasPriority HIGH m
                          && negb (declared m))
      MiddlewareScanner.securityMiddlewares /\
  MiddlewareScanner.recommended_packages r
  = List.filter (fun m => MiddlewareScanner.hasPriority MEDIUM m
                          && negb (declared m))
      MiddlewareScanner.securityMiddlewares /\
  0 <= MiddlewareScanner.missing_count r <= 6 /\
  0 <= MiddlewareScanner.recommended_count r <= 6 /\
  MiddlewareScanner.installed_count r + MiddlewareScanner.missing_count r
  + MiddlewareScanner.recommended_count r <= 15.
Proof.
  intros Hpj. unfold MiddlewareScanner.scanMiddlewares.
  pose proof (MiddlewareMore.resolvePackages_filter p pj Hpj) as Hres.
  destruct (MiddlewareScanner.resolvePackages p) as [installed missing].
  destruct (MiddlewareScanner.analyseSession p _); [|discriminate].
  intros [= <-]. cbv zeta.
  cbn [MiddlewareScanner.installed_packages MiddlewareScanner.missing_packages
       MiddlewareScanner.recommended_packages MiddlewareScanner.missing_count
       MiddlewareScanner.recommended_count MiddlewareScanner.installed_count].
  apply pair_equal_spec in Hres as [-> ->].
  split; [reflexivity|].
  split; [now rewrite MiddlewareMore.filter_filter|].
  split; [now rewrite MiddlewareMore.filter_filter|].
  exact (MiddlewareMore.partition_counts (spreadDependencies pj)).
Qed.

Lemma middleware_packages_partition_witness :
  let p := Examples.projectOf (Some MiddlewareExamples.helmetAndCors) [] in
  let declared m :=
    hasDependency (spreadDependencies MiddlewareExamples.helmetAndCors)
      (MiddlewareScanner.npm m) in
  packageJson p = Some MiddlewareExamples.helmetAndCors /\
  exists r,
    MiddlewareScanner.scanMiddlewares p = Some r /\
    MiddlewareScanner.missing_count r = 4 /\
    MiddlewareScanner.installed_packages r
    = List.filter declared MiddlewareScanner.securityMiddlewares /\
    MiddlewareScanner.missing_packages r
    = List.filter (fun m => MiddlewareScanner.hasPriority HIGH m
                            && negb (declared m))
        MiddlewareScanner.securityMiddlewares /\
    MiddlewareScanner.recommended_packages r
    = List.filter (fun m => MiddlewareScanner.hasPriority MEDIUM m
                            && negb (declared m))
        MiddlewareScanner.securityMiddlewares /\
    0 <= MiddlewareScanner.missing_count r <= 6 /\
    0 <= MiddlewareScanner.recommended_count r <= 6 /\
    MiddlewareScanner.installed_count r + MiddlewareScanner.missing_count r
    + MiddlewareScanner.recommended_count r <= 15.
Proof.
  intros p declared. split; [reflexivity|].
  assert (Hc : MiddlewareScanner.missing_count
                 <$> MiddlewareScanner.scanMiddlewares p = Some 4)
    by (vm_compute; reflexivity).
  destruct (MiddlewareScanner.scanMiddlewares p) as [r|] eqn:E; [|discriminate].
  exists r. split; [reflexivity|]. split; [now injection Hc|].
  exact (middleware_packages_partition p MiddlewareExamples.helmetAndCors r
           eq_refl E).
Defined.

(** X12. The score of the middleware scanner is read off its result: 100
    minus 15 for each missing middleware, 5 for each recommended one and
    10 for each configuration issue, and not below 0; it is 100 exactly
    when nothing is missing, nothing is recommended and no configuration
    issue is reported. *)
Theorem middleware_score_formula (p : Project) (r : MiddlewareScanner.Result) :
  MiddlewareScanner.scanMiddlewares p = Some r ->
  MiddlewareScanner.securityScore r
  = Z.max 0 (100 - 15 * MiddlewareScanner.missing_count r
             - 5 * MiddlewareScanner.recommended_count r
             - 10 * Z.of_nat (length (MiddlewareScanner.configurationIssues r)))
  /\
  (MiddlewareScanner.securityScore r = 100 <->
   MiddlewareScanner.missing_packages r = [] /\
   MiddlewareScanner.recommended_packages r = [] /\
   MiddlewareScanner.configurationIssues r = []).
Proof.
  unfold MiddlewareScanner.scanMiddlewares.
  destruct (MiddlewareScanner.resolvePackages p) as [installed missing].
  destruct (MiddlewareScanner.analyseSession p installed); [|discriminate].
  intros [= <-]. cbv zeta.
  cbn [MiddlewareScanner.securityScore MiddlewareScanner.missing_count
       MiddlewareScanner.recommended_count MiddlewareScanner.configurationIssues
       MiddlewareScanner.missing_packages
       MiddlewareScanner.recommended_packages].
  unfold MiddlewareScanner.calculateSecurityScore. cbv zeta.
  split; [lia|].
  rewrite <- !length_zero_iff_nil. lia.
Qed.

Lemma middleware_score_formula_witness :
  let p := Examples.projectOf (Some MiddlewareExamples.helmetAndCors) [] in
  exists r,
    MiddlewareScanner.scanMiddlewares p = Some r /\
    MiddlewareScanner.securityScore r = 10 /\
    MiddlewareScanner.securityScore r
    = Z.max 0 (100 - 15 * MiddlewareScanner.missing_count r
               - 5 * MiddlewareScanner.recommended_count r
               - 10 * Z.of_nat (length (MiddlewareScanner.configurationIssues r)))
    /\
    (MiddlewareScanner.securityScore r = 100 <->
     MiddlewareScanner.missing_packages r = [] /\
     MiddlewareScanner.recommended_packages r = [] /\
     MiddlewareScanner.configurationIssues r = []).
Proof.
  intros p.
  assert (Hs : MiddlewareScanner.securityScore
                 <$> MiddlewareScanner.scanMiddlewares p = Some 10)
    by (vm_compute; reflexivity).
  destruct (MiddlewareScanner.scanMiddlewares p) as [r|] eqn:E; [|discriminate].
  exists r. split; [reflexivity|]. split; [now injection Hs|].
  exact (middleware_score_formula p r E).
Defined.

(** X13. The middleware scanner throws exactly when the manifest declares
    express-session and, in the first file of the corpus in which a
    call of session with an object is found, the matched text runs over
    a line break, so that the Match has no context to read the options
    from. *)
Theorem scan_middlewares_throws_iff (p : Project) :
  MiddlewareScanner.scanMiddlewares p = None <->
  (exists pj, packageJson p = Some pj /\
              hasDependency (spreadDependencies pj) "express-session" = true) /\
  exists f a,
    head (List.filter
            (fun f => RegExp.test MiddlewareScanner.sessionCall (content f))
            (findFiles p filePattern)) = Some f /\
    RegExp.exec MiddlewareScanner.sessionCall (content f) = Some a /\
    10%N ∈ RegExp.matched a.
Proof.
  unfold MiddlewareScanner.scanMiddlewares.
  destruct (packageJson p) as [pj|] eqn:Hpj.
  - pose proof (MiddlewareMore.resolvePackages_filter p pj Hpj) as Hres.
    destruct (MiddlewareScanner.resolvePackages p) as [installed missing].
    apply pair_equal_spec in Hres as [Hinstalled _].
    pose proof (MiddlewareMore.analyseSession_fails p installed) as Hiff.
    rewrite Hinstalled in Hiff at 2.
    rewrite (MiddlewareMore.session_installed
               (hasDependency (spreadDependencies pj))) in Hiff.
    destruct (MiddlewareScanner.analyseSession p installed).
    + split; [discriminate|]. intros [[pj' [Hpj' Hdecl]] Hrest].
      injection Hpj' as <-. destruct Hiff as [_ Hiff].
      discriminate Hiff. split; assumption.
    + split; [|reflexivity]. intros _.
      destruct Hiff as [Hiff _]. destruct (Hiff eq_refl) as [Hdecl Hrest].
      split; [exists pj; auto | exact Hrest].
  - unfold MiddlewareScanner.resolvePackages. rewrite Hpj.
    cbn [MiddlewareScanner.analyseSession existsb].
    split; [discriminate | intros [[pj [H _]] _]; discriminate].
Qed.

Lemma scan_middlewares_throws_iff_witness :
  MiddlewareScanner.scanMiddlewares MiddlewareExamples.sessionOnTwoLines = None.
Proof.
  apply scan_middlewares_throws_iff. split.
  - eexists. split; [reflexivity | vm_compute; reflexivity].
  - exists {| relativePath := "app.js";
              content := JS.str "app.use(session(" ++ [10%N]
                         ++ JS.str "{ secret: 'keyboard cat' }))" |},
           {| RegExp.index := 8;
              RegExp.matched := JS.str "session(" ++ [10%N] ++ JS.str "{";
              RegExp.captures := [] |}.
    split; [vm_compute; reflexivity|]. split; [vm_compute; reflexivity|].
    apply (list_elem_of_lookup_2 _ 8%nat). reflexivity.
Defined.

(** ** scanner/authScanner.js, continued *)

Module CollectFacts.

(** An issue is in the list exactly when it is built from a rule of the
    registry and a Match of that rule. *)
Lemma collectIssues_elem (p : Project) (rules : list Rule) (i : Issue) :
  i ∈ collectIssues p rules <->
  exists rule m,
    rule ∈ rules /\
    m ∈ findFilesWithPattern p filePattern (PRegExp (pattern rule)) /\
    i = mkIssue rule m.
Proof.
  rewrite ScannerFacts.collectIssues_flat, list_elem_of_In, in_flat_map. split.
  - intros [rule [Hrule Hi]]. apply in_map_iff in Hi as [m [<- Hm]].
    exists rule, m. rewrite !list_elem_of_In. auto.
  - intros [rule [m [Hrule [Hm ->]]]]. exists rule.
    rewrite <- list_elem_of_In. split; [exact Hrule|].
    apply in_map, list_elem_of_In, Hm.
Qed.

(** A file the pattern matches has a Match, and a Match is of a file
    the pattern matches. *)
Lemma match_of_test (p : Project) (g : string) (re : RegExp.t)
    (f : SourceFile) :
  f ∈ findFiles p g -> RegExp.test re (content f) = true ->
  exists m, m ∈ findFilesWithPattern p g (PRegExp re) /\
            file m = relativePath f.
Proof.
  intros Hf Ht.
  pose proof (MatcherFacts.step_regexp_length re f) as Hlen. rewrite Ht in Hlen.
  destruct (findFilesWithPattern_step (PRegExp re) [] f) as [|m ms] eqn:E;
    [discriminate|].
  assert (Hm : m ∈ findFilesWithPattern_step (PRegExp re) [] f)
    by (rewrite E; left).
  exists m. split.
  - apply MatcherMore.member_of_step. exists f. auto.
  - exact (MatcherFacts.step_regexp_file re f m Hm).
Qed.

Lemma test_of_match (p : Project) (g : string) (re : RegExp.t) (m : Match) :
  m ∈ findFilesWithPattern p g (PRegExp re) ->
  exists f, f ∈ findFiles p g /\ file m = relativePath f /\
            RegExp.test re (content f) = true.
Proof.
  intros Hm. apply MatcherMore.member_of_step in Hm as [f [Hf Hm]].
  exists f. split; [exact Hf|].
  split; [exact (MatcherFacts.step_regexp_file re f m Hm)|].
  pose proof (MatcherFacts.step_regexp_length re f) as Hlen.
  destruct (RegExp.test re (content f)); [reflexivity|].
  destruct (findFilesWithPattern_step (PRegExp re) [] f);
    [inversion Hm | discriminate].
Qed.

(** The matcher returns at most one Match for each file. *)
Lemma matches_at_most_files (p : Project) (g : string) (pat : ContentPattern) :
  (length (findFilesWithPattern p g pat) <= length (findFiles p g))%nat.
Proof.
  rewrite MatcherFacts.findFilesWithPattern_flat.
  induction (findFiles p g) as [|f files IH]; cbn [flat_map length]; [lia|].
  rewrite length_app.
  pose proof (f_equal length (MatcherMore.step_files pat f)) as Hlen.
  rewrite length_fmap in Hlen.
  destruct (FileUtilsMore.fileContainsPattern f pat); cbn in Hlen; lia.
Qed.

Lemma issues_at_most (p : Project) (rules : list Rule) :
  (length (collectIssues p rules)
   <= length rules * length (findFiles p filePattern))%nat.
Proof.
  rewrite ScannerFacts.collectIssues_flat.
  induction rules as [|rule rules IH]; cbn [flat_map length]; [lia|].
  rewrite length_app, length_map.
  pose proof (matches_at_most_files p filePattern (PRegExp (pattern rule))).
  lia.
Qed.

(** The issues of a rule whose pattern starts with a literal are on
    files for which the rule of the literal alone has an issue too. *)
Lemma literal_rule_reported (p : Project) (rules : list Rule)
    (rule short : Rule) (s : string) (R : RegExp.Regex) (m : Match) :
  short ∈ rules ->
  pattern rule = RegExp.icase (RegExp.RSeq (RegExp.lit s) R) ->
  pattern short = RegExp.icase (RegExp.lit s) ->
  m ∈ findFilesWithPattern p filePattern (PRegExp (pattern rule)) ->
  exists j, j ∈ collectIssues p rules /\ i_name j = name short /\
            i_severity j = severity short /\ i_file j = file m.
Proof.
  intros Hshort Hrule Hpat Hm.
  apply test_of_match in Hm as [f [Hf [Hfile Ht]]].
  rewrite Hrule in Ht. apply CorsMore.literal_prefix in Ht.
  change {| RegExp.source := RegExp.lit s; RegExp.ignoreCase := true |}
    with (RegExp.icase (RegExp.lit s)) in Ht.
  rewrite <- Hpat in Ht.
  destruct (match_of_test p filePattern _ f Hf Ht) as [m' [Hm' Hfile']].
  exists (mkIssue short m'). split.
  - apply collectIssues_elem. exists short, m'. auto.
  - cbn. repeat split. congruence.
Qed.

End CollectFacts.

Module AuthMore.
Import AuthScanner.

Lemma auth_packages_filter (p : Project) (pj : PackageJson) :
  packageJson p = Some pj ->
  resolvePackages p
  = (List.filter (hasDependency (spreadDependencies pj)) recommendedPackages,
     List.filter (fun pkg => negb (hasDependency (spreadDependencies pj) pkg))
       recommendedPackages).
Proof.
  intros H. unfold resolvePackages. rewrite H. cbv zeta.
  exact (MiddlewareMore.foldl_partition _ recommendedPackages [] []).
Qed.

Lemma filter_partition_length {A} (f : A -> bool) (l : list A) :
  (length (List.filter f l) + length (List.filter (fun x => negb (f x)) l)
   = length l)%nat.
Proof.
  induction l as [|x l IH]; cbn [List.filter length]; [reflexivity|].
  destruct (f x); cbn [negb length]; lia.
Qed.

(** The rule of an issue that carries one of the two names. *)
Lemma jwt_rule (rule : Rule) :
  rule ∈ authPatterns ->
  name rule = "Clé secrète JWT faible" \/ name rule = "Expiration manquante" ->
  exists R, pattern rule = RegExp.icase (RegExp.RSeq (RegExp.lit "jwt.sign(") R).
Proof.
  unfold authPatterns. rewrite !elem_of_cons, elem_of_nil.
  intros [->|[->|[->|[->|[->|[->|[->|[->|[->|[]]]]]]]]]] [H|H];
    try (cbn [name] in H; discriminate H);
    eexists; reflexivity.
Qed.

End AuthMore.

(** X14. The authentication scanner reports at most one issue for each
    rule and file, so at most nine authentication and four authorization
    issues for each file, and its total is the sum of the two lists;
    with a manifest, each of the ten recommended packages is either
    installed or recommended, in the order of the list. *)
Theorem auth_result_shape (p : Project) :
  let r := AuthScanner.scanAuthentication p in
  let files := Z.of_nat (length (findFiles p filePattern)) in
  AuthScanner.total r
  = Z.of_nat (length (AuthScanner.auth r))
    + Z.of_nat (length (AuthScanner.authorization r)) /\
  Z.of_nat (length (AuthScanner.auth r)) <= 9 * files /\
  Z.of_nat (length (AuthScanner.authorization r)) <= 4 * files /\
  forall pj, packageJson p = Some pj ->
    AuthScanner.packages_installed r
    = List.filter (hasDependency (spreadDependencies pj))
        AuthScanner.recommendedPackages /\
    AuthScanner.packages_recommended r
    = List.filter (fun pkg => negb (hasDependency (spreadDependencies pj) pkg))
        AuthScanner.recommendedPackages /\
    (length (AuthScanner.packages_installed r)
     + length (AuthScanner.packages_recommended r) = 10)%nat.
Proof.
  cbv zeta. unfold AuthScanner.scanAuthentication. cbv zeta.
  pose proof (CollectFacts.issues_at_most p AuthScanner.authPatterns) as Ha.
  pose proof (CollectFacts.issues_at_most p AuthScanner.authorizationPatterns)
    as Hz.
  change (length AuthScanner.authPatterns) with 9%nat in Ha.
  change (length AuthScanner.authorizationPatterns) with 4%nat in Hz.
  destruct (AuthScanner.resolvePackages p) as [installed missing] eqn:Hres.
  cbn [AuthScanner.total AuthScanner.auth AuthScanner.authorization
       AuthScanner.packages_installed AuthScanner.packages_recommended].
  split; [reflexivity|]. split; [lia|]. split; [lia|].
  intros pj Hpj. rewrite (AuthMore.auth_packages_filter p pj Hpj) in Hres.
  apply pair_equal_spec in Hres as [<- <-].
  split; [reflexivity|]. split; [reflexivity|].
  exact (AuthMore.filter_partition_length _ AuthScanner.recommendedPackages).
Qed.

Lemma auth_result_shape_witness :
  let r := AuthScanner.scanAuthentication AuthExamples.shortSecret in
  AuthScanner.total r = 2 /\
  AuthScanner.packages_installed r = ["jsonwebtoken"] /\
  (length (AuthScanner.packages_installed r)
   + length (AuthScanner.packages_recommended r) = 10)%nat.
Proof.
  split; [vm_compute; reflexivity|]. split; [vm_compute; reflexivity|].
  destruct (proj2 (proj2 (proj2 (auth_result_shape AuthExamples.shortSecret)))
              _ eq_refl) as [_ [_ H]].
  exact H.
Defined.

(** X15. A file for which the authentication scanner reports a weak JWT
    secret or a missing expiration is also reported for the rule 'JWT
    non vérifié', whose pattern is the literal both patterns start
    with: the same call of jwt.sign is counted twice or three times. *)
Theorem jwt_issues_come_with_sign_issue (p : Project) (i : Issue) :
  i ∈ AuthScanner.auth (AuthScanner.scanAuthentication p) ->
  i_name i = "Clé secrète JWT faible" \/ i_name i = "Expiration manquante" ->
  exists j,
    j ∈ AuthScanner.auth (AuthScanner.scanAuthentication p) /\
    i_name j = "JWT non vérifié" /\ i_severity j = LOW /\
    i_file j = i_file i.
Proof.
  unfold AuthScanner.scanAuthentication. cbv zeta.
  destruct (AuthScanner.resolvePackages p) as [installed missing].
  cbn [AuthScanner.auth]. intros Hi Hname.
  apply CollectFacts.collectIssues_elem in Hi as [rule [m [Hrule [Hm ->]]]].
  cbn [mkIssue i_name i_file] in *.
  destruct (AuthMore.jwt_rule rule Hrule Hname) as [R HR].
  assert (Hshort : exists short,
             short ∈ AuthScanner.authPatterns /\
             name short = "JWT non vérifié" /\ severity short = LOW /\
             pattern short = RegExp.icase (RegExp.lit "jwt.sign(")).
  { eexists. split; [do 3 right; left|]. repeat split. }
  destruct Hshort as [short [Hin [Hn [Hsev Hpat]]]].
  destruct (CollectFacts.literal_rule_reported p _ rule short _ R m
              Hin HR Hpat Hm) as [j [Hj [Hjn [Hjs Hjf]]]].
  exists j. rewrite <- Hn, <- Hsev. auto.
Qed.

Lemma jwt_issues_come_with_sign_issue_witness :
  let i := AuthExamples.weakSecretIssue in
  let r := AuthScanner.scanAuthentication AuthExamples.shortSecret in
  i ∈ AuthScanner.auth r /\
  exists j, j ∈ AuthScanner.auth r /\ i_name j = "JWT non vérifié" /\
            i_severity j = LOW /\ i_file j = i_file i.
Proof.
  intros i r.
  assert (Hi : i ∈ AuthScanner.auth r) by (vm_compute; right; left).
  split; [exact Hi|].
  exact (jwt_issues_come_with_sign_issue AuthExamples.shortSecret i Hi
           (or_introl eq_refl)).
Defined.

(** ** scanner/dependencyScanner.js, continued *)

Module BestPracticesFacts.
Import BestPractices BestPracticesProps.

(** The tests throw on the values that lack the method. *)
Lemma isUnpinned_none (v : Json) :
  isUnpinned v = None <-> forall s, v <> JString s.
Proof.
  destruct v as [s|items|]; cbn; split; try discriminate; try reflexivity.
  intros H. destruct (H s eq_refl).
Qed.

Lemma isComplex_none (v : Json) : isComplex v = None <-> v = JOther.
Proof.
  destruct v as [s|items|]; unfold isComplex; cbn [includes].
  - split; [|discriminate].
    destruct (JS.includes s (JS.str "&&")); [discriminate|].
    destruct (JS.includes s (JS.str "||")); discriminate.
  - split; [|discriminate].
    destruct (existsb _ items); [discriminate|].
    destruct (existsb _ items); discriminate.
  - split; reflexivity.
Qed.

Lemma entries_thrown (step : option (list BestPracticeIssue) -> list N * Json ->
                          option (list BestPracticeIssue))
    (l : list (list N * Json)) :
  (forall e, step None e = None) -> foldl step None l = None.
Proof.
  intros H. induction l as [|e l IH]; cbn [foldl]; [reflexivity|].
  now rewrite H.
Qed.

(** The loop over the entries of [dependencies]. *)
Lemma version_loop (l : list (list N * Json)) (acc : list BestPracticeIssue) :
  match foldl checkVersion (Some acc) l with
  | Some out =>
      out = acc ++ List.map versionIssue (List.filter unpinned l) /\
      forall e, e ∈ l -> isUnpinned e.2 <> None
  | None => exists e, e ∈ l /\ isUnpinned e.2 = None
  end.
Proof.
  revert acc. induction l as [|[dep version] l IH]; intros acc;
    cbn [foldl List.filter List.map].
  - rewrite app_nil_r. split; [reflexivity|]. intros e He. inversion He.
  - unfold unpinned at 1. cbn [checkVersion fst snd].
    destruct version as [text|items|]; cbn [isUnpinned default from_option].
    + destruct (JS.startsWith text (JS.str "^")
                || JS.startsWith text (JS.str "~")) eqn:E; cbn [id].
      * specialize (IH (acc ++ [UnpinnedVersion dep text (pinSolution dep text)])).
        destruct (foldl checkVersion _ l) as [out|].
        -- destruct IH as [-> IH]. split.
           ++ cbn [List.map]. rewrite <- app_assoc. reflexivity.
           ++ intros e He. apply elem_of_cons in He as [->|He];
                [discriminate | exact (IH e He)].
        -- destruct IH as [e [He Hn]]. exists e. split; [now right | exact Hn].
      * specialize (IH acc). destruct (foldl checkVersion _ l) as [out|].
        -- destruct IH as [-> IH]. split; [reflexivity|].
           intros e He. apply elem_of_cons in He as [->|He];
             [discriminate | exact (IH e He)].
        -- destruct IH as [e [He Hn]]. exists e. split; [now right | exact Hn].
    + rewrite entries_thrown by (intros [d v]; reflexivity).
      exists (dep, JArray items). split; [left | reflexivity].
    + rewrite entries_thrown by (intros [d v]; reflexivity).
      exists (dep, JOther). split; [left | reflexivity].
Qed.

(** The loop over the entries of [scripts]. *)
Lemma script_loop (l : list (list N * Json)) (acc : list BestPracticeIssue) :
  match foldl checkScript (Some acc) l with
  | Some out =>
      out = acc ++ List.map scriptIssue (List.filter complex l) /\
      forall e, e ∈ l -> isComplex e.2 <> None
  | None => exists e, e ∈ l /\ isComplex e.2 = None
  end.
Proof.
  revert acc. induction l as [|[name cmd] l IH]; intros acc;
    cbn [foldl List.filter List.map].
  - rewrite app_nil_r. split; [reflexivity|]. intros e He. inversion He.
  - unfold complex at 1. cbn [checkScript fst snd].
    destruct (isComplex cmd) as [[|]|] eqn:E; cbn [default from_option id].
    + specialize (IH (acc ++ [ComplexScript name cmd])).
      destruct (foldl checkScript _ l) as [out|].
      * destruct IH as [-> IH]. split.
        -- cbn [List.map]. rewrite <- app_assoc. reflexivity.
        -- intros e He. apply elem_of_cons in He as [->|He];
             [cbn [snd]; congruence | exact (IH e He)].
      * destruct IH as [e [He Hn]]. exists e. split; [now right | exact Hn].
    + specialize (IH acc). destruct (foldl checkScript _ l) as [out|].
      * destruct IH as [-> IH]. split; [reflexivity|].
        intros e He. apply elem_of_cons in He as [->|He];
          [cbn [snd]; congruence | exact (IH e He)].
      * destruct IH as [e [He Hn]]. exists e. split; [now right | exact Hn].
    + rewrite entries_thrown by (intros [d v]; reflexivity).
      exists (name, cmd). split; [left | exact E].
Qed.

(** The check as a whole: what it returns, and when it throws. *)
Lemma check_cases (m : Manifest) :
  let dependencies := default [] (m_dependencies m) in
  let scripts := default [] (m_scripts m) in
  match checkDependencyBestPractices m with
  | Some r =>
      issues r = List.map versionIssue (List.filter unpinned dependencies)
                 ++ List.map scriptIssue (List.filter complex scripts) /\
      count r = Z.of_nat (length (issues r)) /\
      (forall e, e ∈ dependencies -> isUnpinned e.2 <> None) /\
      (forall e, e ∈ scripts -> isComplex e.2 <> None)
  | None =>
      (exists e, e ∈ dependencies /\ isUnpinned e.2 = None) \/
      (exists e, e ∈ scripts /\ isComplex e.2 = None)
  end.
Proof.
  cbv zeta. unfold checkDependencyBestPractices. cbv zeta.
  assert (Hnil : forall (f : Json -> option bool) (e : list N * Json),
             e ∈ @nil (list N * Json) -> f e.2 <> None)
    by (intros f e He; inversion He).
  destruct (m_dependencies m) as [deps|]; cbn [default from_option id].
  - pose proof (version_loop deps []) as Hv.
    destruct (foldl checkVersion (Some []) deps) as [out|].
    + destruct Hv as [-> Hv]. cbn [app].
      destruct (m_scripts m) as [scripts|]; cbn [default from_option id].
      * pose proof (script_loop scripts
                      (List.map versionIssue (List.filter unpinned deps))) as Hs.
        destruct (foldl checkScript _ scripts) as [out|].
        -- destruct Hs as [-> Hs]. cbn [issues count]. auto.
        -- now right.
      * cbn [issues count List.filter List.map]. rewrite app_nil_r.
        repeat split; auto; apply Hnil.
    + destruct (m_scripts m) as [scripts|]; cbn [default from_option id].
      * rewrite entries_thrown by (intros [d v]; reflexivity). now left.
      * now left.
  - destruct (m_scripts m) as [scripts|]; cbn [default from_option id].
    + pose proof (script_loop scripts []) as Hs.
      destruct (foldl checkScript (Some []) scripts) as [out|].
      * destruct Hs as [-> Hs]. cbn [issues count app List.filter List.map].
        repeat split; auto; apply Hnil.
      * now right.
    + cbn [issues count List.filter List.map app]. repeat split; auto; apply Hnil.
Qed.

(** A version is unpinned when it is a string whose first code unit is
    the caret or the tilde. *)
Lemma isUnpinned_spec (version : Json) :
  isUnpinned version = Some true <->
  exists c rest, version = JString (c :: rest) /\ (c = 94%N \/ c = 126%N).
Proof.
  destruct version as [text|items|]; cbn [isUnpinned];
    [|split; [discriminate | intros [c [rest [H _]]]; discriminate]..].
  split.
  - intros H. assert (H' : JS.startsWith text (JS.str "^")
                           || JS.startsWith text (JS.str "~") = true)
      by congruence.
    clear H. apply orb_true_iff in H' as [H|H];
      apply JSFacts.startsWith_spec in H as [post ->]; eexists _, post;
      (split; [reflexivity|]); [now left | now right].
  - intros [c [rest [[= ->] [->| ->]]]]; reflexivity.
Qed.

(** The membership test of an array of commands. *)
Lemma includes_array (items : list Json) (s : list N) :
  includes (JArray items) s = Some true <-> JString s ∈ items.
Proof.
  cbn [includes]. split.
  - intros H. assert (H' : existsb (fun item => match item with
                                                | JString x => bool_decide (x = s)
                                                | JArray _ | JOther => false
                                                end) items = true)
      by congruence.
    apply existsb_exists in H' as [item [Hin Hx]].
    destruct item as [x| |]; try discriminate.
    apply bool_decide_eq_true in Hx as ->. now apply list_elem_of_In.
  - intros Hin. f_equal. apply existsb_exists. exists (JString s).
    split; [now apply list_elem_of_In | now apply bool_decide_eq_true].
Qed.

Lemma complex_array (name : list N) (items : list Json) :
  complex (name, JArray items) = true <->
  JString (JS.str "&&") ∈ items \/ JString (JS.str "||") ∈ items \/
  JString (JS.str ";") ∈ items.
Proof.
  rewrite <- !includes_array. unfold complex, isComplex. cbn [snd].
  destruct (includes (JArray items) (JS.str "&&")) as [[|]|] eqn:E1;
    cbn [default from_option id].
  - split; auto.
  - destruct (includes (JArray items) (JS.str "||")) as [[|]|] eqn:E2;
      cbn [default from_option id].
    + split; auto.
    + destruct (includes (JArray items) (JS.str ";")) as [[|]|] eqn:E3;
        cbn [default from_option id];
        [split; auto
        |split; [discriminate | intros [H|[H|H]]; discriminate]
        |discriminate E3].
    + discriminate E2.
  - discriminate E1.
Qed.

End BestPracticesFacts.

(** X16. With a manifest, the promise of scanDependencies is rejected
    exactly when checkDependencyBestPractices throws, on a version that
    is not a string or on a script that is neither a string nor an
    array, or when npm audit succeeded with undefined metadata.
    Otherwise scanDependencies returns a report.  Its score is not a
    number exactly when the audit succeeded without reporting one of the
    four counts the score reads, and else it is 100 minus the deductions
    of the audit and of the outdated packages, clamped to [0,100].  A
    tool that fails costs nothing: when both npm audit and npm outdated
    fail the score is 100. *)
Theorem dependency_score_cases
    (p : Project) (pj : PackageJson) (a : DependencyScanner.AuditAnalysis)
    (o : DependencyScanner.OutdatedAnalysis) :
  packageJson p = Some pj ->
  (DependencyScanner.scanDependencies p a o = None <->
   (exists e, e ∈ default [] (m_dependencies (entries pj)) /\
              forall s, e.2 <> JString s) \/
   (exists e, e ∈ default [] (m_scripts (entries pj)) /\ e.2 = JOther) \/
   (exists details, a = DependencyScanner.AuditSuccess None details)) /\
  (forall r,
     DependencyScanner.scanDependencies p a o = Some r ->
     exists au s,
       r = DependencyScanner.Report au o s /\
       (s = JS.NaN <-> ~ Spec.auditCounted a) /\
       (Spec.auditCounted a ->
        s = JS.Int (Z.max 0 (Z.min 100
              (100 - DependencyProps.auditDeduction a
               - DependencyProps.outdatedDeduction o)))) /\
       (forall e e', a = DependencyScanner.AuditFailure e ->
                     o = DependencyScanner.OutdatedFailure e' ->
                     au = DependencyScanner.AuditError e /\ s = JS.Int 100)).
Proof.
  intros Hpj. unfold DependencyScanner.scanDependencies. rewrite Hpj.
  pose proof (BestPracticesFacts.check_cases (entries pj)) as Hbp.
  cbv zeta in Hbp. split.
  - destruct (BestPractices.checkDependencyBestPractices (entries pj))
      as [bp|].
    + destruct Hbp as (_ & _ & Hd & Hs).
      assert (Hno : ~ ((exists e, e ∈ default [] (m_dependencies (entries pj)) /\
                                  forall s, e.2 <> JString s) \/
                       (exists e, e ∈ default [] (m_scripts (entries pj)) /\
                                  e.2 = JOther))).
      { intros [[e [He Hn]]|[e [He Hn]]].
        - apply BestPracticesFacts.isUnpinned_none in Hn. exact (Hd e He Hn).
        - apply BestPracticesFacts.isComplex_none in Hn. exact (Hs e He Hn). }
      destruct a as [[md|] n|e]; cbv zeta.
      * split; [discriminate|].
        intros [H|[H|[d H]]]; [destruct Hno; auto.. | discriminate].
      * split; [intros _; right; right; eauto | reflexivity].
      * split; [discriminate|].
        intros [H|[H|[d H]]]; [destruct Hno; auto.. | discriminate].
    + split; [intros _|reflexivity].
      destruct Hbp as [[e [He Hn]]|[e [He Hn]]];
        [left | right; left]; exists e; (split; [exact He|]).
      * now apply BestPracticesFacts.isUnpinned_none.
      * now apply BestPracticesFacts.isComplex_none.
  - clear Hbp.
    destruct (BestPractices.checkDependencyBestPractices (entries pj))
      as [bp|]; [|discriminate].
    intros r. unfold DependencyScanner.report. cbv zeta.
    destruct a as [[md|] n|e];
      cbn [Spec.auditCounted DependencyProps.auditDeduction];
      [| discriminate |]; intros [= <-]; eexists _, _;
      (split; [reflexivity|]).
    + assert (Hnone : forall x : option Z, is_Some x -> x <> None)
        by (intros x [y ->]; discriminate).
      destruct (md !! "critical") as [c|] eqn:Ec;
        [|split; [split; [intros _ (H & _); exact (Hnone _ H eq_refl)
                         |intros _; destruct o; reflexivity]
                 |split; [intros (H & _); destruct (Hnone _ H eq_refl)
                         |intros e1 e2 H; discriminate H]]].
      destruct (md !! "high") as [h|] eqn:Eh;
        [|split; [split; [intros _ (_ & H & _); exact (Hnone _ H eq_refl)
                         |intros _; destruct o; reflexivity]
                 |split; [intros (_ & H & _); destruct (Hnone _ H eq_refl)
                         |intros e1 e2 H; discriminate H]]].
      destruct (md !! "moderate") as [m|] eqn:Em;
        [|split; [split; [intros _ (_ & _ & H & _); exact (Hnone _ H eq_refl)
                         |intros _; destruct o; reflexivity]
                 |split; [intros (_ & _ & H & _); destruct (Hnone _ H eq_refl)
                         |intros e1 e2 H; discriminate H]]].
      destruct (md !! "low") as [l|] eqn:El;
        [|split; [split; [intros _ (_ & _ & _ & H); exact (Hnone _ H eq_refl)
                         |intros _; destruct o; reflexivity]
                 |split; [intros (_ & _ & _ & H); destruct (Hnone _ H eq_refl)
                         |intros e1 e2 H; discriminate H]]].
      cbn [DependencyScanner.times DependencyScanner.minus default].
      split; [split; [destruct o; discriminate|]|].
      * intros H. exfalso. apply H. repeat split; eexists; reflexivity.
      * split; [|intros e1 e2 H; discriminate H].
        intros _. destruct o as [out|e'];
          cbn [DependencyScanner.minus DependencyScanner.clamp
               DependencyProps.outdatedDeduction]; unfold id; f_equal; lia.
    + split; [split; [destruct o; discriminate | intros H; destruct (H I)]|].
      split.
      * intros _. destruct o as [out|e'];
          cbn [DependencyScanner.minus DependencyScanner.clamp
               DependencyProps.outdatedDeduction]; f_equal; lia.
      * intros e1 e2 H1 H2. injection H1 as <-. rewrite H2.
        split; reflexivity.
Qed.

Lemma dependency_score_cases_witness :
  packageJson DependencyExamples.versionAsNumber
  = Some {| dependencies := Some {[ "express" := "^4.18.2" ]};
            devDependencies := None;
            entries := DependencyExamples.numericVersion |} /\
  DependencyScanner.scanDependencies DependencyExamples.versionAsNumber
    Examples.heavyAudit (DependencyScanner.OutdatedSuccess []) = None /\
  packageJson Examples.bareManifest = Some Examples.emptyDependencies /\
  DependencyScanner.scanDependencies Examples.bareManifest
    (DependencyScanner.AuditSuccess None 0)
    (DependencyScanner.OutdatedSuccess []) = None /\
  exists au,
    DependencyScanner.scanDependencies Examples.bareManifest
      (DependencyScanner.AuditSuccess
         (Some {[ "critical" := 1; "high" := 2 ]}) 3)
      (DependencyScanner.OutdatedFailure "npm outdated failed")
    = Some (DependencyScanner.Report au
              (DependencyScanner.OutdatedFailure "npm outdated failed")
              JS.NaN).
Proof.
  split; [reflexivity|]. split.
  { apply (proj1 (dependency_score_cases DependencyExamples.versionAsNumber _
                    Examples.heavyAudit (DependencyScanner.OutdatedSuccess [])
                    eq_refl)).
    left. exists (JS.str "left-pad", JOther).
    split; [right; left | intros s; discriminate]. }
  split; [reflexivity|]. split.
  { apply (proj1 (dependency_score_cases Examples.bareManifest _
                    (DependencyScanner.AuditSuccess None 0)
                    (DependencyScanner.OutdatedSuccess []) eq_refl)).
    right. right. exists 0%nat. reflexivity. }
  destruct (DependencyScanner.scanDependencies Examples.bareManifest
              (DependencyScanner.AuditSuccess
                 (Some {[ "critical" := 1; "high" := 2 ]}) 3)
              (DependencyScanner.OutdatedFailure "npm outdated failed"))
    as [r|] eqn:E; [|vm_compute in E; discriminate].
  destruct (proj2 (dependency_score_cases Examples.bareManifest _
                     (DependencyScanner.AuditSuccess
                        (Some {[ "critical" := 1; "high" := 2 ]}) 3)
                     (DependencyScanner.OutdatedFailure "npm outdated failed")
                     eq_refl) r E)
    as [au [s [-> [Hnan _]]]].
  exists au. do 3 f_equal.
  apply Hnan. intros (_ & _ & [x Hx] & _). vm_compute in Hx. discriminate Hx.
Defined.

(** X20. checkDependencyBestPractices throws exactly when [dependencies]
    holds a version that is not a string, or [scripts] a command that is
    neither a string nor an array.  Otherwise its issues are, in this
    order and without repetition of an entry, one for each entry of
    [dependencies] whose version starts with a caret or a tilde, in the
    order of the manifest, with the version without its first character
    in the solution, and then one for each entry of [scripts] whose
    command holds a double ampersand, a double bar or a semicolon (as a
    substring of a string, as an element of an array), in the order of
    the manifest; [count] is their number.  The first are LOW, the second
    INFO. *)
Theorem best_practices_report (m : Manifest) :
  let dependencies := default [] (m_dependencies m) in
  let scripts := default [] (m_scripts m) in
  (BestPractices.checkDependencyBestPractices m = None <->
   (exists e, e ∈ dependencies /\ forall s, e.2 <> JString s) \/
   (exists e, e ∈ scripts /\ e.2 = JOther)) /\
  (forall r,
     BestPractices.checkDependencyBestPractices m = Some r ->
     BestPractices.issues r
     = List.map BestPracticesProps.versionIssue
         (List.filter BestPracticesProps.unpinned dependencies)
       ++ List.map BestPracticesProps.scriptIssue
            (List.filter BestPracticesProps.complex scripts) /\
     BestPractices.count r
     = Z.of_nat (length (List.filter BestPracticesProps.unpinned dependencies))
       + Z.of_nat (length (List.filter BestPracticesProps.complex scripts))) /\
  (forall e,
     (BestPracticesProps.unpinned e = true <->
      exists c rest, e.2 = JString (c :: rest) /\ (c = 94%N \/ c = 126%N)) /\
     BestPractices.b_severity (BestPracticesProps.versionIssue e) = LOW /\
     BestPractices.b_severity (BestPracticesProps.scriptIssue e) = INFO) /\
  (forall name command,
     BestPracticesProps.complex (name, JString command)
     = JS.includes command (JS.str "&&") || JS.includes command (JS.str "||")
       || JS.includes command (JS.str ";")) /\
  (forall name items,
     BestPracticesProps.complex (name, JArray items) = true <->
     JString (JS.str "&&") ∈ items \/ JString (JS.str "||") ∈ items \/
     JString (JS.str ";") ∈ items).
Proof.
  cbv zeta.
  pose proof (BestPracticesFacts.check_cases m) as H. cbv zeta in H.
  split; [|split; [|split; [|split]]];
    [| | | |exact BestPracticesFacts.complex_array].
  - destruct (BestPractices.checkDependencyBestPractices m) as [r|].
    + destruct H as (_ & _ & Hd & Hs). split; [discriminate|].
      intros [[e [He Hn]]|[e [He Hn]]]; exfalso.
      * apply BestPracticesFacts.isUnpinned_none in Hn. exact (Hd e He Hn).
      * apply BestPracticesFacts.isComplex_none in Hn. exact (Hs e He Hn).
    + split; [intros _|reflexivity].
      destruct H as [[e [He Hn]]|[e [He Hn]]]; [left|right]; exists e;
        (split; [exact He|]).
      * now apply BestPracticesFacts.isUnpinned_none.
      * now apply BestPracticesFacts.isComplex_none.
  - intros r Hr. rewrite Hr in H. destruct H as (Hi & Hc & _).
    split; [exact Hi|].
    rewrite Hc, Hi, length_app, !length_map. lia.
  - intros e. split; [|split; reflexivity].
    rewrite <- BestPracticesFacts.isUnpinned_spec.
    unfold BestPracticesProps.unpinned.
    destruct (BestPractices.isUnpinned e.2) as [[|]|]; cbn;
      split; congruence.
  - intros name command. unfold BestPracticesProps.complex.
    cbn [snd BestPractices.isComplex BestPractices.includes].
    destruct (JS.includes command (JS.str "&&")); [reflexivity|].
    destruct (JS.includes command (JS.str "||")); reflexivity.
Qed.

Lemma best_practices_report_witness :
  BestPractices.checkDependencyBestPractices DependencyExamples.numericVersion
  = None /\
  exists r,
    BestPractices.checkDependencyBestPractices
      DependencyExamples.rangesAndScripts = Some r /\
    BestPractices.issues r
    = [ BestPractices.UnpinnedVersion (JS.str "express") (JS.str "^4.18.2")
          (BestPractices.pinSolution (JS.str "express") (JS.str "^4.18.2"));
        BestPractices.UnpinnedVersion (JS.str "debug") (JS.str "~4.3.4")
          (BestPractices.pinSolution (JS.str "debug") (JS.str "~4.3.4"));
        BestPractices.ComplexScript (JS.str "build")
          (JString (JS.str "tsc && node dist/index.js")) ] /\
    BestPractices.count r = 3.
Proof.
  split.
  - apply (proj1 (best_practices_report DependencyExamples.numericVersion)).
    left. exists (JS.str "left-pad", JOther).
    split; [right; left | intros s; discriminate].
  - destruct (BestPractices.checkDependencyBestPractices
                DependencyExamples.rangesAndScripts) as [r|] eqn:E;
      [|vm_compute in E; discriminate].
    exists r. split; [reflexivity|].
    destruct (proj1 (proj2 (best_practices_report
                              DependencyExamples.rangesAndScripts)) r E)
      as [-> ->].
    split; vm_compute; reflexivity.
Defined.

(** ** scanner/reportGenerator.js, continued *)

Module ReportMore.
Import ReportGenerator Spec.

Lemma all_zero (l : list Z) :
  Forall (fun z => 0 <= z) l ->
  (Forall (fun z => z = 0) l <-> sumZ l = 0).
Proof.
  unfold sumZ. induction 1 as [|x l Hx Hl IH]; cbn [foldr].
  - split; [reflexivity | constructor].
  - assert (Hsum : 0 <= foldr Z.add 0 l).
    { clear IH. induction Hl as [|y l Hy Hl IH]; cbn [foldr]; lia. }
    split.
    + intros H. inversion H as [|? ? -> H']; subst. apply IH in H'. lia.
    + intros H. constructor; [lia|]. apply IH. lia.
Qed.

End ReportMore.

(** X17. With counts that are not negative, as the scanners produce
    them, the composite score is 100 exactly when every count it reads
    is zero: no finding that the score reads is lost in the rounding. *)
Theorem full_composite_score (r : ReportGenerator.Results) :
  let c := Spec.countsOf r in
  Forall (fun z => 0 <= z) (Spec.cappedCounts c ++ Spec.uncappedCounts c) ->
  (ReportGenerator.calculateSecurityScore r = 100 <->
   Forall (fun z => z = 0) (Spec.cappedCounts c ++ Spec.uncappedCounts c)).
Proof.
  cbv zeta. intros Hpos.
  rewrite ScoreFacts.calculateSecurityScore_closed.
  rewrite (ReportMore.all_zero _ Hpos).
  unfold Spec.cappedCounts, Spec.uncappedCounts in *.
  cbn [app] in *. unfold Spec.sumZ. cbn [foldr].
  rewrite !Forall_cons in Hpos. destruct_and!.
  unfold Spec.twiceDeductions.
  split; intros Hscore; Z.div_mod_to_equations; lia.
Qed.

Lemma full_composite_score_witness :
  let c := Spec.countsOf Examples.noFindings in
  Forall (fun z => 0 <= z) (Spec.cappedCounts c ++ Spec.uncappedCounts c) /\
  ReportGenerator.calculateSecurityScore Examples.noFindings = 100.
Proof.
  intros c.
  assert (Hpos : Forall (fun z => 0 <= z)
                   (Spec.cappedCounts c ++ Spec.uncappedCounts c))
    by (vm_compute; repeat constructor; discriminate).
  split; [exact Hpos|].
  apply (full_composite_score Examples.noFindings Hpos).
  vm_compute. repeat constructor.
Defined.

(** X18. The rating that the report prints with the composite score is
    fixed by the deductions: Excellent up to 10.5 points of deductions,
    Bon up to 30.5, Moyen up to 50.5, Mauvais up to 70.5 and Critique
    above, each with its colour. *)
Theorem rating_by_deductions (r : ReportGenerator.Results) :
  let twice := Spec.twiceDeductions (Spec.countsOf r) in
  ReportSummary.rating r
  = if twice <=? 21
    then {| ReportSummary.color := "#00CC66";
            ReportSummary.text := "Excellent" |}
    else if twice <=? 61
    then {| ReportSummary.color := "#3366FF"; ReportSummary.text := "Bon" |}
    else if twice <=? 101
    then {| ReportSummary.color := "#FF9933"; ReportSummary.text := "Moyen" |}
    else if twice <=? 141
    then {| ReportSummary.color := "#FF3333"; ReportSummary.text := "Mauvais" |}
    else {| ReportSummary.color := "#FF0000";
            ReportSummary.text := "Critique" |}.
Proof.
  cbv zeta. unfold ReportSummary.rating. cbv zeta.
  rewrite ScoreFacts.calculateSecurityScore_closed.
  unfold ReportSummary.getScoreInfo.
  set (twice := Spec.twiceDeductions (Spec.countsOf r)).
  repeat match goal with
         | |- context [?a <=? ?b] => destruct (Z.leb_spec a b)
         end;
    try reflexivity; exfalso; Z.div_mod_to_equations; lia.
Qed.

(** X19. For the results of a run, the total that the summary of the
    report announces is the total that index.js prints and stores in
    the statistics; the seven counts that the sentence lists add up to
    that total less the cookie issues, which are counted but not
    listed. *)
Theorem report_total_is_run_total
    (dependencies : DependencyScanner.Result)
    (secrets : SecretScanner.Result)
    (middlewares : MiddlewareScanner.Result)
    (cors : CorsScanner.Result)
    (rateLimit : RateLimitScanner.Result)
    (sqlInjection : SqlInjectionScanner.Result)
    (auth : AuthScanner.Result)
    (inputValidation : InputValidationScanner.Result)
    (csrf : CsrfScanner.Result)
    (cookies : CookieScanner.Result)
    (time : string) :
  let results :=
    Index.results dependencies secrets middlewares cors rateLimit sqlInjection
      auth inputValidation csrf cookies time in
  let issues := ReportSummary.issuesOf results in
  ReportSummary.announcedTotal issues
  = ReportGenerator.totalIssues (ReportGenerator.stats results) /\
  Spec.sumZ (ReportSummary.listedCounts issues)
  = ReportSummary.announcedTotal issues - CookieScanner.total cookies.
Proof.
  cbv zeta. unfold Index.results, Index.vulnCount, ReportSummary.issuesOf,
    ReportSummary.announcedTotal, ReportSummary.listedCounts, Spec.sumZ.
  cbn [ReportGenerator.stats ReportGenerator.totalIssues
       ReportGenerator.dependencies ReportGenerator.secrets
       ReportGenerator.middlewares ReportGenerator.auth
       ReportGenerator.sqlInjection ReportGenerator.inputValidation
       ReportGenerator.csrf ReportGenerator.cookies from_option foldl foldr
       ReportSummary.i_dependencies ReportSummary.i_secrets
       ReportSummary.i_middlewares ReportSummary.i_auth
       ReportSummary.i_sqlInjection ReportSummary.i_inputValidation
       ReportSummary.i_csrf ReportSummary.i_cookies].
  assert (Hempty : Index.sumValues ∅ = 0) by reflexivity.
  destruct dependencies as [e|[v n|e] o s]; rewrite ?Hempty; lia.
Qed.

(** ** scanner/secretScanner.js, continued *)

Module SecretFacts.
Import SecretScan SecretProps.

Lemma step_cases (def : SecretDef)
    (acc : list SecretScanner.Secret * list (list N)) (m : Match) :
  (isExcluded (file m) = false /\ isEnvVar def = false /\
   scanSecrets_step def acc m = (acc.1 ++ [secretOf def m], acc.2)) \/
  ((isExcluded (file m) = true \/ isEnvVar def = true) /\
   (scanSecrets_step def acc m = acc \/
    isEnvVar def = true /\
    exists x, scanSecrets_step def acc m = (acc.1, setAdd acc.2 x))).
Proof.
  destruct acc as [matches envVars]. unfold scanSecrets_step.
  destruct (isExcluded (file m)); [right; split; auto|].
  destruct (isEnvVar def); [|left; auto].
  right. split; [auto|].
  destruct (context m) as [ctx|]; [|now left].
  destruct (negb (Nat.eqb (length ctx) 0)); [|now left].
  destruct (RegExp.exec (sd_pattern def) ctx) as [a|]; [|now left].
  destruct (RegExp.captures a !! 0%nat) as [[m1|]|]; try now left.
  destruct (negb (Nat.eqb (length m1) 0)); [|now left].
  right. split; [reflexivity|]. exists m1. reflexivity.
Qed.

Lemma setAdd_NoDup (set : list (list N)) (x : list N) :
  NoDup set -> NoDup (setAdd set x).
Proof.
  intros H. unfold setAdd. destruct (bool_decide_reflect (x ∈ set)); [exact H|].
  apply NoDup_app. split; [exact H|]. split.
  - intros y Hy Hx. apply list_elem_of_singleton in Hx as ->. contradiction.
  - apply NoDup_singleton.
Qed.

Lemma setAdd_length (set : list (list N)) (x : list N) :
  (length (setAdd set x) <= S (length set))%nat.
Proof.
  unfold setAdd. destruct (bool_decide (x ∈ set)); [lia|].
  rewrite length_app. cbn. lia.
Qed.

(** The loop over the Matches of one definition. *)
Lemma inner_loop (def : SecretDef) (results : list Match)
    (acc : list SecretScanner.Secret * list (list N)) :
  let out := foldl (scanSecrets_step def) acc results in
  out.1 = acc.1 ++ (if isEnvVar def then []
                    else List.map (secretOf def)
                           (List.filter (fun m => negb (isExcluded (file m)))
                              results)) /\
  (NoDup acc.2 -> NoDup out.2) /\
  (length out.2
   <= length acc.2 + (if isEnvVar def then length results else 0))%nat.
Proof.
  cbv zeta. revert acc. induction results as [|m results IH]; intros acc;
    cbn [foldl List.filter length].
  - split; [destruct (isEnvVar def); now rewrite app_nil_r|].
    split; [auto | lia].
  - destruct (IH (scanSecrets_step def acc m)) as [IH1 [IH2 IH3]].
    rewrite IH1.
    destruct (step_cases def acc m)
      as [[Hex [Henv E]]|[Hor [E|[Henv [x E]]]]]; rewrite E in *;
      cbn [fst snd] in *.
    + rewrite Hex, Henv in *. cbn [negb List.map].
      split; [now rewrite <- app_assoc|]. split; [exact IH2 | lia].
    + split; [|split; [exact IH2|destruct (isEnvVar def); lia]].
      destruct (isEnvVar def); [reflexivity|].
      destruct Hor as [->|H]; [reflexivity | discriminate].
    + rewrite Henv in *. pose proof (setAdd_length acc.2 x).
      split; [reflexivity|].
      split; [intros H'; apply IH2, setAdd_NoDup, H' | lia].
Qed.

(** The loop over the definitions. *)
Lemma outer_loop (p : Project) (g : string) (defs : list SecretDef)
    (acc : list SecretScanner.Secret * list (list N)) :
  let out :=
    foldl (fun acc secretDef =>
             foldl (scanSecrets_step secretDef) acc
               (findFilesWithPattern p g (PRegExp (sd_pattern secretDef))))
          acc defs in
  out.1 = acc.1 ++
          flat_map (fun def =>
                      if isEnvVar def then []
                      else List.map (secretOf def)
                             (List.filter
                                (fun m => negb (isExcluded (file m)))
                                (findFilesWithPattern p g
                                   (PRegExp (sd_pattern def))))) defs /\
  (NoDup acc.2 -> NoDup out.2) /\
  (length out.2
   <= length acc.2
      + length (List.filter isEnvVar defs) * length (findFiles p g))%nat.
Proof.
  cbv zeta. revert acc. induction defs as [|def defs IH]; intros acc;
    cbn [foldl flat_map List.filter length].
  - rewrite app_nil_r. split; [reflexivity|]. split; [auto | lia].
  - destruct (IH (foldl (scanSecrets_step def) acc
                    (findFilesWithPattern p g (PRegExp (sd_pattern def)))))
      as [IH1 [IH2 IH3]].
    destruct (inner_loop def
                (findFilesWithPattern p g (PRegExp (sd_pattern def))) acc)
      as [H1 [H2 H3]].
    rewrite IH1, H1, <- app_assoc.
    split; [reflexivity|]. split; [auto|].
    pose proof (CollectFacts.matches_at_most_files p g
                  (PRegExp (sd_pattern def))) as Hle.
    destruct (isEnvVar def); cbn [length]; lia.
Qed.

(** The result of the scan, read off the loops. *)
Lemma scanSecrets_loops (p : Project) :
  let g := "**/*.{js,ts,jsx,tsx,json,env,config,yml,yaml}" in
  secrets (scanSecrets p)
  = flat_map (fun def =>
                if isEnvVar def then []
                else List.map (secretOf def)
                       (List.filter (fun m => negb (isExcluded (file m)))
                          (findFilesWithPattern p g
                             (PRegExp (sd_pattern def))))) secretPatterns /\
  NoDup (used (environmentVariables (scanSecrets p))) /\
  (length (used (environmentVariables (scanSecrets p)))
   <= length (findFiles p g))%nat.
Proof.
  cbv zeta. unfold scanSecrets. cbv zeta.
  change (String.append "**/*.{"
            (String.append (String.concat "," fileExtensions) "}"))
    with "**/*.{js,ts,jsx,tsx,json,env,config,yml,yaml}".
  destruct (outer_loop p "**/*.{js,ts,jsx,tsx,json,env,config,yml,yaml}"
              secretPatterns ([], [])) as [H1 [H2 H3]].
  destruct (foldl _ ([], []) secretPatterns) as [matches envVars].
  cbn [secrets environmentVariables used fst snd] in *.
  split; [exact H1|]. split; [apply H2; constructor|].
  change (length (List.filter isEnvVar secretPatterns)) with 1%nat in H3.
  cbn [length] in H3. lia.
Qed.

Lemma str_append (a b : string) :
  JS.str (String.append a b) = JS.str a ++ JS.str b.
Proof.
  unfold JS.str. induction a as [|c a IH]; [reflexivity|].
  simpl. now rewrite IH.
Qed.

Lemma slashes_app (a b : list N) : slashes (a ++ b) = (slashes a + slashes b)%nat.
Proof. unfold slashes. now rewrite List.filter_app, length_app. Qed.

Lemma slashes_none (s : list N) : 47%N ∉ s -> slashes s = 0%nat.
Proof.
  unfold slashes. induction s as [|c s IH]; [reflexivity|].
  intros H. apply not_elem_of_cons in H as [Hc Hs]. cbn [List.filter].
  destruct (N.eqb_spec c 47) as [->|_]; [contradiction | auto].
Qed.

Lemma no_slash (s : list N) :
  forallb (fun c => negb (c =? 47)%N) s = true -> 47%N ∉ s.
Proof.
  induction s as [|c s IH]; cbn [forallb]; [intros _; apply not_elem_of_nil|].
  intros H. apply andb_true_iff in H as [Hc H].
  apply not_elem_of_cons. split; [|exact (IH H)].
  intros <-. discriminate.
Qed.

(** A path with a single slash is not excluded. *)
Lemma one_slash_not_excluded (dir name : string) :
  47%N ∉ JS.str dir -> 47%N ∉ JS.str name ->
  isExcluded (String.append dir (String.append "/" name)) = false.
Proof.
  intros Hd Hn. unfold isExcluded.
  apply not_true_is_false. intros H.
  apply existsb_exists in H as [d [_ H]].
  apply JSFacts.includes_spec in H as [pre [post H]].
  apply (f_equal slashes) in H.
  rewrite !str_append, !slashes_app in H.
  rewrite (slashes_none _ Hd), (slashes_none _ Hn) in H.
  change (slashes (JS.str "/")) with 1%nat in H. lia.
Qed.

End SecretFacts.

Module SecretListFacts.
Import SecretScan SecretProps.

(** Skipping the elements that fail a test is filtering them out. *)
Lemma flat_map_skip {A B} (c : A -> bool) (f : A -> list B) (l : list A) :
  flat_map (fun x => if c x then [] else f x) l
  = flat_map f (List.filter (fun x => negb (c x)) l).
Proof.
  induction l as [|x l IH]; [reflexivity|].
  cbn [flat_map List.filter]. rewrite IH.
  destruct (c x); reflexivity.
Qed.

(** What the Match of one file gives, once the excluded directories are
    left out. *)
Lemma kept_step (def : SecretDef) (f : SourceFile) :
  typeAndFile
    <$> List.map (secretOf def)
          (kept (findFilesWithPattern_step (PRegExp (sd_pattern def)) [] f))
  = (fun f => (sd_type def, relativePath f)) <$> holding def [f].
Proof.
  unfold kept, holding, findFilesWithPattern_step, RegExp.test.
  cbv zeta. cbn [List.filter].
  destruct (RegExp.exec (sd_pattern def) (content f)) as [m|];
    cbn [app List.filter file andb]; [|reflexivity].
  destruct (isExcluded (relativePath f)); reflexivity.
Qed.

Lemma kept_matches (p : Project) (g : string) (def : SecretDef) :
  typeAndFile
    <$> List.map (secretOf def)
          (kept (findFilesWithPattern p g (PRegExp (sd_pattern def))))
  = (fun f => (sd_type def, relativePath f)) <$> holding def (findFiles p g).
Proof.
  rewrite MatcherFacts.findFilesWithPattern_flat.
  induction (findFiles p g) as [|f files IH]; [reflexivity|].
  cbn [flat_map]. unfold kept in *. rewrite List.filter_app, List.map_app, fmap_app.
  rewrite IH. pose proof (kept_step def f) as H. unfold kept in H. rewrite H.
  unfold holding. cbn [List.filter].
  destruct (RegExp.test (sd_pattern def) (content f)
            && negb (isExcluded (relativePath f))); reflexivity.
Qed.

Lemma secret_severities (def : SecretDef) :
  def ∈ secretDefs -> sd_severity def = HIGH \/ sd_severity def = CRITICAL.
Proof.
  unfold secretDefs, secretPatterns.
  cbn [List.filter isEnvVar negb apiKey environmentVariable].
  rewrite !elem_of_cons, elem_of_nil.
  intros [->|[->|[->|[->|[->|[->|[->|[->|[->|[->|[->|[]]]]]]]]]]]];
    cbn [sd_severity]; auto.
Qed.

End SecretListFacts.

(** X21. The secrets that scanSecrets reports are, in this order and
    nothing else: for each of the eleven definitions that are not the
    environment-variable one, in the order of the registry, the Matches
    of the definition that lie outside the excluded directories, in the
    order of the corpus.  That is one secret for each such definition
    and each file that the definition matches and that is not excluded.
    Every secret is HIGH or CRITICAL, so each is read by the composite
    score. *)
Theorem reported_secrets (p : Project) :
  let g := "**/*.{js,ts,jsx,tsx,json,env,config,yml,yaml}" in
  let r := SecretScan.scanSecrets p in
  SecretScan.secrets r
  = flat_map (fun def =>
                List.map (SecretProps.secretOf def)
                  (SecretProps.kept
                     (findFilesWithPattern p g
                        (PRegExp (SecretScan.sd_pattern def)))))
      SecretProps.secretDefs /\
  SecretProps.typeAndFile <$> SecretScan.secrets r
  = flat_map (fun def =>
                (fun f => (SecretScan.sd_type def, relativePath f))
                  <$> SecretProps.holding def (findFiles p g))
      SecretProps.secretDefs /\
  length SecretProps.secretDefs = 11%nat /\
  Forall (fun s => SecretScanner.s_severity s = HIGH \/
                   SecretScanner.s_severity s = CRITICAL)
    (SecretScan.secrets r).
Proof.
  cbv zeta.
  destruct (SecretFacts.scanSecrets_loops p) as [-> _].
  rewrite SecretListFacts.flat_map_skip.
  fold SecretProps.secretDefs.
  split; [reflexivity|]. split; [|split; [reflexivity|]].
  - induction SecretProps.secretDefs as [|def defs IH]; [reflexivity|].
    cbn [flat_map]. rewrite fmap_app, IH. f_equal.
    apply SecretListFacts.kept_matches.
  - apply Forall_forall. intros s Hs.
    apply list_elem_of_In, in_flat_map in Hs as [def [Hdef Hs]].
    apply in_map_iff in Hs as [m [<- _]].
    apply list_elem_of_In in Hdef.
    exact (SecretListFacts.secret_severities def Hdef).
Qed.

Lemma reported_secrets_witness :
  SecretProps.typeAndFile
    <$> SecretScan.secrets (SecretScan.scanSecrets SecretExamples.app)
  = [("API Key", "dist/bundle.js"); ("Password", "src/db.js")].
Proof.
  rewrite (proj1 (proj2 (reported_secrets SecretExamples.app))).
  vm_compute. reflexivity.
Defined.

(** X22. scanSecrets does not skip a file that lies directly in a
    directory at the root of the project, whatever the directory is
    called: the path of such a file holds a single slash, and the
    exclusion looks for a directory name between two slashes.  A secret
    found in dist/bundle.js or node_modules/x.js is reported. *)
Theorem top_level_directory_is_scanned
    (p : Project) (def : SecretScan.SecretDef) (m : Match) (dir name : string) :
  def ∈ SecretScan.secretPatterns -> SecretScan.isEnvVar def = false ->
  m ∈ findFilesWithPattern p "**/*.{js,ts,jsx,tsx,json,env,config,yml,yaml}"
        (PRegExp (SecretScan.sd_pattern def)) ->
  file m = String.append dir (String.append "/" name) ->
  47%N ∉ JS.str dir -> 47%N ∉ JS.str name ->
  {| SecretScanner.s_file := file m;
     SecretScanner.s_line := line m;
     SecretScanner.s_type := SecretScan.sd_type def;
     SecretScanner.s_severity := SecretScan.sd_severity def;
     SecretScanner.s_context := context m |}
  ∈ SecretScan.secrets (SecretScan.scanSecrets p).
Proof.
  intros Hdef Henv Hm Hfile Hdir Hname.
  destruct (SecretFacts.scanSecrets_loops p) as [-> _].
  apply list_elem_of_In, in_flat_map. exists def.
  split; [apply list_elem_of_In, Hdef|]. rewrite Henv.
  apply (in_map (SecretProps.secretOf def)), filter_In.
  split; [apply list_elem_of_In, Hm|].
  rewrite Hfile, (SecretFacts.one_slash_not_excluded dir name Hdir Hname).
  reflexivity.
Qed.

Lemma top_level_directory_is_scanned_witness :
  let m := {| file := "dist/bundle.js"; line := Some 1;
              context := Some (JS.str "x = { 'api_key': 'abcdef0123456789' }") |} in
  {| SecretScanner.s_file := file m;
     SecretScanner.s_line := line m;
     SecretScanner.s_type := SecretScan.sd_type SecretScan.apiKey;
     SecretScanner.s_severity := SecretScan.sd_severity SecretScan.apiKey;
     SecretScanner.s_context := context m |}
  ∈ SecretScan.secrets (SecretScan.scanSecrets SecretExamples.app).
Proof.
  intros m.
  assert (Hm : m ∈ findFilesWithPattern SecretExamples.app
                     "**/*.{js,ts,jsx,tsx,json,env,config,yml,yaml}"
                     (PRegExp (SecretScan.sd_pattern SecretScan.apiKey)))
    by (vm_compute; left).
  apply (top_level_directory_is_scanned SecretExamples.app SecretScan.apiKey m
           "dist" "bundle.js").
  - left.
  - reflexivity.
  - exact Hm.
  - reflexivity.
  - apply SecretFacts.no_slash. reflexivity.
  - apply SecretFacts.no_slash. reflexivity.
Defined.

(** X23. The environment variables of the result: a used variable is
    listed once, at most one is found for each scanned file, since the
    matcher returns one Match for each file, and the missing variables
    are the used ones that are not defined, in the order of use. *)
Theorem environment_variables_report (p : Project) :
  let e := SecretScan.environmentVariables (SecretScan.scanSecrets p) in
  NoDup (SecretScan.used e) /\
  (length (SecretScan.used e)
   <= length (findFiles p "**/*.{js,ts,jsx,tsx,json,env,config,yml,yaml}"))%nat
  /\
  NoDup (SecretScan.missing e) /\
  forall v, v ∈ SecretScan.missing e <->
            v ∈ SecretScan.used e /\ v ∉ SecretScan.defined e.
Proof.
  cbv zeta. destruct (SecretFacts.scanSecrets_loops p) as [_ [Hnd Hlen]].
  split; [exact Hnd|]. split; [exact Hlen|].
  revert Hnd. unfold SecretScan.scanSecrets. cbv zeta.
  destruct (foldl _ ([], []) SecretScan.secretPatterns) as [matches envVars].
  cbn [SecretScan.environmentVariables SecretScan.used SecretScan.missing
       SecretScan.defined].
  intros Hnd. split.
  - apply NoDup_ListNoDup, List.NoDup_filter, NoDup_ListNoDup, Hnd.
  - intros v. rewrite !list_elem_of_In, filter_In, negb_true_iff,
      bool_decide_eq_false, <- !list_elem_of_In. reflexivity.
Qed.

Lemma environment_variables_report_witness :
  let e := SecretScan.environmentVariables
             (SecretScan.scanSecrets SecretExamples.app) in
  JS.str "DB_PORT" ∈ SecretScan.missing e /\
  JS.str "DB_PORT" ∈ SecretScan.used e /\
  JS.str "DB_PORT" ∉ SecretScan.defined e.
Proof.
  intros e.
  assert (H : JS.str "DB_PORT" ∈ SecretScan.missing e) by (vm_compute; left).
  split; [exact H|].
  exact (proj1 (proj2 (proj2 (proj2
           (environment_variables_report SecretExamples.app))) _) H).
Defined.

(** ** Literal patterns as substring tests *)

Module SubstringFacts.
Import RegExp.

(** A literal matches at an index exactly when the input holds its
    characters there, up to case under the [i] flag. *)
Lemma literal_matches (ic : bool) (input : list N) (cs : list N) (j : nat)
    (c : list (option (nat * nat))) :
  Forall2 (fun a ch => setHas ic (fun x => (x =? ch)%N) a = true)
    (take (length cs) (drop j input)) cs ->
  compile ic input (foldr (fun c r => RSeq (RChar c) r) REmpty cs) (j, c) Some
  <> None.
Proof.
  revert j. induction cs as [|ch cs IH]; intros j H; [discriminate|].
  cbn [foldr compile length] in *. unfold charMatcher. cbn [fst snd].
  destruct (drop j input) as [|a rest] eqn:E; [inversion H|].
  assert (Ej : input !! j = Some a).
  { rewrite <- (Nat.add_0_r j), <- lookup_drop, E. reflexivity. }
  rewrite Ej, xorb_false_r. cbn [take] in H.
  apply Forall2_cons in H as [Ha H]. rewrite Ha.
  assert (Er : drop (S j) input = rest)
    by (rewrite <- Nat.add_1_r, <- drop_drop, E; reflexivity).
  apply IH. rewrite Er. exact H.
Qed.

(** Under the [i] flag a character that is not an upper-case letter
    matches the characters that it is the lower case of. *)
Lemma folds_to (a ch : N) :
  JS.isUpper ch = false ->
  (setHas true (fun x => (x =? ch)%N) a = true <-> JS.toLower a = ch).
Proof.
  intros Hch. unfold setHas. rewrite orb_true_iff, !N.eqb_eq.
  unfold JS.toUpper, JS.toLower, JS.isLower, JS.isUpper in *.
  destruct (N.leb_spec 97 a), (N.leb_spec a 122), (N.leb_spec 65 a),
    (N.leb_spec a 90), (N.leb_spec 65 ch), (N.leb_spec ch 90);
    cbn [andb] in *; try discriminate; lia.
Qed.

Lemma folded_literal (l cs : list N) :
  forallb (fun ch => negb (JS.isUpper ch)) cs = true ->
  (Forall2 (fun a ch => setHas true (fun x => (x =? ch)%N) a = true) l cs
   <-> JS.toLowerCase l = cs).
Proof.
  unfold JS.toLowerCase. revert l.
  induction cs as [|ch cs IH]; intros l Hcs.
  - split.
    + intros H. inversion H. reflexivity.
    + destruct l; [constructor | discriminate].
  - cbn [forallb] in Hcs. apply andb_true_iff in Hcs as [Hch Hcs].
    apply negb_true_iff in Hch. destruct l as [|a l].
    + split; [intros H; inversion H | discriminate].
    + cbn [List.map]. rewrite Forall2_cons, (folds_to a ch Hch), (IH l Hcs).
      split; [intros [-> ->]; reflexivity | intros [= -> ->]; auto].
Qed.

(** The test of a literal without upper-case letter, under the [i]
    flag, is the search of the literal in the input put in lower
    case. *)
Lemma literal_test (s : string) (input : list N) :
  forallb (fun ch => negb (JS.isUpper ch)) (JS.str s) = true ->
  (test (icase (lit s)) input = true <->
   Spec.contains (JS.toLowerCase input) (JS.str s)).
Proof.
  intros Hs. unfold test, exec. split.
  - destruct (search (icase (lit s)) input (S (length input)) 0) as [a|] eqn:E;
      [intros _ | discriminate].
    apply LiteralFacts.search_matchAt in E as [y [Hy _]].
    unfold matchAt in Hy. cbn [source ignoreCase icase] in Hy.
    unfold lit in Hy. apply LiteralFacts.literal_end in Hy as [_ Hall].
    apply (folded_literal _ _ Hs) in Hall.
    set (n := length (JS.str s)) in *.
    exists (JS.toLowerCase (take (index a) input)),
           (JS.toLowerCase (drop (index a + n) input)).
    rewrite <- Hall. unfold JS.toLowerCase.
    rewrite <- !List.map_app. f_equal.
    rewrite <- (take_drop (index a) input) at 1. f_equal.
    rewrite <- (take_drop n (drop (index a) input)) at 1.
    f_equal. now rewrite drop_drop.
  - intros [pre [post H]].
    assert (Hlen : (length pre <= length input)%nat).
    { apply (f_equal length) in H. unfold JS.toLowerCase in H.
      rewrite length_map, !length_app in H. lia. }
    assert (Hm : matchAt (icase (lit s)) input (length pre) <> None).
    { unfold matchAt. cbn [source ignoreCase icase]. unfold lit.
      apply literal_matches, (folded_literal _ _ Hs).
      unfold JS.toLowerCase in *.
      rewrite <- (firstn_map), <- (skipn_map), H.
      rewrite drop_app_length, take_app_length. reflexivity. }
    pose proof (EngineFacts.search_found (icase (lit s)) input
                  (S (length input)) 0 (length pre) ltac:(lia) Hm) as Hf.
    destruct (search _ _ _ _); [reflexivity | congruence].
Qed.

Lemma some_file_matches (p : Project) (re : RegExp.t) :
  negb (Nat.eqb (length (findFilesWithPattern p filePattern (PRegExp re))) 0)
  = true <->
  exists f, f ∈ findFiles p filePattern /\ test re (content f) = true.
Proof.
  rewrite negb_true_iff, Nat.eqb_neq, length_zero_iff_nil. split.
  - intros H.
    destruct (findFilesWithPattern p filePattern (PRegExp re)) as [|m ms] eqn:E;
      [contradiction|].
    assert (Hm : m ∈ findFilesWithPattern p filePattern (PRegExp re))
      by (rewrite E; left).
    apply CollectFacts.test_of_match in Hm as [f [Hf [_ Ht]]]. eauto.
  - intros [f [Hf Ht]]. exact (CorsFacts.match_somewhere p re f Hf Ht).
Qed.

End SubstringFacts.

(** X24. What scanCORS calls a use of cors or of helmet is a substring
    test: there are configurations exactly when some file of the corpus
    holds the text cors( in upper or lower case, anywhere, and helmet is
    said to be used exactly when some file holds the text helmet( in
    upper or lower case. *)
Theorem cors_detection_is_a_substring_test (p : Project) :
  let r := CorsScanner.scanCORS p in
  (CorsScanner.configurations r <> [] <->
   exists f, f ∈ findFiles p filePattern /\
             Spec.contains (JS.toLowerCase (content f)) (JS.str "cors(")) /\
  (CorsScanner.helmetUsed r = true <->
   exists f, f ∈ findFiles p filePattern /\
             Spec.contains (JS.toLowerCase (content f)) (JS.str "helmet(")).
Proof.
  cbv zeta. unfold CorsScanner.scanCORS. cbv zeta.
  cbn [CorsScanner.configurations CorsScanner.helmetUsed]. split.
  - pose proof (SubstringFacts.some_file_matches p CorsScanner.corsCall) as H.
    rewrite negb_true_iff, Nat.eqb_neq, length_zero_iff_nil in H.
    rewrite <- (length_zero_iff_nil (List.map _ _)), length_map,
      length_zero_iff_nil, H.
    split; intros [f [Hf Ht]]; exists f; (split; [exact Hf|]);
      apply (SubstringFacts.literal_test "cors(" (content f) eq_refl), Ht.
  - rewrite (SubstringFacts.some_file_matches p CorsScanner.helmetCall).
    split; intros [f [Hf Ht]]; exists f; (split; [exact Hf|]);
      apply (SubstringFacts.literal_test "helmet(" (content f) eq_refl), Ht.
Qed.
(** ** Issues that two scanners report *)

Module CrossFacts.
Import CrossProps.

Lemma named_collect (p : Project) (n : string) (rules : list Rule) :
  named n (collectIssues p rules)
  = collectIssues p (List.filter (fun r => String.eqb (name r) n) rules).
Proof.
  unfold named. rewrite !ScannerFacts.collectIssues_flat.
  induction rules as [|rule rules IH]; [reflexivity|].
  cbn [flat_map List.filter]. rewrite List.filter_app, IH.
  assert (H : forall ms,
             List.filter (fun i => String.eqb (i_name i) n)
               (List.map (mkIssue rule) ms)
             = if String.eqb (name rule) n then List.map (mkIssue rule) ms
               else []).
  { induction ms as [|m ms IHms]; cbn [List.map List.filter i_name mkIssue].
    - now destruct (String.eqb (name rule) n).
    - rewrite IHms. now destruct (String.eqb (name rule) n). }
  rewrite H. destruct (String.eqb (name rule) n); reflexivity.
Qed.

Lemma places_of_rule (p : Project) (rule : Rule) :
  place <$> collectIssues p [rule]
  = placeOf <$> findFilesWithPattern p filePattern (PRegExp (pattern rule)).
Proof.
  rewrite ScannerFacts.collectIssues_flat. cbn [flat_map].
  rewrite app_nil_r.
  induction (findFilesWithPattern p filePattern (PRegExp (pattern rule)))
    as [|m ms IH]; [reflexivity|].
  cbn [List.map]. rewrite !fmap_cons, IH. reflexivity.
Qed.

Lemma scan_configurationIssues (p : Project) (r : MiddlewareScanner.Result) :
  MiddlewareScanner.scanMiddlewares p = Some r ->
  MiddlewareScanner.configurationIssues r
  = collectIssues p MiddlewareScanner.middlewareConfigPatterns.
Proof.
  unfold MiddlewareScanner.scanMiddlewares.
  destruct (MiddlewareScanner.resolvePackages p) as [installed missing].
  destruct (MiddlewareScanner.analyseSession p installed); [|discriminate].
  intros [= <-]. reflexivity.
Qed.

End CrossFacts.

(** X25. A wildcard origin is reported twice, at the same place: by
    scanCORS as 'CORS permissif avec wildcard' and by scanMiddlewares,
    whose rule 'CORS Permissif' has the same pattern, as a configuration
    issue; both are HIGH. *)
Theorem wildcard_origin_is_reported_twice
    (p : Project) (r : MiddlewareScanner.Result) :
  MiddlewareScanner.scanMiddlewares p = Some r ->
  CrossProps.place
    <$> CrossProps.named "CORS Permissif"
          (MiddlewareScanner.configurationIssues r)
  = CrossProps.place
      <$> CrossProps.named "CORS permissif avec wildcard"
            (CorsScanner.issues (CorsScanner.scanCORS p)) /\
  Forall (fun i => i_severity i = HIGH)
    (CrossProps.named "CORS Permissif"
       (MiddlewareScanner.configurationIssues r)).
Proof.
  intros Hscan. rewrite (CrossFacts.scan_configurationIssues p r Hscan).
  unfold CorsScanner.scanCORS. cbv zeta. cbn [CorsScanner.issues].
  rewrite !CrossFacts.named_collect.
  change (List.filter (fun r => String.eqb (name r) "CORS Permissif")
            MiddlewareScanner.middlewareConfigPatterns)
    with (take 1 MiddlewareScanner.middlewareConfigPatterns).
  change (List.filter
            (fun r => String.eqb (name r) "CORS permissif avec wildcard")
            CorsScanner.corsPatterns)
    with [CorsScanner.wildcardOrigin].
  cbn [take MiddlewareScanner.middlewareConfigPatterns]. split.
  - rewrite !CrossFacts.places_of_rule. reflexivity.
  - apply Forall_forall. intros i Hi.
    apply CollectFacts.collectIssues_elem in Hi as [rule [m [Hrule [_ ->]]]].
    apply list_elem_of_singleton in Hrule as ->. reflexivity.
Qed.

Lemma wildcard_origin_is_reported_twice_witness :
  exists r,
    MiddlewareScanner.scanMiddlewares Examples.wildcardScenario = Some r /\
    CrossProps.place
      <$> CrossProps.named "CORS permissif avec wildcard"
            (CorsScanner.issues (CorsScanner.scanCORS Examples.wildcardScenario))
    = [("server.js", Some 1, Some (JS.str "app.use(cors({origin: '*'}))"))] /\
    CrossProps.place
      <$> CrossProps.named "CORS Permissif"
            (MiddlewareScanner.configurationIssues r)
    = [("server.js", Some 1, Some (JS.str "app.use(cors({origin: '*'}))"))].
Proof.
  destruct (MiddlewareScanner.scanMiddlewares Examples.wildcardScenario)
    as [r|] eqn:E; [|vm_compute in E; discriminate].
  exists r. split; [reflexivity|].
  assert (Hc : CrossProps.place
      <$> CrossProps.named "CORS permissif avec wildcard"
            (CorsScanner.issues (CorsScanner.scanCORS Examples.wildcardScenario))
    = [("server.js", Some 1, Some (JS.str "app.use(cors({origin: '*'}))"))])
    by (vm_compute; reflexivity).
  split; [exact Hc|].
  rewrite (proj1 (wildcard_origin_is_reported_twice
                    Examples.wildcardScenario r E)).
  exact Hc.
Defined.

(** X26. scanMiddlewares reports 'Rate Limit Faible' at the place of
    every Match of the pattern of a limit, whatever the limit: its rule
    has the pattern of the rule 'Limite de taux faible' of scanRateLimit,
    but no threshold.  Every low limit that scanRateLimit reports is
    therefore reported by scanMiddlewares too, at the same place.  A
    Match whose limit, read on its one-line context, is at most 100 is
    reported by scanMiddlewares and not by scanRateLimit; a Match without
    context, as when the limiter is written over several lines, is
    reported by both, whatever its limit. *)
Theorem every_limit_is_reported_by_the_middleware_scanner
    (newRegExp : list N -> option RegExp.t) (p : Project)
    (r : MiddlewareScanner.Result) (rl : RateLimitScanner.Result) :
  MiddlewareScanner.scanMiddlewares p = Some r ->
  RateLimitScanner.scanRateLimit newRegExp p = Some rl ->
  let limits :=
    findFilesWithPattern p filePattern
      (PRegExp (pattern RateLimitScanner.lowMax)) in
  CrossProps.place
    <$> CrossProps.named "Rate Limit Faible"
          (MiddlewareScanner.configurationIssues r)
  = CrossProps.placeOf <$> limits /\
  (forall i,
     i ∈ RateLimitScanner.issues_configurationProblems rl ->
     i_name i = "Limite de taux faible" ->
     exists j,
       j ∈ MiddlewareScanner.configurationIssues r /\
       i_name j = "Rate Limit Faible" /\
       CrossProps.place j = CrossProps.place i) /\
  (forall m v,
     m ∈ limits -> Spec.captured RateLimitScanner.lowMax m v -> v <= 100 ->
     ~ Spec.reported (RateLimitScanner.issues_configurationProblems rl)
         RateLimitScanner.lowMax m /\
     exists j,
       j ∈ MiddlewareScanner.configurationIssues r /\
       i_name j = "Rate Limit Faible" /\
       CrossProps.place j = CrossProps.placeOf m) /\
  (forall m,
     m ∈ limits -> context m = None ->
     Spec.reported (RateLimitScanner.issues_configurationProblems rl)
       RateLimitScanner.lowMax m /\
     exists j,
       j ∈ MiddlewareScanner.configurationIssues r /\
       i_name j = "Rate Limit Faible" /\
       CrossProps.place j = CrossProps.placeOf m).
Proof.
  intros Hscan Hrl. cbv zeta.
  rewrite (CrossFacts.scan_configurationIssues p r Hscan).
  rewrite (ScannerFacts.scan_configurationProblems _ _ _ Hrl).
  assert (Hplaces :
    CrossProps.place
      <$> CrossProps.named "Rate Limit Faible"
            (collectIssues p MiddlewareScanner.middlewareConfigPatterns)
    = CrossProps.placeOf
        <$> findFilesWithPattern p filePattern
              (PRegExp (pattern RateLimitScanner.lowMax))).
  { rewrite CrossFacts.named_collect.
    change (List.filter (fun r => String.eqb (name r) "Rate Limit Faible")
              MiddlewareScanner.middlewareConfigPatterns)
      with (take 1 (drop 1 MiddlewareScanner.middlewareConfigPatterns)).
    cbn [take drop MiddlewareScanner.middlewareConfigPatterns].
    rewrite CrossFacts.places_of_rule. reflexivity. }
  assert (Hboth : forall m,
    m ∈ findFilesWithPattern p filePattern
          (PRegExp (pattern RateLimitScanner.lowMax)) ->
    exists j,
      j ∈ collectIssues p MiddlewareScanner.middlewareConfigPatterns /\
      i_name j = "Rate Limit Faible" /\
      CrossProps.place j = CrossProps.placeOf m).
  { intros m Hm.
    assert (Hin : CrossProps.placeOf m
                  ∈ CrossProps.place
                      <$> CrossProps.named "Rate Limit Faible"
                            (collectIssues p
                               MiddlewareScanner.middlewareConfigPatterns)).
    { rewrite Hplaces. apply list_elem_of_fmap. eauto. }
    apply list_elem_of_fmap in Hin as [j [Hj Hin]].
    unfold CrossProps.named in Hin.
    apply list_elem_of_In, filter_In in Hin as [Hin Hn].
    exists j. split; [apply list_elem_of_In, Hin|].
    split; [now apply String.eqb_eq|]. symmetry. exact Hj. }
  split; [exact Hplaces|]. split; [|split].
  - intros i Hi Hname.
    apply ScannerFacts.configurationIssuesOf_elem in Hi
      as [rule [m [value [Hrule [Hm [_ ->]]]]]].
    cbn [i_name] in Hname.
    apply (ScannerFacts.rule_of_name rule Hrule) in Hname as ->.
    exact (Hboth m Hm).
  - intros m v Hm Hcap Hv. split; [|exact (Hboth m Hm)].
    intros Hrep.
    apply (proj1 (ScannerFacts.threshold_filter p m v) Hm Hcap) in Hrep. lia.
  - intros m Hm Hctx. split; [|exact (Hboth m Hm)].
    eexists. split.
    + apply ScannerFacts.configurationIssuesOf_elem.
      exists RateLimitScanner.lowMax, m, None.
      split; [left|]. split; [exact Hm|]. split; [|reflexivity].
      exact (ScannerFacts.extractValue_null_context _ m Hctx).
    + repeat split.
Qed.

Lemma every_limit_is_reported_by_the_middleware_scanner_witness :
  (exists r rl,
     MiddlewareScanner.scanMiddlewares Examples.max50 = Some r /\
     Examples.scanRateLimit Examples.max50 = Some rl /\
     CrossProps.place
       <$> CrossProps.named "Rate Limit Faible"
             (MiddlewareScanner.configurationIssues r)
     = [("app.js", Some 1, Some (JS.str "app.use(rateLimit({ max: 50 }))"))] /\
     CrossProps.named "Limite de taux faible"
       (RateLimitScanner.issues_configurationProblems rl) = []) /\
  (exists r rl,
     MiddlewareScanner.scanMiddlewares RateLimitExamples.limitOnTwoLines
     = Some r /\
     Examples.scanRateLimit RateLimitExamples.limitOnTwoLines = Some rl /\
     CrossProps.place
       <$> CrossProps.named "Rate Limit Faible"
             (MiddlewareScanner.configurationIssues r)
     = [("app.js", None, None)] /\
     CrossProps.place
       <$> CrossProps.named "Limite de taux faible"
             (RateLimitScanner.issues_configurationProblems rl)
     = [("app.js", None, None)]).
Proof.
  split.
  - destruct (MiddlewareScanner.scanMiddlewares Examples.max50)
      as [r|] eqn:E; [|vm_compute in E; discriminate].
    assert (Hnone : CrossProps.named "Limite de taux faible"
                      <$> (RateLimitScanner.issues_configurationProblems
                             <$> Examples.scanRateLimit Examples.max50)
                    = Some []) by (vm_compute; reflexivity).
    destruct (Examples.scanRateLimit Examples.max50) as [rl|] eqn:El;
      [|discriminate].
    exists r, rl. split; [reflexivity|]. split; [reflexivity|].
    split; [|now injection Hnone].
    rewrite (proj1 (every_limit_is_reported_by_the_middleware_scanner
                      (fun _ => None) Examples.max50 r rl E El)).
    vm_compute. reflexivity.
  - destruct (MiddlewareScanner.scanMiddlewares
                RateLimitExamples.limitOnTwoLines)
      as [r|] eqn:E; [|vm_compute in E; discriminate].
    assert (Hboth : (fun l => CrossProps.place
                                <$> CrossProps.named "Limite de taux faible" l)
                      <$> (RateLimitScanner.issues_configurationProblems
                             <$> Examples.scanRateLimit
                                   RateLimitExamples.limitOnTwoLines)
                    = Some [("app.js", None, None)])
      by (vm_compute; reflexivity).
    destruct (Examples.scanRateLimit RateLimitExamples.limitOnTwoLines)
      as [rl|] eqn:El; [|discriminate].
    exists r, rl. split; [reflexivity|]. split; [reflexivity|].
    split; [|now injection Hboth].
    rewrite (proj1 (every_limit_is_reported_by_the_middleware_scanner
                      (fun _ => None) RateLimitExamples.limitOnTwoLines
                      r rl E El)).
    vm_compute. reflexivity.
Defined.

(** ** The loop over a registry of rules *)

Module LoopFacts.

Lemma match_files (p : Project) (g : string) (re : RegExp.t) :
  file <$> findFilesWithPattern p g (PRegExp re)
  = relativePath
      <$> List.filter (fun f => RegExp.test re (content f)) (findFiles p g).
Proof.
  rewrite MatcherFacts.findFilesWithPattern_flat.
  induction (findFiles p g) as [|f files IH]; [reflexivity|].
  cbn [flat_map List.filter].
  rewrite fmap_app, IH, (MatcherMore.step_files (PRegExp re) f).
  cbn [FileUtilsMore.fileContainsPattern].
  destruct (RegExp.test re (content f)); reflexivity.
Qed.

End LoopFacts.

(** X27. The loop that the scanners share, over the rules of a registry
    and the Matches of each rule, reports the rules in the order of the
    registry and, for each rule, the files of the corpus that the rule
    matches, in the order of the corpus, each file once; every issue
    carries the severity and the solution of its rule. *)
Theorem issues_by_rule_and_file (p : Project) (rules : list Rule) :
  LoopProps.nameAndFile <$> collectIssues p rules
  = flat_map (fun rule =>
                (fun f => (name rule, relativePath f))
                  <$> LoopProps.matching rule (findFiles p filePattern))
      rules /\
  forall i, i ∈ collectIssues p rules ->
    exists rule, rule ∈ rules /\ i_name i = name rule /\
                 i_severity i = severity rule /\
                 i_solution i = solution rule /\ i_value i = None.
Proof.
  split.
  - rewrite ScannerFacts.collectIssues_flat.
    induction rules as [|rule rules IH]; [reflexivity|].
    cbn [flat_map]. rewrite fmap_app, IH. f_equal.
    unfold LoopProps.matching.
    pose proof (LoopFacts.match_files p filePattern (pattern rule)) as Hfiles.
    revert Hfiles.
    generalize (List.filter
                  (fun f => RegExp.test (pattern rule) (content f))
                  (findFiles p filePattern)).
    induction (findFilesWithPattern p filePattern (PRegExp (pattern rule)))
      as [|m ms IHms]; intros [|f fs] Hfiles; try discriminate;
      [reflexivity|].
    rewrite !fmap_cons in Hfiles. injection Hfiles as Hf Hfs.
    cbn [List.map]. rewrite !fmap_cons, (IHms fs Hfs).
    unfold LoopProps.nameAndFile at 1. cbn [mkIssue i_name i_file].
    now rewrite Hf.
  - intros i Hi.
    apply CollectFacts.collectIssues_elem in Hi as [rule [m [Hrule [_ ->]]]].
    exists rule. repeat split. exact Hrule.
Qed.

Lemma issues_by_rule_and_file_witness :
  LoopProps.nameAndFile
    <$> collectIssues AuthExamples.shortSecret AuthScanner.authPatterns
  = [("JWT non vérifié", "auth.js"); ("Clé secrète JWT faible", "auth.js")].
Proof.
  rewrite (proj1 (issues_by_rule_and_file AuthExamples.shortSecret
                    AuthScanner.authPatterns)).
  vm_compute. reflexivity.
Defined.
